(** * Aurix trading bot: a shallow embedding of the decision and execution core

  The development follows the Python sources under [src/bot]:
  - [risk_manager.py]    -> [Module risk_manager]
  - [strategy_engine.py] -> [Module strategy_engine]
  - [trade_executor.py]  -> [Module trade_executor]
  - [trading_bot.py]     -> [Module trading_bot]

  Numbers.  A Python [float] is modelled as an exact rational ([Q]): the
  arithmetic of the model is the arithmetic the formulas are written in,
  without binary64 rounding, infinities or NaN.  A Python [int] is [Z].
  Operations that raise in Python return in the [outcome] type below.
  Where numpy would go on with [inf] or [nan] and a RuntimeWarning (a zero
  divisor, the mean of an empty slice), the model, which has no such
  values, stops with [Raise FloatingPointError].

  Callbacks.  [on_log], [on_state_change] and [on_trade] are flags: a
  callback that is set is called, the call is recorded in [notified], and
  the callback returns.  A property that needs more than that is stated
  for a bot without the callback. *)

From Stdlib Require Import QArith Qabs Qround ZArith Lia Lqa Ascii String.
From stdpp Require Import base option list strings gmap.

#[local] Open Scope Q_scope.
#[local] Open Scope string_scope.

(** ** Python prelude *)

Module Py.

(** The exceptions the modelled code can raise. *)
Inductive exn : Type :=
| ZeroDivisionError
| IndexError
| KeyError (key : string)
| ValueError
| TypeError
| AttributeError
| FloatingPointError.

(** The result of running a Python expression: a value or a raised
    exception. *)
Inductive outcome (A : Type) : Type :=
| Ok (a : A)
| Raise (e : exn).
#[global] Arguments Ok {A} a.
#[global] Arguments Raise {A} e.

#[global] Instance outcome_ret : MRet outcome := fun _ a => Ok a.
#[global] Instance outcome_bind : MBind outcome := fun _ _ f m =>
  match m with
  | Ok a => f a
  | Raise e => Raise e
  end.

(** Comparisons of floats, as booleans. *)
Definition Qltb (a b : Q) : bool := negb (Qle_bool b a).
Definition Qgtb (a b : Q) : bool := Qltb b a.
Definition Qleb (a b : Q) : bool := Qle_bool a b.
Definition Qgeb (a b : Q) : bool := Qle_bool b a.
Definition Qeqb (a b : Q) : bool := Qeq_bool a b.

(** [a / b] on Python floats (and on ints, whose true division is a
    float): a zero divisor raises. *)
Definition div (a b : Q) : outcome Q :=
  if Qeqb b 0 then Raise ZeroDivisionError else Ok (a / b).

(** [a / b] on numpy float64 scalars; a zero divisor leaves the finite
    floats. *)
Definition np_div (a b : Q) : outcome Q :=
  if Qeqb b 0 then Raise FloatingPointError else Ok (a / b).

(** [min(a, b)] and [max(a, b)]: the first argument unless the second is
    strictly better. *)
Definition min (a b : Q) : Q := if Qltb b a then b else a.
Definition max (a b : Q) : Q := if Qgtb b a then b else a.

(** [int(x)]: truncation toward zero. *)
Definition int (x : Q) : Z := Z.quot (Qnum x) (Z.pos (Qden x)).

(** [str.upper()] and [str.lower()], on ASCII letters. *)
Definition ascii_upper (c : ascii) : ascii :=
  let n := nat_of_ascii c in
  if ((97 <=? n) && (n <=? 122))%nat then ascii_of_nat (n - 32) else c.
Definition ascii_lower (c : ascii) : ascii :=
  let n := nat_of_ascii c in
  if ((65 <=? n) && (n <=? 90))%nat then ascii_of_nat (n + 32) else c.

Fixpoint upper (s : string) : string :=
  match s with
  | EmptyString => EmptyString
  | String c r => String (ascii_upper c) (upper r)
  end.
Fixpoint lower (s : string) : string :=
  match s with
  | EmptyString => EmptyString
  | String c r => String (ascii_lower c) (lower r)
  end.

(** [s.replace(c, '')] for a one-character [c]. *)
Fixpoint remove_char (c : ascii) (s : string) : string :=
  match s with
  | EmptyString => EmptyString
  | String d r => if Ascii.eqb c d then remove_char c r else String d (remove_char c r)
  end.

(** [sub in s] on strings. *)
Fixpoint contains (sub s : string) : bool :=
  String.prefix sub s ||
  match s with
  | EmptyString => false
  | String _ r => contains sub r
  end.

(** Truth value of an [Optional[str]]: [None] and the empty string are
    false. *)
Definition truthy (o : option string) : bool :=
  match o with
  | Some s => negb (String.eqb s "")
  | None => false
  end.

(** How values are printed inside f-strings.  [repr_float x] stands for
    [{x}] on a float, [format_fixed d x] for [{x:.df}] and [str_exn e] for
    [{e}] on a caught exception; the characters themselves play no role in
    the properties below, so the printer is a parameter of the model. *)
Record Printer : Type := {
  repr_float : Q -> string;
  format_fixed : nat -> Q -> string;
  str_exn : exn -> string
}.

(** Rounding to the nearest integer, ties to the even neighbour: the
    rounding of [round] and of the [.df] format. *)
Definition round_half_even (x : Q) : Z :=
  let f := Qfloor x in
  let d := x - inject_Z f in
  if Qltb d (1 # 2) then f
  else if Qltb (1 # 2) d then (f + 1)%Z
  else if Z.even f then f else (f + 1)%Z.

(** [round(x, ndigits)] *)
Definition round (x : Q) (ndigits : nat) : Q :=
  let scale := inject_Z (10 ^ Z.of_nat ndigits) in
  inject_Z (round_half_even (x * scale)) / scale.

(** Decimal digits of a natural number, most significant first. *)
Fixpoint digits_aux (fuel : nat) (n : N) (acc : string) : string :=
  match fuel with
  | O => acc
  | S fuel =>
      let acc := String (ascii_of_N (48 + n mod 10)) acc in
      if (n / 10 =? 0)%N then acc else digits_aux fuel (n / 10) acc
  end.
Definition str_of_N (n : N) : string := digits_aux (S (N.size_nat n)) n "".

(** [str(n)] for an int. *)
Definition str_of_Z (z : Z) : string :=
  if (z <? 0)%Z then "-" ++ str_of_N (Z.abs_N z) else str_of_N (Z.abs_N z).

(** [n] written with at least [width] digits, zero-padded on the left. *)
Fixpoint zero_pad (width : nat) (s : string) : string :=
  match (width - String.length s)%nat with
  | O => s
  | S _ => match width with
           | O => s
           | S w => "0" ++ zero_pad w s
           end
  end.

(** A printer for the exact rationals of the model: [:.df] rounds to [d]
    decimals; [repr] prints up to 17 decimals and drops trailing zeros. *)
Definition fixed_decimal (d : nat) (x : Q) : string :=
  let scaled := round_half_even (Qabs x * inject_Z (10 ^ Z.of_nat d)) in
  let p := (10 ^ Z.of_nat d)%Z in
  let whole := str_of_Z (scaled / p) in
  let frac := str_of_Z (scaled mod p) in
  let frac := String.substring (String.length frac - d) d (zero_pad d frac) in
  (if Qltb x 0 then "-" else "") ++ whole
  ++ (match d with O => "" | S _ => "." ++ frac end).

Fixpoint strip_zeros (rev_digits : list ascii) : list ascii :=
  match rev_digits with
  | c :: (d :: _) as r =>
      if Ascii.eqb c "0" && negb (Ascii.eqb d ".") then strip_zeros r
      else rev_digits
  | _ => rev_digits
  end.

Definition repr_decimal (x : Q) : string :=
  string_of_list_ascii
    (rev (strip_zeros (rev (list_ascii_of_string (fixed_decimal 17 x))))).

(** [f"{n:0wd}"] for an int: zero-padded to [w] characters, sign included. *)
Definition format_int_pad (w : nat) (z : Z) : string :=
  if (z <? 0)%Z then "-" ++ zero_pad (w - 1) (str_of_N (Z.abs_N z))
  else zero_pad w (str_of_N (Z.abs_N z)).

(** A reading of the wall clock ([datetime.now()]). *)
Definition datetime : Type := Z.

(** *** Sequences: indexing, slicing, reductions *)

(** The position [l[i]] denotes in a sequence of length [n]: a negative [i]
    counts from the end, anything outside raises [IndexError]. *)
Definition index (n : nat) (i : Z) : outcome nat :=
  let j := if (i <? 0)%Z then (i + Z.of_nat n)%Z else i in
  if ((0 <=? j) && (j <? Z.of_nat n))%Z then Ok (Z.to_nat j)
  else Raise IndexError.

(** [l[i]] *)
Definition getitem {A : Type} (l : list A) (i : Z) : outcome A :=
  j ← index (length l) i;
  match l !! j with
  | Some x => Ok x
  | None => Raise IndexError
  end.

(** [l[i] = x] *)
Definition setitem {A : Type} (l : list A) (i : Z) (x : A) : outcome (list A) :=
  j ← index (length l) i;
  Ok (<[j := x]> l).

(** A slice bound, clipped to [0 .. n]; [None] is an omitted bound. *)
Definition slice_bound (n : nat) (omitted : nat) (b : option Z) : nat :=
  match b with
  | None => omitted
  | Some i =>
      let j := if (i <? 0)%Z then (i + Z.of_nat n)%Z else i in
      Z.to_nat (Z.min (Z.max j 0) (Z.of_nat n))
  end.

(** [l[start:stop]] *)
Definition slice {A : Type} (l : list A) (start stop : option Z) : list A :=
  let n := length l in
  let a := slice_bound n 0 start in
  let b := slice_bound n n stop in
  take (b - a) (drop a l).

(** [range(a, b)] *)
Definition range (a b : Z) : list Z := seqZ a (b - a).

(** A [for] loop whose body can raise: the state is threaded through the
    items, and the first exception ends the loop. *)
Fixpoint for_each {A S : Type} (body : S -> A -> outcome S) (items : list A)
    (s : S) : outcome S :=
  match items with
  | [] => Ok s
  | x :: r => s' ← body s x; for_each body r s'
  end.

(** [min(l)] and [l.min()]: the first least element; an empty sequence
    raises [ValueError]. *)
Definition min_of (l : list Q) : outcome Q :=
  match l with
  | [] => Raise ValueError
  | x :: r => Ok (foldl (fun m y => if Qltb y m then y else m) x r)
  end.

(** [max(l)] and [l.max()] *)
Definition max_of (l : list Q) : outcome Q :=
  match l with
  | [] => Raise ValueError
  | x :: r => Ok (foldl (fun m y => if Qgtb y m then y else m) x r)
  end.

(** [d[k]] on a dict: a missing key raises [KeyError]. *)
Definition dict_getitem {V : Type} (d : gmap string V) (k : string) : outcome V :=
  match d !! k with
  | Some v => Ok v
  | None => Raise (KeyError k)
  end.

(** [[f(x) for x in l]] where [f] can raise. *)
Fixpoint map_each {A B : Type} (f : A -> outcome B) (l : list A)
    : outcome (list B) :=
  match l with
  | [] => Ok []
  | x :: r => y ← f x; ys ← map_each f r; Ok (y :: ys)
  end.

(** [sum(...)] of floats. *)
Definition Qsum (l : list Q) : Q := foldl Qplus 0 l.

(** [np.mean(l)]: the mean of an empty slice is [nan]. *)
Definition mean (l : list Q) : outcome Q :=
  match l with
  | [] => Raise FloatingPointError
  | _ => Ok (Qsum l / inject_Z (Z.of_nat (length l)))
  end.

Definition exn_name (e : exn) : string :=
  match e with
  | ZeroDivisionError => "division by zero"
  | IndexError => "index out of range"
  | KeyError k => "'" ++ k ++ "'"
  | ValueError => "invalid value"
  | TypeError => "unsupported operand type"
  | AttributeError => "'NoneType' object has no attribute"
  | FloatingPointError => "invalid value encountered"
  end.

Definition decimal_format : Printer :=
  {| repr_float := repr_decimal; format_fixed := fixed_decimal;
     str_exn := exn_name |}.

End Py.

Import Py.

(** ** risk_manager.py *)

Module risk_manager.

(** [@dataclass class PositionSize] *)
Record PositionSize : Type := {
  lot_size : Q;
  units : Z;
  risk_amount : Q;
  risk_percent : Q;
  stop_loss_pips : Q;
  potential_loss : Q;
  potential_profit : Q;
  margin_required : Q;
  is_valid : bool;
  warning : option string
}.

(** [PositionSize.to_dict]: the same keys, the floats rounded. *)
Definition to_dict (self : PositionSize) : PositionSize :=
  {| lot_size := round (lot_size self) 4;
     units := units self;
     risk_amount := round (risk_amount self) 2;
     risk_percent := round (risk_percent self) 2;
     stop_loss_pips := round (stop_loss_pips self) 1;
     potential_loss := round (potential_loss self) 2;
     potential_profit := round (potential_profit self) 2;
     margin_required := round (margin_required self) 2;
     is_valid := is_valid self;
     warning := warning self |}.

(** [RiskManager.LOT_SIZES] *)
Definition LOT_SIZES : gmap string Z :=
  list_to_map [("standard", 100000%Z); ("mini", 10000%Z); ("micro", 1000%Z)].

(** [RiskManager.PIP_VALUES] *)
Definition PIP_VALUES : gmap string Q :=
  list_to_map
    [("EURUSD", 10.0); ("GBPUSD", 10.0); ("AUDUSD", 10.0); ("NZDUSD", 10.0);
     ("USDCHF", 10.0); ("USDCAD", 10.0); ("USDJPY", 9.1); ("EURJPY", 9.1);
     ("GBPJPY", 9.1); ("XAUUSD", 10.0); ("BTCUSD", 1.0); ("BTCUSDT", 1.0);
     ("ETHUSD", 1.0); ("ETHUSDT", 1.0)].

(** The attributes of a [RiskManager] instance. *)
Record RiskManager : Type := {
  equity : Q;
  leverage : Z;
  account_type : string;
  max_risk_percent : Q;
  default_risk_percent : Q;
  account_currency : string;
  lot_multiplier : Z
}.

(** [RiskManager.__init__]; the keyword defaults are [leverage=100],
    [account_type='standard'], [max_risk_percent=2.0],
    [default_risk_percent=1.0], [account_currency='USD']. *)
Definition __init__ (equity : Q) (leverage : Z) (account_type : string)
    (max_risk_percent default_risk_percent : Q) (account_currency : string)
    : RiskManager :=
  let account_type := lower account_type in
  {| equity := equity;
     leverage := leverage;
     account_type := account_type;
     max_risk_percent := max_risk_percent;
     default_risk_percent := default_risk_percent;
     account_currency := account_currency;
     lot_multiplier := default 100000%Z (LOT_SIZES !! account_type) |}.

(** [RiskManager.update_equity] *)
Definition update_equity (self : RiskManager) (new_equity : Q) : RiskManager :=
  {| equity := new_equity;
     leverage := leverage self;
     account_type := account_type self;
     max_risk_percent := max_risk_percent self;
     default_risk_percent := default_risk_percent self;
     account_currency := account_currency self;
     lot_multiplier := lot_multiplier self |}.

(** [RiskManager.get_pip_value] *)
Definition get_pip_value (self : RiskManager) (symbol : string) (lot_size : Q)
    : outcome Q :=
  let symbol_upper := remove_char "/" (upper symbol) in
  let base_pip_value := default 10.0 (PIP_VALUES !! symbol_upper) in
  standard ← dict_getitem LOT_SIZES "standard";
  type_multiplier ← Py.div (inject_Z (lot_multiplier self)) (inject_Z standard);
  Ok (base_pip_value * lot_size * type_multiplier).

(** The pip size chosen by [RiskManager.calculate_pips]. *)
Definition pip_size (symbol : string) : Q :=
  let symbol_upper := upper symbol in
  if contains "JPY" symbol_upper then 0.01
  else if contains "BTC" symbol_upper || contains "ETH" symbol_upper then 1.0
  else if contains "XAU" symbol_upper then 0.1
  else 0.0001.

(** [RiskManager.calculate_pips].  The divisor is one of four non-zero
    literals, so the division cannot raise. *)
Definition calculate_pips (symbol : string) (entry_price stop_loss : Q) : Q :=
  let price_diff := Qabs (entry_price - stop_loss) in
  price_diff / pip_size symbol.

Section Sizing.
Context (fmt : Printer).

(** [RiskManager.calculate_position_size] *)
Definition calculate_position_size (self : RiskManager) (symbol : string)
    (entry_price stop_loss take_profit : Q) (risk_percent : option Q)
    : outcome PositionSize :=
  (* Use default if not specified *)
  let risk_percent := default (default_risk_percent self) risk_percent in
  (* Validate risk percent *)
  let clamped := Qgtb risk_percent (max_risk_percent self) in
  let warning :=
    if clamped
    then Some ("Risk " ++ repr_float fmt risk_percent ++ "% melebihi maksimum "
               ++ repr_float fmt (max_risk_percent self) ++ "%. Disesuaikan.")
    else None in
  let risk_percent := if clamped then max_risk_percent self else risk_percent in
  (* Calculate risk amount *)
  let risk_amount := equity self * (risk_percent / 100) in
  (* Calculate SL distance in pips *)
  let sl_pips := calculate_pips symbol entry_price stop_loss in
  if Qleb sl_pips 0 then
    Ok {| lot_size := 0;
          units := 0;
          risk_amount := risk_amount;
          risk_percent := risk_percent;
          stop_loss_pips := 0;
          potential_loss := 0;
          potential_profit := 0;
          margin_required := 0;
          is_valid := false;
          warning := Some "Invalid stop loss distance" |}
  else
    (* Get pip value per standard lot *)
    pip_value_per_lot ← get_pip_value self symbol 1.0;
    (* Lot Size = Risk Amount / (SL Pips x Pip Value per Lot) *)
    lot_size ← Py.div risk_amount (sl_pips * pip_value_per_lot);
    let units := Py.int (lot_size * inject_Z (lot_multiplier self)) in
    margin_required ←
      Py.div (inject_Z units * entry_price) (inject_Z (leverage self));
    (* Calculate potential loss (should equal risk_amount) *)
    let potential_loss := sl_pips * pip_value_per_lot * lot_size in
    let tp_pips := calculate_pips symbol entry_price take_profit in
    let potential_profit := tp_pips * pip_value_per_lot * lot_size in
    (* Validate margin *)
    let over_margin := Qgtb margin_required (equity self) in
    let is_valid := negb over_margin in
    let warning :=
      if over_margin
      then Some ("Margin required ($" ++ format_fixed fmt 2 margin_required
                 ++ ") melebihi equity ($" ++ format_fixed fmt 2 (equity self)
                 ++ ")")
      else warning in
    (* Check for very small lot size *)
    let warning :=
      if Qltb lot_size 0.01
      then Some ((if truthy warning then default "" warning ++ " | " else "")
                 ++ "Lot size sangat kecil (" ++ format_fixed fmt 4 lot_size
                 ++ "). Pertimbangkan akun micro.")
      else warning in
    Ok {| lot_size := lot_size;
          units := units;
          risk_amount := risk_amount;
          risk_percent := risk_percent;
          stop_loss_pips := sl_pips;
          potential_loss := potential_loss;
          potential_profit := potential_profit;
          margin_required := margin_required;
          is_valid := is_valid;
          warning := warning |}.

(** The dict returned by [validate_trade]. *)
Record Validation : Type := {
  v_is_valid : bool;
  v_errors : list string;
  v_warnings : list string;
  v_margin_required : Q;
  v_margin_percent : Q;
  v_risk_percent : Q;
  v_rrr : Q
}.

(** [RiskManager.validate_trade] *)
Definition validate_trade (self : RiskManager) (symbol : string)
    (entry_price stop_loss take_profit lot_size : Q) : outcome Validation :=
  let errors : list string := [] in
  let warnings : list string := [] in
  (* 1. Check margin *)
  let units := Py.int (lot_size * inject_Z (lot_multiplier self)) in
  margin_required ←
    Py.div (inject_Z units * entry_price) (inject_Z (leverage self));
  '(errors, warnings) ←
    (if Qgtb margin_required (equity self * 0.9) then
       Ok (app errors ["Margin (" ++ format_fixed fmt 2 margin_required
                       ++ ") melebihi 90% equity"], warnings)
     else if Qgtb margin_required (equity self * 0.5) then
       usage ← Py.div margin_required (equity self);
       Ok (errors,
           app warnings ["Margin usage tinggi: "
                         ++ format_fixed fmt 1 (usage * 100) ++ "%"])
     else Ok (errors, warnings));
  (* 2. Check SL distance *)
  let sl_pips := calculate_pips symbol entry_price stop_loss in
  let warnings :=
    if Qltb sl_pips 5
    then app warnings ["SL sangat dekat (" ++ format_fixed fmt 1 sl_pips
                       ++ " pips). Hati-hati dengan spread."]
    else warnings in
  (* 3. Check risk amount *)
  pip_value ← get_pip_value self symbol lot_size;
  let risk_amount := sl_pips * pip_value in
  risk_ratio ← Py.div risk_amount (equity self);
  let risk_percent := risk_ratio * 100 in
  let errors :=
    if Qgtb risk_percent (max_risk_percent self)
    then app errors ["Risk (" ++ format_fixed fmt 2 risk_percent
                     ++ "%) melebihi maksimum ("
                     ++ repr_float fmt (max_risk_percent self) ++ "%)"]
    else errors in
  (* 4. Check RRR *)
  let tp_pips := calculate_pips symbol entry_price take_profit in
  rrr ← (if Qgtb sl_pips 0 then Py.div tp_pips sl_pips else Ok 0);
  let warnings :=
    if Qltb rrr 1
    then app warnings ["RRR rendah (" ++ format_fixed fmt 2 rrr
                       ++ "). Pertimbangkan TP lebih jauh."]
    else warnings in
  margin_ratio ← Py.div margin_required (equity self);
  Ok {| v_is_valid := (length errors =? 0)%nat;
        v_errors := errors;
        v_warnings := warnings;
        v_margin_required := margin_required;
        v_margin_percent := margin_ratio * 100;
        v_risk_percent := risk_percent;
        v_rrr := rrr |}.

End Sizing.

End risk_manager.

(** ** strategy_engine.py *)

Module strategy_engine.

(** A candle: the dict with keys [open], [high], [low], [close], [volume]
    and [timestamp]. *)
Abbreviation Candle := (gmap string Q).

(** [@dataclass class TradeSignal] *)
Record TradeSignal : Type := {
  action : string;
  entry_price : Q;
  stop_loss : Q;
  take_profit : Q;
  swing_point : Q;
  ema_9 : Q;
  ema_21 : Q;
  ema_200 : Q;
  risk_reward_ratio : Q;
  confidence : Q;
  timestamp : datetime;
  reason : string
}.

(** The attributes of a [StrategyEngine] instance; [__init__] stores its
    arguments (defaults 9, 21, 200, 10, 1.5, 60.0) and sets the two
    crossover-tracking attributes, which no method reads or writes, to
    [None]. *)
Record StrategyEngine : Type := {
  ema_fast : Z;
  ema_medium : Z;
  ema_slow : Z;
  swing_lookback : Z;
  min_rrr : Q;
  min_confidence : Q;
  _prev_ema_fast : option Q;
  _prev_ema_medium : option Q
}.

(** [StrategyEngine.__init__] *)
Definition __init__ (ema_fast ema_medium ema_slow swing_lookback : Z)
    (min_rrr min_confidence : Q) : StrategyEngine :=
  {| ema_fast := ema_fast; ema_medium := ema_medium; ema_slow := ema_slow;
     swing_lookback := swing_lookback; min_rrr := min_rrr;
     min_confidence := min_confidence;
     _prev_ema_fast := None; _prev_ema_medium := None |}.

(** One turn of the loop of [calculate_ema]:
    [ema[i] = data[i] * multiplier + ema[i - 1] * (1 - multiplier)]. *)
Definition ema_step (data : list Q) (multiplier : Q) (ema : list Q) (i : Z)
    : outcome (list Q) :=
  d ← getitem data i;
  prev ← getitem ema (i - 1)%Z;
  setitem ema i (d * multiplier + prev * (1 - multiplier)).

(** [StrategyEngine.calculate_ema] *)
Definition calculate_ema (data : list Q) (period : Z) : outcome (list Q) :=
  if (Z.of_nat (length data) <? period)%Z then Ok []
  else
    multiplier ← Py.div 2 (inject_Z (period + 1));
    let ema := replicate (length data) 0 in
    (* SMA for the first value *)
    sma ← mean (slice data None (Some period));
    ema ← setitem ema (period - 1)%Z sma;
    for_each (ema_step data multiplier)
      (range period (Z.of_nat (length data))) ema.

(** The body of the scan of [find_swing_low]: the local minima found so
    far, extended by [lows[i]] when it is the least value of its window. *)
Definition swing_low_step (lows : list Q) (lookback : Z) (found : list Q) (i : Z)
    : outcome (list Q) :=
  x ← getitem lows i;
  m ← min_of (slice lows (Some (i - lookback)%Z) (Some (i + lookback + 1)%Z));
  Ok (if Qeqb x m then (found ++ [x])%list else found).

(** [StrategyEngine.find_swing_low] *)
Definition find_swing_low (lows : list Q) (lookback : Z) : outcome Q :=
  let n := Z.of_nat (length lows) in
  if (n <? lookback * 2 + 1)%Z then
    if (lookback <=? n)%Z then min_of (slice lows (Some (- lookback)%Z) None)
    else min_of lows
  else
    swing_lows ← for_each (swing_low_step lows lookback)
                   (range lookback (n - lookback)%Z) [];
    match last swing_lows with
    | Some x => Ok x
    | None => min_of (slice lows (Some (- lookback)%Z) None)
    end.

Definition swing_high_step (highs : list Q) (lookback : Z) (found : list Q)
    (i : Z) : outcome (list Q) :=
  x ← getitem highs i;
  m ← max_of (slice highs (Some (i - lookback)%Z) (Some (i + lookback + 1)%Z));
  Ok (if Qeqb x m then (found ++ [x])%list else found).

(** [StrategyEngine.find_swing_high] *)
Definition find_swing_high (highs : list Q) (lookback : Z) : outcome Q :=
  let n := Z.of_nat (length highs) in
  if (n <? lookback * 2 + 1)%Z then
    if (lookback <=? n)%Z then max_of (slice highs (Some (- lookback)%Z) None)
    else max_of highs
  else
    swing_highs ← for_each (swing_high_step highs lookback)
                    (range lookback (n - lookback)%Z) [];
    match last swing_highs with
    | Some x => Ok x
    | None => max_of (slice highs (Some (- lookback)%Z) None)
    end.

(** [StrategyEngine.detect_crossover] *)
Definition detect_crossover
    (ema_fast_current ema_medium_current ema_fast_prev ema_medium_prev : Q)
    : option string :=
  (* Golden Cross: EMA fast crosses above EMA medium *)
  if Qleb ema_fast_prev ema_medium_prev
     && Qgtb ema_fast_current ema_medium_current then Some "BULLISH"
  (* Death Cross: EMA fast crosses below EMA medium *)
  else if Qgeb ema_fast_prev ema_medium_prev
          && Qltb ema_fast_current ema_medium_current then Some "BEARISH"
  else None.

(** [calculate_confidence], first part (source lines 231-263): trend
    alignment and price position, by [action]. *)
Definition score_before_volume (action : string)
    (close ema_9 ema_21 ema_200 : Q) : outcome Q :=
  let confidence := 0.0 in
  if String.eqb action "BUY" then
    (* Trend alignment *)
    let confidence := if Qgtb close ema_200 then confidence + 25 else confidence in
    let confidence := if Qgtb ema_9 ema_21 then confidence + 20 else confidence in
    let confidence := if Qgtb ema_21 ema_200 then confidence + 15 else confidence in
    (* Price position *)
    ratio ← np_div (close - ema_9) close;
    let price_above_ema9 := ratio * 100 in
    Ok (if Qltb 0 price_above_ema9 && Qltb price_above_ema9 1 then confidence + 15
        else if Qgtb price_above_ema9 2 then confidence - 10
        else confidence)
  else if String.eqb action "SELL" then
    (* Trend alignment *)
    let confidence := if Qltb close ema_200 then confidence + 25 else confidence in
    let confidence := if Qltb ema_9 ema_21 then confidence + 20 else confidence in
    let confidence := if Qltb ema_21 ema_200 then confidence + 15 else confidence in
    (* Price position *)
    ratio ← np_div (ema_9 - close) close;
    let price_below_ema9 := ratio * 100 in
    Ok (if Qltb 0 price_below_ema9 && Qltb price_below_ema9 1 then confidence + 15
        else if Qgtb price_below_ema9 2 then confidence - 10
        else confidence)
  else Ok confidence.

(** [calculate_confidence], second part (source lines 265-269): volume
    confirmation. *)
Definition volume_confirmation (confidence volume_ratio : Q) : Q :=
  if Qgtb volume_ratio 1.2 then confidence + 15      (* Above average volume *)
  else if Qgtb volume_ratio 1.5 then confidence + 25 (* High volume *)
  else confidence.

(** [StrategyEngine.calculate_confidence] *)
Definition calculate_confidence (action : string)
    (close ema_9 ema_21 ema_200 volume_ratio : Q) : outcome Q :=
  confidence ← score_before_volume action close ema_9 ema_21 ema_200;
  let confidence := volume_confirmation confidence volume_ratio in
  (* Clamp to 0-100 *)
  Ok (Py.max 0 (Py.min 100 confidence)).

(** [TradeSignal.to_dict], and the key [symbol] the bot adds to the dict
    before handing it to the executor ([None] while absent).  The
    timestamp is kept as the clock reading its ISO string is printed
    from. *)
Record SignalDict : Type := {
  d_action : string;
  d_entry_price : Q;
  d_sl : Q;
  d_tp : Q;
  d_swing_point : Q;
  d_ema_9 : Q;
  d_ema_21 : Q;
  d_ema_200 : Q;
  d_risk_reward_ratio : Q;
  d_confidence : Q;
  d_timestamp : datetime;
  d_reason : string;
  d_symbol : option string
}.

Definition to_dict (self : TradeSignal) : SignalDict :=
  {| d_action := action self;
     d_entry_price := round (entry_price self) 5;
     d_sl := round (stop_loss self) 5;
     d_tp := round (take_profit self) 5;
     d_swing_point := round (swing_point self) 5;
     d_ema_9 := round (ema_9 self) 5;
     d_ema_21 := round (ema_21 self) 5;
     d_ema_200 := round (ema_200 self) 5;
     d_risk_reward_ratio := round (risk_reward_ratio self) 2;
     d_confidence := round (confidence self) 2;
     d_timestamp := timestamp self;
     d_reason := reason self;
     d_symbol := None |}.

Section Signals.
Context (fmt : Printer).

(** [StrategyEngine.get_signal].  [now] is the reading of the clock taken
    when the signal is built; the logging calls are not part of the
    state. *)
Definition get_signal (self : StrategyEngine) (ohlcv_data : list Candle)
    (now : datetime) : outcome (option TradeSignal) :=
  (* Minimum data *)
  let min_candles := Z.max (ema_slow self + 10) 250 in
  if (Z.of_nat (length ohlcv_data) <? min_candles)%Z then Ok None
  else
    (* Convert to numpy arrays *)
    opens ← map_each (fun c => dict_getitem c "open") ohlcv_data;
    highs ← map_each (fun c => dict_getitem c "high") ohlcv_data;
    lows ← map_each (fun c => dict_getitem c "low") ohlcv_data;
    closes ← map_each (fun c => dict_getitem c "close") ohlcv_data;
    let volumes := map (fun c : Candle => default 0 (c !! "volume")) ohlcv_data in
    (* EMAs *)
    ema_9 ← calculate_ema closes (ema_fast self);
    ema_21 ← calculate_ema closes (ema_medium self);
    ema_200 ← calculate_ema closes (ema_slow self);
    (* Current values *)
    current_close ← getitem closes (-1);
    current_ema_9 ← getitem ema_9 (-1);
    current_ema_21 ← getitem ema_21 (-1);
    current_ema_200 ← getitem ema_200 (-1);
    prev_ema_9 ← (if (1 <? length ema_9)%nat then getitem ema_9 (-2)
                  else Ok current_ema_9);
    prev_ema_21 ← (if (1 <? length ema_21)%nat then getitem ema_21 (-2)
                   else Ok current_ema_21);
    (* Volume ratio *)
    avg_volume ← (if (20 <=? length volumes)%nat
                  then mean (slice volumes (Some (-20)%Z) None)
                  else mean volumes);
    current_volume ← getitem volumes (-1);
    volume_ratio ← (if Qgtb avg_volume 0 then np_div current_volume avg_volume
                    else Ok 1.0);
    (* STEP 1: trend filter (EMA 200) *)
    let is_uptrend := Qgtb current_close current_ema_200 in
    let is_downtrend := Qltb current_close current_ema_200 in
    if negb is_uptrend && negb is_downtrend then Ok None
    else
      (* STEP 2: entry trigger (EMA 9/21 crossover) *)
      match detect_crossover current_ema_9 current_ema_21 prev_ema_9 prev_ema_21 with
      | None => Ok None
      | Some crossover =>
        (* the crossover must agree with the trend *)
        let decided : option (string * list string) :=
          if String.eqb crossover "BULLISH" && is_uptrend then
            Some ("BUY",
                  ["Golden Cross (EMA 9 > EMA 21)";
                   "Harga di atas EMA 200 (" ++ format_fixed fmt 2 current_close
                   ++ " > " ++ format_fixed fmt 2 current_ema_200 ++ ")"])
          else if String.eqb crossover "BEARISH" && is_downtrend then
            Some ("SELL",
                  ["Death Cross (EMA 9 < EMA 21)";
                   "Harga di bawah EMA 200 (" ++ format_fixed fmt 2 current_close
                   ++ " < " ++ format_fixed fmt 2 current_ema_200 ++ ")"])
          else None in
        match decided with
        | None => Ok None
        | Some (action, reason_parts) =>
          (* STEP 3: stop loss at the last swing low / high *)
          let entry_price := current_close in
          '(stop_loss, swing_point, reason_parts) ←
            (if String.eqb action "BUY" then
               swing_low ← find_swing_low lows (swing_lookback self);
               Ok (swing_low - swing_low * 0.001, swing_low,
                   app reason_parts ["SL di Swing Low: " ++ format_fixed fmt 2 swing_low])
             else
               swing_high ← find_swing_high highs (swing_lookback self);
               Ok (swing_high + swing_high * 0.001, swing_high,
                   app reason_parts ["SL di Swing High: " ++ format_fixed fmt 2 swing_high]));
          (* STEP 4: take profit at the minimum risk-reward ratio *)
          let sl_distance := Qabs (entry_price - stop_loss) in
          if Qeqb sl_distance 0 then Ok None
          else
            let tp_distance := sl_distance * min_rrr self in
            let take_profit :=
              if String.eqb action "BUY" then entry_price + tp_distance
              else entry_price - tp_distance in
            risk_reward_ratio ← np_div tp_distance sl_distance;
            let reason_parts :=
              app reason_parts ["TP dengan RRR 1:" ++ format_fixed fmt 1 risk_reward_ratio] in
            (* STEP 5: confidence *)
            confidence ← calculate_confidence action current_close
                           current_ema_9 current_ema_21 current_ema_200
                           volume_ratio;
            if Qltb confidence (min_confidence self) then Ok None
            else
              let reason_parts :=
                app reason_parts ["Confidence: " ++ format_fixed fmt 1 confidence ++ "%"] in
              Ok (Some {| action := action;
                          entry_price := entry_price;
                          stop_loss := stop_loss;
                          take_profit := take_profit;
                          swing_point := swing_point;
                          ema_9 := current_ema_9;
                          ema_21 := current_ema_21;
                          ema_200 := current_ema_200;
                          risk_reward_ratio := risk_reward_ratio;
                          confidence := confidence;
                          timestamp := now;
                          reason := String.concat " | " reason_parts |})
        end
      end.

End Signals.

(** Two signals that agree on every field but the timestamp. *)
Definition same_but_timestamp (s1 s2 : TradeSignal) : Prop :=
  action s1 = action s2 /\ entry_price s1 = entry_price s2
  /\ stop_loss s1 = stop_loss s2 /\ take_profit s1 = take_profit s2
  /\ swing_point s1 = swing_point s2 /\ ema_9 s1 = ema_9 s2
  /\ ema_21 s1 = ema_21 s2 /\ ema_200 s1 = ema_200 s2
  /\ risk_reward_ratio s1 = risk_reward_ratio s2
  /\ confidence s1 = confidence s2 /\ reason s1 = reason s2.

(** The dict returned by [analyze_market_state]: either the single key
    [error] or the eleven keys of the summary. *)
Record MarketSummary : Type := {
  current_price : Q;
  m_ema_9 : Q;
  m_ema_21 : Q;
  m_ema_200 : Q;
  trend : string;
  swing_low : Q;
  swing_high : Q;
  price_vs_ema200 : Q;
  ema9_vs_ema21 : string;
  ready_for_buy : bool;
  ready_for_sell : bool
}.

Inductive MarketState : Type :=
| MarketError (error : string)
| MarketInfo (summary : MarketSummary).

(** [StrategyEngine.analyze_market_state] *)
Definition analyze_market_state (self : StrategyEngine)
    (ohlcv_data : list Candle) : outcome MarketState :=
  if (Z.of_nat (length ohlcv_data) <? ema_slow self + 10)%Z
  then Ok (MarketError "Data tidak cukup")
  else
    closes ← map_each (fun c => dict_getitem c "close") ohlcv_data;
    highs ← map_each (fun c => dict_getitem c "high") ohlcv_data;
    lows ← map_each (fun c => dict_getitem c "low") ohlcv_data;
    ema_9 ← calculate_ema closes (ema_fast self);
    ema_21 ← calculate_ema closes (ema_medium self);
    ema_200 ← calculate_ema closes (ema_slow self);
    current_close ← getitem closes (-1);
    (* Determine trend *)
    last_200 ← getitem ema_200 (-1);
    trend ←
      (if Qgtb current_close last_200 then
         last_9 ← getitem ema_9 (-1);
         last_21 ← getitem ema_21 (-1);
         Ok (if Qgtb last_9 last_21 then "STRONG_UPTREND" else "WEAK_UPTREND")
       else if Qltb current_close last_200 then
         last_9 ← getitem ema_9 (-1);
         last_21 ← getitem ema_21 (-1);
         Ok (if Qltb last_9 last_21 then "STRONG_DOWNTREND" else "WEAK_DOWNTREND")
       else Ok "SIDEWAYS");
    last_9 ← getitem ema_9 (-1);
    last_21 ← getitem ema_21 (-1);
    low ← find_swing_low lows (swing_lookback self);
    high ← find_swing_high highs (swing_lookback self);
    ratio ← np_div (current_close - last_200) last_200;
    Ok (MarketInfo
          {| current_price := round current_close 5;
             m_ema_9 := round last_9 5;
             m_ema_21 := round last_21 5;
             m_ema_200 := round last_200 5;
             trend := trend;
             swing_low := round low 5;
             swing_high := round high 5;
             price_vs_ema200 := round (ratio * 100) 2;
             ema9_vs_ema21 := if Qgtb last_9 last_21 then "ABOVE" else "BELOW";
             ready_for_buy := Qgtb current_close last_200 && Qleb last_9 last_21;
             ready_for_sell := Qltb current_close last_200 && Qgeb last_9 last_21 |}).

(** A candle that carries the four prices, with a close that is not
    zero. *)
Definition priced (c : Candle) : Prop :=
  is_Some (c !! "open") /\ is_Some (c !! "high") /\ is_Some (c !! "low")
  /\ exists x, c !! "close" = Some x /\ ~ x == 0.

End strategy_engine.

(** ** trade_executor.py *)

Module trade_executor.

(** [class OrderStatus(Enum)] *)
Inductive OrderStatus : Type :=
| PENDING | FILLED | PARTIALLY_FILLED | CANCELLED | REJECTED | ERROR.

(** [@dataclass class OrderResult].  The field [raw_response], which only
    the live executor fills, is left out. *)
Record OrderResult : Type := {
  order_id : string;
  symbol : string;
  side : string;
  order_type : string;
  status : OrderStatus;
  entry_price : Q;
  filled_price : option Q;
  quantity : Q;
  filled_quantity : Q;
  stop_loss : option Q;
  take_profit : option Q;
  timestamp : datetime;
  error_message : option string
}.

(** An entry of [DryRunExecutor.positions]: the dict built by
    [execute_trade], with its ten keys. *)
Record Position : Type := {
  p_id : string;
  p_symbol : string;
  p_side : string;
  p_quantity : Q;
  p_entry_price : Q;
  p_stop_loss : option Q;
  p_take_profit : option Q;
  p_margin : Q;
  p_opened_at : datetime;
  p_pnl : Q
}.

(** The attributes of a [DryRunExecutor] instance. *)
Record DryRunExecutor : Type := {
  balance : Q;
  positions : list Position;
  order_history : list OrderResult;
  order_counter : Z;
  is_connected : bool
}.

(** [DryRunExecutor.__init__] *)
Definition __init__ (initial_balance : Q) : DryRunExecutor :=
  {| balance := initial_balance;
     positions := [];
     order_history := [];
     order_counter := 0;
     is_connected := false |}.

(** [DryRunExecutor.connect] *)
Definition connect (self : DryRunExecutor) : bool * DryRunExecutor :=
  (true,
   {| balance := balance self; positions := positions self;
      order_history := order_history self;
      order_counter := order_counter self; is_connected := true |}).

(** [DryRunExecutor.disconnect] *)
Definition disconnect (self : DryRunExecutor) : DryRunExecutor :=
  {| balance := balance self; positions := positions self;
     order_history := order_history self;
     order_counter := order_counter self; is_connected := false |}.

(** The dict returned by [get_balance]. *)
Record Balance : Type := { total : Q; free : Q; used : Q }.

(** [DryRunExecutor.get_balance] *)
Definition get_balance (self : DryRunExecutor) : Balance :=
  {| total := balance self;
     free := balance self - Qsum (map p_margin (positions self));
     used := Qsum (map p_margin (positions self)) |}.

Section DryRun.
Context (fmt : Printer).

(** [DryRunExecutor.execute_trade].  [now1] and [now2] are the first and
    the second reading of the clock during the call; the console logging
    is not part of the state. *)
Definition execute_trade (self : DryRunExecutor) (symbol side : string)
    (quantity entry_price : Q) (stop_loss take_profit : option Q)
    (now1 now2 : datetime) : OrderResult * DryRunExecutor :=
  let order_counter := (order_counter self + 1)%Z in
  let self :=
    {| balance := balance self; positions := positions self;
       order_history := order_history self;
       order_counter := order_counter; is_connected := is_connected self |} in
  let order_id := "DRY_" ++ format_int_pad 6 order_counter in
  (* Check balance (simplified) *)
  let margin_required := quantity * entry_price * 0.01 in
  let balance := get_balance self in
  if Qgtb margin_required (free balance) then
    ({| order_id := order_id;
        symbol := symbol;
        side := side;
        order_type := "MARKET";
        status := REJECTED;
        entry_price := entry_price;
        filled_price := None;
        quantity := quantity;
        filled_quantity := 0;
        stop_loss := stop_loss;
        take_profit := take_profit;
        timestamp := now1;
        error_message :=
          Some ("Insufficient balance. Required: $"
                ++ format_fixed fmt 2 margin_required ++ ", Available: $"
                ++ format_fixed fmt 2 (free balance)) |},
     self)
  else
    (* Simulate fill *)
    let filled_price := entry_price in
    let position :=
      {| p_id := order_id;
         p_symbol := symbol;
         p_side := side;
         p_quantity := quantity;
         p_entry_price := filled_price;
         p_stop_loss := stop_loss;
         p_take_profit := take_profit;
         p_margin := margin_required;
         p_opened_at := now1;
         p_pnl := 0.0 |} in
    let result :=
      {| order_id := order_id;
         symbol := symbol;
         side := side;
         order_type := "MARKET";
         status := FILLED;
         entry_price := entry_price;
         filled_price := Some filled_price;
         quantity := quantity;
         filled_quantity := quantity;
         stop_loss := stop_loss;
         take_profit := take_profit;
         timestamp := now2;
         error_message := None |} in
    (result,
     {| balance := trade_executor.balance self;
        positions := positions self ++ [position];
        order_history := order_history self ++ [result];
        order_counter := trade_executor.order_counter self;
        is_connected := is_connected self |}).

End DryRun.

(** [DryRunExecutor.get_open_positions]: a copy of the list. *)
Definition get_open_positions (self : DryRunExecutor) : list Position :=
  positions self.

(** Equality of two optional floats, as [==] decides it. *)
Definition opt_Qeqb (a b : option Q) : bool :=
  match a, b with
  | Some x, Some y => Qeqb x y
  | None, None => true
  | _, _ => false
  end.

(** [p == q] on two position dicts: the same keys with equal values. *)
Definition Position_eqb (p q : Position) : bool :=
  String.eqb (p_id p) (p_id q) && String.eqb (p_symbol p) (p_symbol q)
  && String.eqb (p_side p) (p_side q) && Qeqb (p_quantity p) (p_quantity q)
  && Qeqb (p_entry_price p) (p_entry_price q)
  && opt_Qeqb (p_stop_loss p) (p_stop_loss q)
  && opt_Qeqb (p_take_profit p) (p_take_profit q)
  && Qeqb (p_margin p) (p_margin q)
  && Z.eqb (p_opened_at p) (p_opened_at q) && Qeqb (p_pnl p) (p_pnl q).

(** [next((p for p in positions if p['id'] == position_id), None)] *)
Definition find_position (position_id : string) (l : list Position)
    : option Position :=
  List.find (fun p => String.eqb (p_id p) position_id) l.

(** [l.remove(x)]: drops the first element equal to [x]; [ValueError] when
    there is none. *)
Fixpoint list_remove (x : Position) (l : list Position)
    : outcome (list Position) :=
  match l with
  | [] => Raise ValueError
  | y :: r => if Position_eqb y x then Ok r
              else r' ← list_remove x r; Ok (y :: r')
  end.

(** [DryRunExecutor.close_position] *)
Definition close_position (self : DryRunExecutor) (position_id : string)
    (exit_price : Q) (now : datetime) : outcome (OrderResult * DryRunExecutor) :=
  match find_position position_id (positions self) with
  | None =>
      Ok ({| order_id := "CLOSE_" ++ position_id;
             symbol := "";
             side := "";
             order_type := "MARKET";
             status := ERROR;
             entry_price := 0;
             filled_price := None;
             quantity := 0;
             filled_quantity := 0;
             stop_loss := None;
             take_profit := None;
             timestamp := now;
             error_message := Some ("Position " ++ position_id ++ " not found") |},
          self)
  | Some position =>
      (* Calculate PnL *)
      let pnl :=
        if String.eqb (p_side position) "BUY"
        then (exit_price - p_entry_price position) * p_quantity position
        else (p_entry_price position - exit_price) * p_quantity position in
      let balance := balance self + pnl in
      positions ← list_remove position (positions self);
      Ok ({| order_id := "CLOSE_" ++ position_id;
             symbol := p_symbol position;
             side := if String.eqb (p_side position) "BUY" then "SELL" else "BUY";
             order_type := "MARKET";
             status := FILLED;
             entry_price := exit_price;
             filled_price := Some exit_price;
             quantity := p_quantity position;
             filled_quantity := p_quantity position;
             stop_loss := None;
             take_profit := None;
             timestamp := now;
             error_message := None |},
          {| balance := balance;
             positions := positions;
             order_history := order_history self;
             order_counter := order_counter self;
             is_connected := is_connected self |})
  end.

(** [DryRunExecutor.get_order_history] ([to_dict] keeps every field but
    [raw_response]). *)
Definition get_order_history (self : DryRunExecutor) : list OrderResult :=
  order_history self.

(** The dict returned by [DryRunExecutor.get_statistics] (its [mode] is
    the constant ['DRY_RUN']). *)
Record Statistics : Type := {
  total_orders : nat;
  filled_orders : nat;
  stat_open_positions : nat;
  current_balance : Q
}.

Definition is_filled (o : OrderResult) : bool :=
  match status o with
  | FILLED => true
  | _ => false
  end.

(** [DryRunExecutor.get_statistics] *)
Definition get_statistics (self : DryRunExecutor) : Statistics :=
  let total_trades := length (order_history self) in
  let filled_orders := List.filter is_filled (order_history self) in
  {| total_orders := total_trades;
     filled_orders := length filled_orders;
     stat_open_positions := length (positions self);
     current_balance := balance self |}.

(** The executors that calls of the methods can produce from a new one. *)
Inductive reachable (fmt : Printer) : DryRunExecutor -> Prop :=
| reach_init initial_balance : reachable fmt (__init__ initial_balance)
| reach_connect self :
    reachable fmt self -> reachable fmt (snd (connect self))
| reach_disconnect self :
    reachable fmt self -> reachable fmt (disconnect self)
| reach_execute_trade self symbol side quantity entry_price stop_loss
    take_profit now1 now2 :
    reachable fmt self ->
    reachable fmt
      (snd (execute_trade fmt self symbol side quantity entry_price
              stop_loss take_profit now1 now2))
| reach_close_position self position_id exit_price now result self' :
    reachable fmt self ->
    close_position self position_id exit_price now = Ok (result, self') ->
    reachable fmt self'.

(** [class BaseExecutor(ABC)]: what the wrapper [TradeExecutor] asks of an
    executor.  [execute_trade] takes the entry price, as both concrete
    executors and the wrapper have it, and two readings of the clock; an
    exception leaves the executor as it was.  ([get_open_positions] and
    [close_position], which the bot never calls, are not part of the
    class: the simulated [close_position] takes an exit price the abstract
    method does not have.) *)
Class BaseExecutor (E : Type) : Type := {
  base_connect : E -> bool * E;
  base_disconnect : E -> E;
  base_get_balance : E -> outcome Balance;
  base_execute_trade :
    E -> string -> string -> Q -> Q -> option Q -> option Q ->
    datetime -> datetime -> outcome (OrderResult * E)
}.

(** [DryRunExecutor] as a [BaseExecutor]. *)
Definition DryRun_BaseExecutor (fmt : Printer) : BaseExecutor DryRunExecutor :=
  {| base_connect := connect;
     base_disconnect := disconnect;
     base_get_balance := fun self => Ok (get_balance self);
     base_execute_trade :=
       fun self symbol side quantity entry_price stop_loss take_profit now1 now2 =>
         Ok (execute_trade fmt self symbol side quantity entry_price
               stop_loss take_profit now1 now2) |}.

(** The attributes of the wrapper [TradeExecutor] ([config] is only read
    by [__init__]). *)
Record TradeExecutor (E : Type) : Type := {
  dry_run : bool;
  executor_type : string;
  executor : E
}.
#[global] Arguments dry_run {E} _.
#[global] Arguments executor_type {E} _.
#[global] Arguments executor {E} _.

(** [str(x)] of an [Optional[str]] inside an f-string. *)
Definition str_of_opt (o : option string) : string := default "None" o.

Section Wrapper.
Context (fmt : Printer) {E : Type} {base : BaseExecutor E}.

(** [TradeExecutor.initialize] *)
Definition initialize (self : TradeExecutor E) : bool * TradeExecutor E :=
  let '(ok, e) := base_connect (executor self) in
  (ok, {| dry_run := dry_run self; executor_type := executor_type self;
          executor := e |}).

(** [TradeExecutor.shutdown] *)
Definition shutdown (self : TradeExecutor E) : TradeExecutor E :=
  {| dry_run := dry_run self; executor_type := executor_type self;
     executor := base_disconnect (executor self) |}.

(** [TradeExecutor.execute_signal].  The signal dict carries the keys of
    [TradeSignal.to_dict]; [symbol] falls back to ['BTCUSDT'].  [now1] and
    [now2] are readings of the clock. *)
Definition execute_signal (self : TradeExecutor E)
    (signal : strategy_engine.SignalDict)
    (risk_manager : option risk_manager.RiskManager) (now1 now2 : datetime)
    : outcome (OrderResult * TradeExecutor E) :=
  let action := strategy_engine.d_action signal in
  let entry_price := strategy_engine.d_entry_price signal in
  let stop_loss := strategy_engine.d_sl signal in
  let take_profit := strategy_engine.d_tp signal in
  let symbol := default "BTCUSDT" (strategy_engine.d_symbol signal) in
  let run_trade (quantity : Q) : outcome (OrderResult * TradeExecutor E) :=
    '(result, e) ← base_execute_trade (executor self) symbol action quantity
                     entry_price (Some stop_loss) (Some take_profit) now1 now2;
    Ok (result, {| dry_run := dry_run self;
                   executor_type := executor_type self;
                   executor := e |}) in
  match risk_manager with
  | Some rm =>
      (* Calculate lot size if risk manager provided *)
      position_size ← risk_manager.calculate_position_size fmt rm symbol
                        entry_price stop_loss take_profit None;
      if negb (risk_manager.is_valid position_size) then
        Ok ({| order_id := "";
               symbol := symbol;
               side := action;
               order_type := "MARKET";
               status := REJECTED;
               entry_price := entry_price;
               filled_price := None;
               quantity := 0;
               filled_quantity := 0;
               stop_loss := Some stop_loss;
               take_profit := Some take_profit;
               timestamp := now1;
               error_message :=
                 Some ("Position size validation failed: "
                       ++ str_of_opt (risk_manager.warning position_size)) |},
            self)
      else run_trade (risk_manager.lot_size position_size)
  | None =>
      (* Default small quantity for safety *)
      run_trade 0.001
  end.

End Wrapper.

End trade_executor.

(** ** trading_bot.py *)

Module trading_bot.

(** The values a config attribute can hold: [None], a bool, an int, a float
    or a string, which are the types of the fields of [BotConfig];
    [update_config] stores whichever of them the caller passes. *)
Inductive pyval : Type :=
| VNone
| VBool (b : bool)
| VInt (z : Z)
| VFloat (q : Q)
| VStr (s : string).

(** [class BotState(Enum)] and its [value]. *)
Inductive BotState : Type :=
| STOPPED | STARTING | RUNNING | ANALYZING | TRADING | STOPPING | ERROR.

Definition BotState_value (s : BotState) : string :=
  match s with
  | STOPPED => "stopped"
  | STARTING => "starting"
  | RUNNING => "running"
  | ANALYZING => "analyzing"
  | TRADING => "trading"
  | STOPPING => "stopping"
  | ERROR => "error"
  end.

(** [@dataclass class BotConfig]: an instance is its attribute dictionary.
    The dataclass constructor fills the seventeen fields; these are the
    defaults. *)
Definition BotConfig_defaults : gmap string pyval :=
  list_to_map
    [("dry_run", VBool true);
     ("symbol", VStr "BTCUSDT");
     ("timeframe", VStr "1h");
     ("ema_fast", VInt 9);
     ("ema_medium", VInt 21);
     ("ema_slow", VInt 200);
     ("min_confidence", VFloat 60.0);
     ("min_rrr", VFloat 1.5);
     ("equity", VFloat 10000.0);
     ("leverage", VInt 100);
     ("risk_percent", VFloat 1.0);
     ("max_risk_percent", VFloat 2.0);
     ("exchange", VStr "binance");
     ("api_key", VStr "");
     ("api_secret", VStr "");
     ("sandbox", VBool true);
     ("analysis_interval", VInt 60);
     ("max_open_positions", VInt 1)].

(** [hasattr(obj, name)]: the name is an instance attribute, or it is
    found on the class ([class_attrs]: the method [to_dict] and what every
    object inherits). *)
Definition hasattr (class_attrs : gset string) (obj : gmap string pyval)
    (name : string) : bool :=
  bool_decide (is_Some (obj !! name)) || bool_decide (name ∈ class_attrs).


(** [setattr(obj, name, value)].  A plain name is stored in the attribute
    dictionary.  [__class__] takes a class and [__dict__] a dict, which no
    [pyval] is, so both raise [TypeError]; [__weakref__] is read-only and
    raises [AttributeError]. *)
Definition setattr (obj : gmap string pyval) (name : string) (value : pyval)
    : outcome (gmap string pyval) :=
  if (name =? "__class__")%string || (name =? "__dict__")%string
  then Raise TypeError
  else if (name =? "__weakref__")%string
  then Raise AttributeError
  else Ok (<[name := value]> obj).

(** [obj.name]: a name that is not an instance attribute raises (the data
    attributes of a config are all instance attributes). *)
Definition getattr (obj : gmap string pyval) (name : string) : outcome pyval :=
  match obj !! name with
  | Some v => Ok v
  | None => Raise AttributeError
  end.

(** Truth value of a Python value. *)
Definition truth (v : pyval) : bool :=
  match v with
  | VNone => false
  | VBool b => b
  | VInt z => negb (z =? 0)%Z
  | VFloat q => negb (Qeqb q 0)
  | VStr s => negb (String.eqb s "")
  end.

(** [n >= v] for an int [n]: numbers compare, anything else raises. *)
Definition int_ge (n : Z) (v : pyval) : outcome bool :=
  match v with
  | VInt z => Ok (z <=? n)%Z
  | VBool b => Ok (Z.b2z b <=? n)%Z
  | VFloat q => Ok (Qgeb (inject_Z n) q)
  | _ => Raise TypeError
  end.

(** A value used as a string ([symbol.upper()]). *)
Definition as_str (v : pyval) : outcome string :=
  match v with
  | VStr s => Ok s
  | _ => Raise AttributeError
  end.

(** A value used as an optional float ([risk_percent]). *)
Definition as_opt_float (v : pyval) : outcome (option Q) :=
  match v with
  | VNone => Ok None
  | VFloat q => Ok (Some q)
  | VInt z => Ok (Some (inject_Z z))
  | VBool b => Ok (Some (inject_Z (Z.b2z b)))
  | VStr _ => Raise TypeError
  end.

(** What a log entry carries in its [data] field. *)
Inductive LogData : Type :=
| MarketData (m : strategy_engine.MarketState)
| SignalData (d : strategy_engine.SignalDict)
| PositionData (p : risk_manager.PositionSize)
| OrderData (o : trade_executor.OrderResult).

(** [@dataclass class BotLog] *)
Record BotLog : Type := {
  timestamp : datetime;
  level : string;
  message : string;
  data : option LogData
}.

(** [@dataclass class TradeRecord] *)
Record TradeRecord : Type := {
  t_id : string;
  t_symbol : string;
  t_side : string;
  t_entry_price : Q;
  t_exit_price : option Q;
  t_quantity : Q;
  t_stop_loss : Q;
  t_take_profit : Q;
  t_status : string;
  t_pnl : Q;
  t_opened_at : datetime;
  t_closed_at : option datetime
}.

(** [TradingBot.stats] *)
Record Stats : Type := {
  total_signals : Z;
  total_trades : Z;
  winning_trades : Z;
  losing_trades : Z;
  total_pnl : Q;
  started_at : option datetime;
  last_signal_at : option datetime
}.

(** A call of one of the three callbacks given to the bot. *)
Inductive Event : Type :=
| LogEvent (l : BotLog)
| StateEvent (s : BotState)
| TradeEvent (t : TradeRecord).

(** The attributes of a [TradingBot] instance.  A callback is modelled by
    whether it was given ([on_log], ...) and by the calls made to it
    ([notified]); [ticks] counts the readings of the clock. *)
Record TradingBot (E : Type) : Type := {
  config : gmap string pyval;
  state : BotState;
  _running : bool;
  on_log : bool;
  on_state_change : bool;
  on_trade : bool;
  strategy : option strategy_engine.StrategyEngine;
  risk_manager : option risk_manager.RiskManager;
  executor : option (trade_executor.TradeExecutor E);
  data_fetcher : option string;
  logs : list BotLog;
  trade_history : list TradeRecord;
  open_positions : list TradeRecord;
  current_signal : option strategy_engine.TradeSignal;
  last_analysis : option strategy_engine.MarketState;
  stats : Stats;
  notified : list Event;
  ticks : nat
}.
#[global] Arguments config {E} _.
#[global] Arguments state {E} _.
#[global] Arguments _running {E} _.
#[global] Arguments on_log {E} _.
#[global] Arguments on_state_change {E} _.
#[global] Arguments on_trade {E} _.
#[global] Arguments strategy {E} _.
#[global] Arguments risk_manager {E} _.
#[global] Arguments executor {E} _.
#[global] Arguments data_fetcher {E} _.
#[global] Arguments logs {E} _.
#[global] Arguments trade_history {E} _.
#[global] Arguments open_positions {E} _.
#[global] Arguments current_signal {E} _.
#[global] Arguments last_analysis {E} _.
#[global] Arguments stats {E} _.
#[global] Arguments notified {E} _.
#[global] Arguments ticks {E} _.

Definition set_config {E : Type} (x : gmap string pyval) (self : TradingBot E) : TradingBot E :=
  {| config := x;
     state := state self;
     _running := _running self;
     on_log := on_log self;
     on_state_change := on_state_change self;
     on_trade := on_trade self;
     strategy := strategy self;
     risk_manager := risk_manager self;
     executor := executor self;
     data_fetcher := data_fetcher self;
     logs := logs self;
     trade_history := trade_history self;
     open_positions := open_positions self;
     current_signal := current_signal self;
     last_analysis := last_analysis self;
     stats := stats self;
     notified := notified self;
     ticks := ticks self |}.

Definition set_state {E : Type} (x : BotState) (self : TradingBot E) : TradingBot E :=
  {| config := config self;
     state := x;
     _running := _running self;
     on_log := on_log self;
     on_state_change := on_state_change self;
     on_trade := on_trade self;
     strategy := strategy self;
     risk_manager := risk_manager self;
     executor := executor self;
     data_fetcher := data_fetcher self;
     logs := logs self;
     trade_history := trade_history self;
     open_positions := open_positions self;
     current_signal := current_signal self;
     last_analysis := last_analysis self;
     stats := stats self;
     notified := notified self;
     ticks := ticks self |}.

Definition set_running {E : Type} (x : bool) (self : TradingBot E) : TradingBot E :=
  {| config := config self;
     state := state self;
     _running := x;
     on_log := on_log self;
     on_state_change := on_state_change self;
     on_trade := on_trade self;
     strategy := strategy self;
     risk_manager := risk_manager self;
     executor := executor self;
     data_fetcher := data_fetcher self;
     logs := logs self;
     trade_history := trade_history self;
     open_positions := open_positions self;
     current_signal := current_signal self;
     last_analysis := last_analysis self;
     stats := stats self;
     notified := notified self;
     ticks := ticks self |}.

Definition set_executor {E : Type} (x : option (trade_executor.TradeExecutor E)) (self : TradingBot E) : TradingBot E :=
  {| config := config self;
     state := state self;
     _running := _running self;
     on_log := on_log self;
     on_state_change := on_state_change self;
     on_trade := on_trade self;
     strategy := strategy self;
     risk_manager := risk_manager self;
     executor := x;
     data_fetcher := data_fetcher self;
     logs := logs self;
     trade_history := trade_history self;
     open_positions := open_positions self;
     current_signal := current_signal self;
     last_analysis := last_analysis self;
     stats := stats self;
     notified := notified self;
     ticks := ticks self |}.

Definition set_logs {E : Type} (x : list BotLog) (self : TradingBot E) : TradingBot E :=
  {| config := config self;
     state := state self;
     _running := _running self;
     on_log := on_log self;
     on_state_change := on_state_change self;
     on_trade := on_trade self;
     strategy := strategy self;
     risk_manager := risk_manager self;
     executor := executor self;
     data_fetcher := data_fetcher self;
     logs := x;
     trade_history := trade_history self;
     open_positions := open_positions self;
     current_signal := current_signal self;
     last_analysis := last_analysis self;
     stats := stats self;
     notified := notified self;
     ticks := ticks self |}.

Definition set_open_positions {E : Type} (x : list TradeRecord) (self : TradingBot E) : TradingBot E :=
  {| config := config self;
     state := state self;
     _running := _running self;
     on_log := on_log self;
     on_state_change := on_state_change self;
     on_trade := on_trade self;
     strategy := strategy self;
     risk_manager := risk_manager self;
     executor := executor self;
     data_fetcher := data_fetcher self;
     logs := logs self;
     trade_history := trade_history self;
     open_positions := x;
     current_signal := current_signal self;
     last_analysis := last_analysis self;
     stats := stats self;
     notified := notified self;
     ticks := ticks self |}.

Definition set_current_signal {E : Type} (x : option strategy_engine.TradeSignal) (self : TradingBot E) : TradingBot E :=
  {| config := config self;
     state := state self;
     _running := _running self;
     on_log := on_log self;
     on_state_change := on_state_change self;
     on_trade := on_trade self;
     strategy := strategy self;
     risk_manager := risk_manager self;
     executor := executor self;
     data_fetcher := data_fetcher self;
     logs := logs self;
     trade_history := trade_history self;
     open_positions := open_positions self;
     current_signal := x;
     last_analysis := last_analysis self;
     stats := stats self;
     notified := notified self;
     ticks := ticks self |}.

Definition set_last_analysis {E : Type} (x : option strategy_engine.MarketState) (self : TradingBot E) : TradingBot E :=
  {| config := config self;
     state := state self;
     _running := _running self;
     on_log := on_log self;
     on_state_change := on_state_change self;
     on_trade := on_trade self;
     strategy := strategy self;
     risk_manager := risk_manager self;
     executor := executor self;
     data_fetcher := data_fetcher self;
     logs := logs self;
     trade_history := trade_history self;
     open_positions := open_positions self;
     current_signal := current_signal self;
     last_analysis := x;
     stats := stats self;
     notified := notified self;
     ticks := ticks self |}.

Definition set_stats {E : Type} (x : Stats) (self : TradingBot E) : TradingBot E :=
  {| config := config self;
     state := state self;
     _running := _running self;
     on_log := on_log self;
     on_state_change := on_state_change self;
     on_trade := on_trade self;
     strategy := strategy self;
     risk_manager := risk_manager self;
     executor := executor self;
     data_fetcher := data_fetcher self;
     logs := logs self;
     trade_history := trade_history self;
     open_positions := open_positions self;
     current_signal := current_signal self;
     last_analysis := last_analysis self;
     stats := x;
     notified := notified self;
     ticks := ticks self |}.

Definition set_notified {E : Type} (x : list Event) (self : TradingBot E) : TradingBot E :=
  {| config := config self;
     state := state self;
     _running := _running self;
     on_log := on_log self;
     on_state_change := on_state_change self;
     on_trade := on_trade self;
     strategy := strategy self;
     risk_manager := risk_manager self;
     executor := executor self;
     data_fetcher := data_fetcher self;
     logs := logs self;
     trade_history := trade_history self;
     open_positions := open_positions self;
     current_signal := current_signal self;
     last_analysis := last_analysis self;
     stats := stats self;
     notified := x;
     ticks := ticks self |}.

Definition set_ticks {E : Type} (x : nat) (self : TradingBot E) : TradingBot E :=
  {| config := config self;
     state := state self;
     _running := _running self;
     on_log := on_log self;
     on_state_change := on_state_change self;
     on_trade := on_trade self;
     strategy := strategy self;
     risk_manager := risk_manager self;
     executor := executor self;
     data_fetcher := data_fetcher self;
     logs := logs self;
     trade_history := trade_history self;
     open_positions := open_positions self;
     current_signal := current_signal self;
     last_analysis := last_analysis self;
     stats := stats self;
     notified := notified self;
     ticks := x |}.

(** Bot methods: they read and change the bot, and can raise; what was
    changed before an exception stays changed. *)
Definition M (E A : Type) : Type := TradingBot E -> outcome A * TradingBot E.

#[global] Instance M_ret {E : Type} : MRet (M E) := fun _ a self => (Ok a, self).
#[global] Instance M_bind {E : Type} : MBind (M E) := fun _ _ f m self =>
  match m self with
  | (Ok a, self') => f a self'
  | (Raise e, self') => (Raise e, self')
  end.

Definition lift {E A : Type} (o : outcome A) : M E A := fun self => (o, self).
Definition get {E : Type} : M E (TradingBot E) := fun self => (Ok self, self).
Definition modify {E : Type} (f : TradingBot E -> TradingBot E) : M E unit :=
  fun self => (Ok tt, f self).

(** A [for] loop over [items] in the bot. *)
Fixpoint for_M {E A : Type} (body : A -> M E unit) (items : list A) : M E unit :=
  match items with
  | [] => mret tt
  | x :: r => body x;; for_M body r
  end.

(** [x] unless it is [None], as in [self.strategy.method(...)]. *)
Definition unwrap {E A : Type} (x : option A) : M E A :=
  match x with
  | Some a => mret a
  | None => lift (Raise AttributeError)
  end.

Section Bot.
Context (fmt : Printer) (time_at : nat -> datetime) (class_attrs : gset string).
Context {E : Type} {base : trade_executor.BaseExecutor E}.

(** [str(v)] inside an f-string. *)
Definition str_of_pyval (v : pyval) : string :=
  match v with
  | VNone => "None"
  | VBool true => "True"
  | VBool false => "False"
  | VInt z => str_of_Z z
  | VFloat q => repr_float fmt q
  | VStr s => s
  end.

(** [datetime.now()]: the next reading of the clock. *)
Definition now : M E datetime :=
  fun self => (Ok (time_at (ticks self)), set_ticks (S (ticks self)) self).

(** [TradingBot._log] (the console echo is not part of the state). *)
Definition _log (level message : string) (data : option LogData) : M E unit :=
  t ← now;
  let log_entry :=
    {| timestamp := t; level := level; message := message; data := data |} in
  modify (fun self => set_logs (logs self ++ [log_entry]) self);;
  (* Keep last 1000 logs *)
  modify (fun self =>
            if (1000 <? length (logs self))%nat
            then set_logs (slice (logs self) (Some (-1000)%Z) None) self
            else self);;
  (* Callback to frontend *)
  self ← get;
  if on_log self
  then modify (fun self => set_notified (notified self ++ [LogEvent log_entry]) self)
  else mret tt.

(** [TradingBot._set_state] *)
Definition _set_state (new_state : BotState) : M E unit :=
  self ← get;
  let old_state := state self in
  modify (set_state new_state);;
  _log "INFO" ("State changed: " ++ BotState_value old_state ++ " -> "
               ++ BotState_value new_state) None;;
  self ← get;
  if on_state_change self
  then modify (fun self => set_notified (notified self ++ [StateEvent new_state]) self)
  else mret tt.

(** [TradingBot.__init__]: the fresh bot, after its first log entry. *)
Definition __init__ (config : gmap string pyval)
    (on_log on_state_change on_trade : bool) : outcome unit * TradingBot E :=
  let self :=
    {| config := config;
       state := STOPPED;
       _running := false;
       on_log := on_log;
       on_state_change := on_state_change;
       on_trade := on_trade;
       strategy := None;
       risk_manager := None;
       executor := None;
       data_fetcher := None;
       logs := [];
       trade_history := [];
       open_positions := [];
       current_signal := None;
       last_analysis := None;
       stats := {| total_signals := 0; total_trades := 0; winning_trades := 0;
                   losing_trades := 0; total_pnl := 0.0; started_at := None;
                   last_signal_at := None |};
       notified := [];
       ticks := 0 |} in
  (dry_run ← lift (getattr config "dry_run");
   _log "INFO" ("TradingBot initialized - "
                ++ (if truth dry_run then "DRY RUN" else "LIVE") ++ " mode") None)
    self.

(** [TradingBot._execute_signal] *)
Definition _execute_signal (signal : strategy_engine.TradeSignal) : M E unit :=
  (* Check max positions *)
  self ← get;
  max_open_positions ← lift (getattr (config self) "max_open_positions");
  at_capacity ←
    lift (int_ge (Z.of_nat (length (open_positions self))) max_open_positions);
  if at_capacity : bool then
    _log "WARNING" ("Max positions reached (" ++ str_of_pyval max_open_positions
                    ++ "). Skipping signal.") None
  else
    _set_state TRADING;;
    (* Calculate position size *)
    self ← get;
    rm ← unwrap (risk_manager self);
    symbol ← lift (getattr (config self) "symbol");
    risk_percent ← lift (getattr (config self) "risk_percent");
    risk_percent ← lift (as_opt_float risk_percent);
    symbol ← lift (as_str symbol);
    position ←
      lift (risk_manager.calculate_position_size fmt rm symbol
              (strategy_engine.entry_price signal)
              (strategy_engine.stop_loss signal)
              (strategy_engine.take_profit signal) risk_percent);
    if negb (risk_manager.is_valid position) then
      _log "WARNING" ("Position size invalid: "
                      ++ trade_executor.str_of_opt (risk_manager.warning position))
           None
    else
      _log "INFO" ("Position: "
                   ++ format_fixed fmt 4 (risk_manager.lot_size position)
                   ++ " lots | Risk: $"
                   ++ format_fixed fmt 2 (risk_manager.risk_amount position))
           (Some (PositionData (risk_manager.to_dict position)));;
      (* Execute trade *)
      let d := strategy_engine.to_dict signal in
      let signal_dict :=
        {| strategy_engine.d_action := strategy_engine.d_action d;
           strategy_engine.d_entry_price := strategy_engine.d_entry_price d;
           strategy_engine.d_sl := strategy_engine.d_sl d;
           strategy_engine.d_tp := strategy_engine.d_tp d;
           strategy_engine.d_swing_point := strategy_engine.d_swing_point d;
           strategy_engine.d_ema_9 := strategy_engine.d_ema_9 d;
           strategy_engine.d_ema_21 := strategy_engine.d_ema_21 d;
           strategy_engine.d_ema_200 := strategy_engine.d_ema_200 d;
           strategy_engine.d_risk_reward_ratio :=
             strategy_engine.d_risk_reward_ratio d;
           strategy_engine.d_confidence := strategy_engine.d_confidence d;
           strategy_engine.d_timestamp := strategy_engine.d_timestamp d;
           strategy_engine.d_reason := strategy_engine.d_reason d;
           strategy_engine.d_symbol := Some symbol |} in
      self ← get;
      ex ← unwrap (executor self);
      t1 ← now;
      t2 ← now;
      '(result, ex) ←
        lift (trade_executor.execute_signal fmt ex signal_dict
                (risk_manager self) t1 t2);
      modify (set_executor (Some ex));;
      match trade_executor.status result with
      | trade_executor.FILLED =>
          _log "INFO" ("ORDER FILLED: " ++ trade_executor.order_id result)
               (Some (OrderData result));;
          (* Create trade record *)
          t ← now;
          let trade :=
            {| t_id := trade_executor.order_id result;
               t_symbol := symbol;
               t_side := strategy_engine.action signal;
               t_entry_price :=
                 match trade_executor.filled_price result with
                 | Some p => if Qeqb p 0 then strategy_engine.entry_price signal
                             else p
                 | None => strategy_engine.entry_price signal
                 end;
               t_exit_price := None;
               t_quantity := trade_executor.filled_quantity result;
               t_stop_loss := strategy_engine.stop_loss signal;
               t_take_profit := strategy_engine.take_profit signal;
               t_status := "open";
               t_pnl := 0.0;
               t_opened_at := t;
               t_closed_at := None |} in
          modify (fun self => set_open_positions (open_positions self ++ [trade]) self);;
          modify (fun self =>
                    let st := stats self in
                    set_stats {| total_signals := total_signals st;
                                 total_trades := total_trades st + 1;
                                 winning_trades := winning_trades st;
                                 losing_trades := losing_trades st;
                                 total_pnl := total_pnl st;
                                 started_at := started_at st;
                                 last_signal_at := last_signal_at st |} self);;
          self ← get;
          if on_trade self
          then modify (fun self => set_notified (notified self ++ [TradeEvent trade]) self)
          else mret tt
      | _ =>
          _log "ERROR" ("ORDER FAILED: "
                        ++ trade_executor.str_of_opt
                             (trade_executor.error_message result))
               (Some (OrderData result))
      end.

(** [TradingBot._analysis_cycle].  [fetched] is what the data fetcher
    returns (or raises) for this cycle. *)
Definition _analysis_cycle (fetched : outcome (list strategy_engine.Candle))
    : M E unit :=
  _set_state ANALYZING;;
  (* 1. Fetch data *)
  self ← get;
  symbol ← lift (getattr (config self) "symbol");
  _log "INFO" ("Fetching " ++ str_of_pyval symbol ++ " data...") None;;
  self ← get;
  _ ← unwrap (data_fetcher self);
  _ ← lift (getattr (config self) "symbol");
  _ ← lift (getattr (config self) "timeframe");
  ohlcv ← lift fetched;
  if (length ohlcv =? 0)%nat || (length ohlcv <? 250)%nat then
    _log "WARNING" ("Insufficient data: " ++ str_of_Z (Z.of_nat (length ohlcv))
                    ++ " candles") None
  else
    (* 2. Analyze market state *)
    self ← get;
    engine ← unwrap (strategy self);
    market_state ← lift (strategy_engine.analyze_market_state engine ohlcv);
    modify (set_last_analysis (Some market_state));;
    _log "INFO"
         ("Market: "
          ++ match market_state with
             | strategy_engine.MarketInfo m => strategy_engine.trend m
             | strategy_engine.MarketError _ => "None"
             end
          ++ " | Price: "
          ++ match market_state with
             | strategy_engine.MarketInfo m =>
                 repr_float fmt (strategy_engine.current_price m)
             | strategy_engine.MarketError _ => "None"
             end)
         (Some (MarketData market_state));;
    (* 3. Check for signal *)
    t ← now;
    signal ← lift (strategy_engine.get_signal fmt engine ohlcv t);
    match signal with
    | Some signal =>
        t ← now;
        modify (fun self =>
                  let st := stats self in
                  set_stats {| total_signals := total_signals st + 1;
                               total_trades := total_trades st;
                               winning_trades := winning_trades st;
                               losing_trades := losing_trades st;
                               total_pnl := total_pnl st;
                               started_at := started_at st;
                               last_signal_at := Some t |} self);;
        modify (set_current_signal (Some signal));;
        _log "INFO" ("SIGNAL DETECTED: " ++ strategy_engine.action signal ++ " @ "
                     ++ repr_float fmt (strategy_engine.entry_price signal))
             (Some (SignalData (strategy_engine.to_dict signal)));;
        (* 4. Execute if conditions met *)
        _execute_signal signal
    | None => _log "INFO" "No valid signal - waiting..." None
    end.

(** One turn of the main loop of [TradingBot.start]: a cycle, whose
    exception, if any, is caught and logged. *)
Definition loop_iteration (fetched : outcome (list strategy_engine.Candle))
    : M E unit :=
  fun self =>
    match _analysis_cycle fetched self with
    | (Ok tt, self') => (Ok tt, self')
    | (Raise e, self') =>
        _log "ERROR" ("Error in main loop: " ++ str_exn fmt e) None self'
    end.

(** The bot after the main loop has run once for each element of
    [fetches]. *)
Definition run_cycles (fetches : list (outcome (list strategy_engine.Candle)))
    (self : TradingBot E) : TradingBot E :=
  foldl (fun self fetched => snd (loop_iteration fetched self)) self fetches.

(** [TradingBot.update_config]; [updates] lists the items of the dict in
    iteration order. *)
Definition update_config (updates : list (string * pyval)) : M E unit :=
  for_M (fun '(key, value) =>
           self ← get;
           if hasattr class_attrs (config self) key then
             config' ← lift (setattr (config self) key value);
             modify (set_config config');;
             _log "INFO" ("Config updated: " ++ key ++ " = " ++ str_of_pyval value)
                  None
           else mret tt)
        updates.



(** [TradingBot.stop] *)
Definition stop : M E unit :=
  _log "INFO" "Stopping bot..." None;;
  _set_state STOPPING;;
  modify (set_running false);;
  self ← get;
  match executor self with
  | Some ex => modify (set_executor (Some (trade_executor.shutdown ex)))
  | None => mret tt
  end.

End Bot.

(** [TradingBot.get_logs] ([BotLog.to_dict] keeps the four fields of an
    entry). *)
Definition get_logs {E : Type} (self : TradingBot E) (limit : Z) : list BotLog :=
  slice (logs self) (Some (- limit)%Z) None.

(** *** Vocabulary of the properties *)

Section Vocabulary.
Context {E : Type}.

(** [ends_in P m Q]: run from a bot that satisfies [P], the method [m]
    ends, normally or by an exception, in a bot that satisfies [Q]. *)
Definition ends_in {A : Type} (P : TradingBot E -> Prop) (m : M E A)
    (Q : TradingBot E -> Prop) : Prop :=
  forall self, P self -> Q (snd (m self)).

(** What [_log] leaves alone: every attribute but [logs], the calls made
    to the callbacks and the clock. *)
Definition same_but_log (s s' : TradingBot E) : Prop :=
  config s' = config s /\ state s' = state s /\ _running s' = _running s
  /\ on_log s' = on_log s /\ on_state_change s' = on_state_change s
  /\ on_trade s' = on_trade s /\ strategy s' = strategy s
  /\ risk_manager s' = risk_manager s /\ executor s' = executor s
  /\ data_fetcher s' = data_fetcher s /\ trade_history s' = trade_history s
  /\ open_positions s' = open_positions s
  /\ current_signal s' = current_signal s
  /\ last_analysis s' = last_analysis s /\ stats s' = stats s.


(** The two attributes the position cap is about: the config is [c] and
    the number of open positions satisfies [k]. *)
Definition cap (c : gmap string pyval) (k : nat -> Prop) (s : TradingBot E)
    : Prop :=
  config s = c /\ k (length (open_positions s)).

Definition within_cap (c : gmap string pyval) (m : Z) : TradingBot E -> Prop :=
  cap c (fun n => (Z.of_nat n <= m)%Z).
Definition below_cap (c : gmap string pyval) (m : Z) : TradingBot E -> Prop :=
  cap c (fun n => (Z.of_nat n < m)%Z).

End Vocabulary.

(** How a bot on the simulated executor can differ after
    [_execute_signal]: nothing traded and the executor untouched, one
    trade opened on both sides, or an order placed that opened nothing. *)
Definition traded_in_step
    (s s' : TradingBot trade_executor.DryRunExecutor) : Prop :=
  (executor s' = executor s /\ open_positions s' = open_positions s)
  \/ (exists ex0 ex' p trade,
        executor s = Some ex0 /\ executor s' = Some ex'
        /\ trade_executor.positions (trade_executor.executor ex')
           = app (trade_executor.positions (trade_executor.executor ex0)) [p]
        /\ open_positions s' = app (open_positions s) [trade]
        /\ t_id trade = trade_executor.p_id p)
  \/ (exists ex0 ex',
        executor s = Some ex0 /\ executor s' = Some ex'
        /\ trade_executor.positions (trade_executor.executor ex')
           = trade_executor.positions (trade_executor.executor ex0)
        /\ open_positions s' = open_positions s).

End trading_bot.

(** ** Sample values *)

Module samples.

(** The manager of the usage example of risk_manager.py. *)
Definition manager : risk_manager.RiskManager :=
  risk_manager.__init__ 10000.0 100 "standard" 2.0 1.0 "USD".

(** The engine with the default periods. *)
Definition engine : strategy_engine.StrategyEngine :=
  strategy_engine.__init__ 9 21 200 10 1.5 60.0.

(** A simulated executor holding one BUY position, [DRY_000001]. *)
Definition executor : trade_executor.DryRunExecutor :=
  snd (trade_executor.execute_trade decimal_format
         (trade_executor.__init__ 10000.0) "BTCUSDT" "BUY" 0.1 50000 None None
         0%Z 0%Z).

(** A candle, and a history of 250 candles: 249 flat ones, then a close
    at 101 on twice the usual volume. *)
Definition candle (o h l c v : Q) : strategy_engine.Candle :=
  <["open" := o]> (<["high" := h]> (<["low" := l]> (<["close" := c]>
    (<["volume" := v]> ∅)))).

Definition history : list strategy_engine.Candle :=
  replicate 249 (candle 100 101 99 100 1000) ++ [candle 100 101.5 99.5 101 2000].

(** A clock that always reads 0. *)
Definition clock : nat -> datetime := fun _ => 0%Z.

(** A signal. *)
Definition signal : strategy_engine.TradeSignal :=
  {| strategy_engine.action := "BUY";
     strategy_engine.entry_price := 101;
     strategy_engine.stop_loss := 98.901;
     strategy_engine.take_profit := 104.1485;
     strategy_engine.swing_point := 99;
     strategy_engine.ema_9 := 100.2;
     strategy_engine.ema_21 := 100.09;
     strategy_engine.ema_200 := 100.01;
     strategy_engine.risk_reward_ratio := 1.5;
     strategy_engine.confidence := 75;
     strategy_engine.timestamp := 0%Z;
     strategy_engine.reason := "Golden Cross (EMA 9 > EMA 21)" |}.

(** A fresh dry-run bot with the default config, and the same bot with
    one open position. *)
Definition bot : trading_bot.TradingBot trade_executor.DryRunExecutor :=
  snd (trading_bot.__init__ clock trading_bot.BotConfig_defaults
         false false false).

Definition trade : trading_bot.TradeRecord :=
  {| trading_bot.t_id := "DRY_000001";
     trading_bot.t_symbol := "BTCUSDT";
     trading_bot.t_side := "BUY";
     trading_bot.t_entry_price := 101;
     trading_bot.t_exit_price := None;
     trading_bot.t_quantity := 0.1;
     trading_bot.t_stop_loss := 98.901;
     trading_bot.t_take_profit := 104.1485;
     trading_bot.t_status := "open";
     trading_bot.t_pnl := 0.0;
     trading_bot.t_opened_at := 0%Z;
     trading_bot.t_closed_at := None |}.

Definition busy_bot : trading_bot.TradingBot trade_executor.DryRunExecutor :=
  trading_bot.set_open_positions [trade] bot.

(** An engine whose fast period is longer than the sample history. *)
Definition slow_engine : strategy_engine.StrategyEngine :=
  strategy_engine.__init__ 300 21 200 10 1.5 60.0.

(** A signal dict whose stop is at its entry. *)
Definition flat_signal : strategy_engine.SignalDict :=
  {| strategy_engine.d_action := "BUY";
     strategy_engine.d_entry_price := 100;
     strategy_engine.d_sl := 100;
     strategy_engine.d_tp := 110;
     strategy_engine.d_swing_point := 100;
     strategy_engine.d_ema_9 := 100;
     strategy_engine.d_ema_21 := 100;
     strategy_engine.d_ema_200 := 100;
     strategy_engine.d_risk_reward_ratio := 1.5;
     strategy_engine.d_confidence := 75;
     strategy_engine.d_timestamp := 0%Z;
     strategy_engine.d_reason := "";
     strategy_engine.d_symbol := Some "EURUSD" |}.

(** The wrapper around a new simulated executor, and the sample bot
    holding it. *)
Definition wrapper : trade_executor.TradeExecutor trade_executor.DryRunExecutor :=
  {| trade_executor.dry_run := true;
     trade_executor.executor_type := "ccxt";
     trade_executor.executor := trade_executor.__init__ 10000.0 |}.

Definition dry_bot : trading_bot.TradingBot trade_executor.DryRunExecutor :=
  trading_bot.set_executor (Some wrapper) bot.

(** Names that [hasattr] finds on the class of a config: the method and
    some of what every object inherits. *)
Definition class_attrs : gset string :=
  list_to_set
    ["to_dict"; "__class__"; "__dict__"; "__weakref__"; "__doc__"; "__init__";
     "__eq__"; "__repr__"].

(** A bot as [initialize] and [start] leave it, without callbacks: the
    engine, the manager, the wrapper and a data fetcher are in place, and
    the symbol is EURUSD. *)
Definition live_bot : trading_bot.TradingBot trade_executor.DryRunExecutor :=
  {| trading_bot.config :=
       <["symbol" := trading_bot.VStr "EURUSD"]> trading_bot.BotConfig_defaults;
     trading_bot.state := trading_bot.RUNNING;
     trading_bot._running := true;
     trading_bot.on_log := false;
     trading_bot.on_state_change := false;
     trading_bot.on_trade := false;
     trading_bot.strategy := Some engine;
     trading_bot.risk_manager := Some manager;
     trading_bot.executor := Some wrapper;
     trading_bot.data_fetcher := Some "binance";
     trading_bot.logs := trading_bot.logs bot;
     trading_bot.trade_history := [];
     trading_bot.open_positions := [];
     trading_bot.current_signal := None;
     trading_bot.last_analysis := None;
     trading_bot.stats := trading_bot.stats bot;
     trading_bot.notified := [];
     trading_bot.ticks := trading_bot.ticks bot |}.

End samples.

(** * Properties *)

#[local] Close Scope string_scope.

Ltac step_bind := cbn [mbind outcome_bind mret outcome_ret].

(** ** Comparisons and division *)

Section Numbers.
Lemma Qltb_lt a b : Qltb a b = true <-> a < b.
Proof. unfold Qltb. rewrite negb_true_iff. split.
 - intros H. apply Qnot_le_lt. intros H'. apply Qle_bool_iff in H'. congruence.
 - intros H. destruct (Qle_bool b a) eqn:E; auto. apply Qle_bool_iff in E. lra.
Qed.
Lemma Qltb_ge a b : Qltb a b = false <-> b <= a.
Proof. unfold Qltb. rewrite negb_false_iff. apply Qle_bool_iff. Qed.
Lemma Qgtb_gt a b : Qgtb a b = true <-> b < a.
Proof. apply Qltb_lt. Qed.
Lemma Qgtb_le a b : Qgtb a b = false <-> a <= b.
Proof. apply Qltb_ge. Qed.
Lemma Qleb_le a b : Qleb a b = true <-> a <= b.
Proof. apply Qle_bool_iff. Qed.
Lemma Qleb_gt a b : Qleb a b = false <-> b < a.
Proof. unfold Qleb. split.
 - intros H. apply Qnot_le_lt. intros H'. apply Qle_bool_iff in H'. congruence.
 - intros H. destruct (Qle_bool a b) eqn:E; auto. apply Qle_bool_iff in E. lra.
Qed.
Lemma Qeqb_eq a b : Qeqb a b = true <-> a == b.
Proof. apply Qeq_bool_iff. Qed.
Lemma Qeqb_neq a b : Qeqb a b = false <-> ~ a == b.
Proof. unfold Qeqb. split.
 - apply Qeq_bool_neq.
 - intros H. destruct (Qeq_bool a b) eqn:E; auto. apply Qeq_bool_iff in E. contradiction.
Qed.
Lemma div_ok a b : ~ b == 0 -> Py.div a b = Ok (a / b).
Proof. intros H. unfold Py.div. apply Qeqb_neq in H. now rewrite H. Qed.
Lemma div_Ok_inv a b q : Py.div a b = Ok q -> ~ b == 0 /\ q = a / b.
Proof. unfold Py.div. destruct (Qeqb b 0) eqn:E; [discriminate|].
  intros [= <-]. split; [now apply Qeqb_neq|reflexivity]. Qed.
End Numbers.

(** ** The position sizer *)

Section RiskManagerFacts.
Import risk_manager.
Context (fmt : Printer).

Lemma LOT_SIZES_positive k : (0 < default 100000 (LOT_SIZES !! k))%Z.
Proof.
  destruct (LOT_SIZES !! k) eqn:E; simpl; [|lia].
  apply elem_of_list_to_map_2 in E.
  repeat (apply elem_of_cons in E as [E|E]; [injection E as -> ->; lia|]).
  apply elem_of_nil in E. destruct E.
Qed.

Lemma PIP_VALUES_positive k : 0 < default 10.0 (PIP_VALUES !! k).
Proof.
  destruct (PIP_VALUES !! k) eqn:E; simpl; [|reflexivity].
  apply elem_of_list_to_map_2 in E.
  repeat (apply elem_of_cons in E as [E|E]; [injection E as -> ->; reflexivity|]).
  apply elem_of_nil in E. destruct E.
Qed.

Lemma pip_size_positive symbol : 0 < pip_size symbol.
Proof. unfold pip_size. repeat case_match; reflexivity. Qed.

Lemma calculate_pips_nonneg symbol a b : 0 <= calculate_pips symbol a b.
Proof.
  unfold calculate_pips. apply Qle_shift_div_l; [apply pip_size_positive|].
  rewrite Qmult_0_l. apply Qabs_nonneg.
Qed.

Lemma calculate_pips_zero symbol a b : a == b -> calculate_pips symbol a b == 0.
Proof.
  intros H. unfold calculate_pips.
  assert (Hz : Qabs (a - b) == 0).
  { assert (E : a - b == 0) by lra. rewrite E. reflexivity. }
  rewrite Hz. unfold Qdiv. ring.
Qed.

Lemma calculate_pips_pos symbol a b : ~ a == b -> 0 < calculate_pips symbol a b.
Proof.
  intros H. unfold calculate_pips. apply Qlt_shift_div_l; [apply pip_size_positive|].
  rewrite Qmult_0_l.
  destruct (Qlt_le_dec 0 (Qabs (a - b))) as [Hp|Hn]; [exact Hp|].
  exfalso. apply H.
  assert (Hz : Qabs (a - b) == 0) by (apply Qle_antisym; [exact Hn|apply Qabs_nonneg]).
  assert (Hle : a - b <= 0) by (rewrite <- Hz; apply Qle_Qabs).
  assert (Hge : - (a - b) <= 0).
  { rewrite <- Hz. rewrite <- Qabs_opp. apply Qle_Qabs. }
  lra.
Qed.

(** The pip value of one lot is defined and positive once the lot
    multiplier is. *)
Lemma get_pip_value_positive self symbol :
  (0 < lot_multiplier self)%Z ->
  exists pv, get_pip_value self symbol 1.0 = Ok pv /\ 0 < pv.
Proof.
  intros Hm. unfold get_pip_value.
  change (dict_getitem LOT_SIZES "standard") with (Ok 100000%Z).
  cbn [mbind outcome_bind].
  rewrite div_ok by discriminate. cbn [mbind outcome_bind].
  eexists; split; [reflexivity|].
  pose proof (PIP_VALUES_positive (remove_char "/"%char (upper symbol))) as Hb.
  assert (Ht : 0 < inject_Z (lot_multiplier self) / inject_Z 100000).
  { apply Qlt_shift_div_l; [reflexivity|]. rewrite Qmult_0_l.
    change 0 with (inject_Z 0). rewrite <- Zlt_Qlt. exact Hm. }
  apply Qmult_lt_0_compat; [|exact Ht].
  apply Qmult_lt_0_compat; [exact Hb|reflexivity].
Qed.

Lemma init_lot_multiplier e l a m d c :
  (0 < lot_multiplier (__init__ e l a m d c))%Z.
Proof. apply LOT_SIZES_positive. Qed.



(** C4.  When the stop price equals the entry price, the sizing result is
    produced and is invalid, with lot size 0 and 0 units. *)
Theorem zero_stop_distance_rejected self symbol entry_price stop_loss
    take_profit risk_percent :
  stop_loss == entry_price ->
  exists r,
    calculate_position_size fmt self symbol entry_price stop_loss take_profit
      risk_percent = Ok r
    /\ is_valid r = false /\ lot_size r = 0 /\ units r = 0%Z.
Proof.
  intros Heq.
  assert (Hs : Qleb (calculate_pips symbol entry_price stop_loss) 0 = true).
  { apply Qleb_le. rewrite calculate_pips_zero; [apply Qle_refl|]. now symmetry. }
  unfold calculate_position_size. cbv zeta. rewrite Hs.
  eexists. split; [reflexivity|]. simpl. auto.
Qed.

(** C3 (amended).  Whenever the stop distance is not zero and the leverage
    is not zero, the sizing result is produced, its required margin is
    units x entry / leverage with units = int(lot_size x lot_multiplier),
    and if that margin exceeds the equity the result is invalid with a
    warning that starts with "Margin required" (and valid otherwise).  In
    the scenario equity = 10000, leverage = 100, XAUUSD, entry = 2050,
    stop = 2040, risk = 1%, the lot size is 0.10, the units are 10000, the
    required margin is 205000 > equity and the result is invalid. *)
Theorem margin_excess_rejected :
  (forall equity leverage account_type max_risk default_risk currency
          symbol entry_price stop_loss take_profit risk_percent,
     let self :=
       __init__ equity leverage account_type max_risk default_risk currency in
     leverage <> 0%Z ->
     ~ stop_loss == entry_price ->
     exists r,
       calculate_position_size fmt self symbol entry_price stop_loss
         take_profit risk_percent = Ok r
       /\ units r = Py.int (lot_size r * inject_Z (lot_multiplier self))
       /\ margin_required r = inject_Z (units r) * entry_price / inject_Z leverage
       /\ (equity < margin_required r ->
           is_valid r = false
           /\ exists w, warning r = Some w
                        /\ String.prefix "Margin required" w = true)
       /\ (margin_required r <= equity -> is_valid r = true))
  /\ (forall take_profit,
      exists r,
        calculate_position_size fmt
          (__init__ 10000 100 "standard" 2.0 1.0 "USD") "XAUUSD" 2050.00 2040.00
          take_profit (Some 1.0) = Ok r
        /\ lot_size r == 0.10 /\ units r = 10000%Z
        /\ margin_required r == 205000
        /\ 10000 < margin_required r /\ is_valid r = false).
Proof.
  split.
  - intros equity leverage account_type max_risk default_risk currency
      symbol entry_price stop_loss take_profit risk_percent self Hlev Hne.
    assert (Hpos : 0 < calculate_pips symbol entry_price stop_loss).
    { apply calculate_pips_pos. intros E. apply Hne. now symmetry. }
    destruct (get_pip_value_positive self symbol) as (pv & Hpv & Hpvpos).
    { apply init_lot_multiplier. }
    unfold calculate_position_size. cbv zeta.
    rewrite (proj2 (Qleb_gt _ _) Hpos). rewrite Hpv. step_bind.
    rewrite div_ok.
    2:{ intros E. pose proof (Qmult_lt_0_compat _ _ Hpos Hpvpos) as H. lra. }
    step_bind. rewrite div_ok.
    2:{ change 0 with (inject_Z 0). rewrite inject_Z_injective. exact Hlev. }
    step_bind. eexists. split; [reflexivity|].
    cbn [units lot_size margin_required is_valid warning].
    split; [reflexivity|]. split; [reflexivity|]. split.
    + intros Hover. apply Qgtb_gt in Hover.
      change (risk_manager.equity self) with equity in *.
      rewrite Hover. split; [reflexivity|].
      destruct (Qltb _ 0.01); eexists; (split; [reflexivity|]); reflexivity.
    + intros Hle. apply Qgtb_le in Hle.
      change (risk_manager.equity self) with equity in *.
      rewrite Hle. reflexivity.
  - intros take_profit. eexists. split; [vm_compute; reflexivity|].
    cbn [units lot_size margin_required is_valid].
    repeat split; vm_compute; reflexivity || discriminate.
Qed.

End RiskManagerFacts.

(** C3, as stated: in the scenario of the spec the required margin is
    205000, ten times the 20500 the claim gives. *)
Lemma scenario_margin_is_not_20500 :
  exists r,
    risk_manager.calculate_position_size decimal_format
      (risk_manager.__init__ 10000 100 "standard" 2.0 1.0 "USD")
      "XAUUSD" 2050.00 2040.00 2065.00 (Some 1.0) = Ok r
    /\ risk_manager.margin_required r == 10 * 20500
    /\ ~ Qabs (risk_manager.margin_required r - 20500) <= 20500.
Proof.
  eexists. split; [vm_compute; reflexivity|]. split; [reflexivity|].
  vm_compute. intros H. apply H. reflexivity.
Qed.

(** ** The simulated executor *)

Section DryRunFacts.
Import trade_executor.
Context (fmt : Printer).

Lemma opt_Qeqb_refl o : opt_Qeqb o o = true.
Proof. destruct o; simpl; [apply Qeq_bool_refl|reflexivity]. Qed.

Lemma Position_eqb_refl p : Position_eqb p p = true.
Proof.
  unfold Position_eqb, Qeqb.
  rewrite !String.eqb_refl, !Qeq_bool_refl, !opt_Qeqb_refl, Z.eqb_refl.
  reflexivity.
Qed.

Lemma Position_eqb_id p q : Position_eqb p q = true -> p_id p = p_id q.
Proof.
  unfold Position_eqb. rewrite !andb_true_iff.
  intros H. decompose [and] H. now apply String.eqb_eq.
Qed.

(** The first position with a given id splits the ledger. *)
Lemma find_position_split position_id l :
  (exists q, q ∈ l /\ p_id q = position_id) ->
  exists p before after,
    find_position position_id l = Some p
    /\ l = before ++ p :: after
    /\ p_id p = position_id
    /\ Forall (fun q => p_id q <> position_id) before.
Proof.
  unfold find_position. induction l as [|x l IH]; intros (q & Hin & Hq).
  - apply elem_of_nil in Hin. destruct Hin.
  - simpl. destruct (String.eqb (p_id x) position_id) eqn:E.
    + apply String.eqb_eq in E. exists x, [], l. repeat split; auto.
    + apply String.eqb_neq in E.
      apply elem_of_cons in Hin as [->|Hin]; [contradiction|].
      destruct IH as (p & before & after & Hf & -> & Hp & Hb); [eauto|].
      exists p, (x :: before), after. repeat split; auto.
Qed.

Lemma find_position_none position_id l :
  Forall (fun q => p_id q <> position_id) l ->
  find_position position_id l = None.
Proof.
  unfold find_position. induction 1 as [|x l Hx _ IH]; simpl; [reflexivity|].
  apply String.eqb_neq in Hx. now rewrite Hx.
Qed.

Lemma list_remove_first p before after :
  Forall (fun q => p_id q <> p_id p) before ->
  list_remove p (before ++ p :: after) = Ok (before ++ after).
Proof.
  induction 1 as [|x l Hx _ IH]; simpl.
  - now rewrite Position_eqb_refl.
  - destruct (Position_eqb x p) eqn:E.
    + apply Position_eqb_id in E. contradiction.
    + rewrite IH. reflexivity.
Qed.

(** C5.  Closing a position whose id is in the ledger returns FILLED,
    adds (exit - entry) x quantity to the balance for a BUY position and
    (entry - exit) x quantity for a SELL position, and removes that
    position (the first with this id) from the ledger; closing an id that
    is not in the ledger returns ERROR and leaves the executor, hence the
    balance and the position list, as it was. *)
Theorem close_position_settles self position_id exit_price now :
  ((exists q, q ∈ positions self /\ p_id q = position_id) ->
   exists r self' p before after,
     close_position self position_id exit_price now = Ok (r, self')
     /\ status r = FILLED
     /\ positions self = before ++ p :: after
     /\ p_id p = position_id
     /\ Forall (fun q => p_id q <> position_id) before
     /\ positions self' = before ++ after
     /\ (p_side p = "BUY" ->
         balance self' =
           balance self + (exit_price - p_entry_price p) * p_quantity p)
     /\ (p_side p = "SELL" ->
         balance self' =
           balance self + (p_entry_price p - exit_price) * p_quantity p)
     /\ (NoDup (map p_id (positions self)) ->
         Forall (fun q => p_id q <> position_id) (positions self')))
  /\ (Forall (fun q => p_id q <> position_id) (positions self) ->
      exists r,
        close_position self position_id exit_price now = Ok (r, self)
        /\ status r = ERROR).
Proof.
  split.
  - intros Hex.
    destruct (find_position_split _ _ Hex) as (p & before & after & Hf & Hl & Hp & Hb).
    unfold close_position. rewrite Hf, Hl.
    rewrite list_remove_first by (now rewrite Hp). step_bind.
    do 5 eexists. split; [reflexivity|]. cbn [status positions balance].
    repeat split; auto.
    + intros ->. reflexivity.
    + intros ->. reflexivity.
    + rewrite map_app. simpl. intros Hnd.
      apply NoDup_app in Hnd as (_ & Hdisj & Hnd).
      apply NoDup_cons in Hnd as [Hnotin _].
      apply Forall_app. split; [exact Hb|].
      apply Forall_forall. intros q Hq Hid. apply Hnotin.
      rewrite Hp, <- Hid. apply list_elem_of_In, in_map, list_elem_of_In, Hq.
  - intros Hall. unfold close_position.
    rewrite (find_position_none _ _ Hall). eexists. split; reflexivity.
Qed.

(** C8.  A trade rejected for insufficient free balance leaves the
    balance, the open positions and the order history as they were; the
    order counter, and nothing else, moves, by one.  The trade is rejected
    exactly when its 1% margin exceeds the free balance. *)
Theorem rejected_trade_changes_only_counter self symbol side quantity
    entry_price stop_loss take_profit now1 now2 :
  let result :=
    execute_trade fmt self symbol side quantity entry_price stop_loss
      take_profit now1 now2 in
  (status (fst result) = REJECTED <->
   free (get_balance self) < quantity * entry_price * 0.01)
  /\ (status (fst result) = REJECTED ->
      balance (snd result) = balance self
      /\ positions (snd result) = positions self
      /\ order_history (snd result) = order_history self
      /\ is_connected (snd result) = is_connected self
      /\ order_counter (snd result) = (order_counter self + 1)%Z).
Proof.
  unfold execute_trade. cbv zeta.
  change (free (get_balance _)) with (free (get_balance self)).
  destruct (Qgtb _ (free (get_balance self))) eqn:E; cbn [fst snd status].
  - apply Qgtb_gt in E. split; [split; auto|]. intros _. repeat split; reflexivity.
  - apply Qgtb_le in E. split; [split; [discriminate|intros H; lra]|discriminate].
Qed.

End DryRunFacts.

(** ** The signal engine *)

Section StrategyFacts.
Import strategy_engine.
Context (fmt : Printer).

(** C2.  With fewer candles than max(ema_slow + 10, 250), [get_signal]
    returns [None]; it does not raise, whatever the candles hold. *)
Theorem short_history_gives_no_signal self (ohlcv_data : list Candle) now :
  (Z.of_nat (length ohlcv_data) < Z.max (ema_slow self + 10) 250)%Z ->
  get_signal fmt self ohlcv_data now = Ok None.
Proof.
  intros H. unfold get_signal. cbv zeta.
  apply Z.ltb_lt in H. rewrite H. reflexivity.
Qed.

(** C6.  Two calls of [get_signal] on the same engine and the same
    candles, at any two readings of the clock, end the same way: both
    return [None], or both return a signal and the two signals agree on
    every field except the timestamp, or both raise the same exception. *)
Theorem get_signal_deterministic self (ohlcv_data : list Candle) now1 now2 :
  (get_signal fmt self ohlcv_data now1 = Ok None
   /\ get_signal fmt self ohlcv_data now2 = Ok None)
  \/ (exists s1 s2,
        get_signal fmt self ohlcv_data now1 = Ok (Some s1)
        /\ get_signal fmt self ohlcv_data now2 = Ok (Some s2)
        /\ same_but_timestamp s1 s2
        /\ timestamp s1 = now1 /\ timestamp s2 = now2)
  \/ (exists e,
        get_signal fmt self ohlcv_data now1 = Raise e
        /\ get_signal fmt self ohlcv_data now2 = Raise e).
Proof.
  unfold get_signal. cbv zeta.
  repeat
    (step_bind;
     try solve
       [ left; split; reflexivity
       | right; right; eexists; split; reflexivity
       | right; left; do 2 eexists;
         split; [reflexivity|split; [reflexivity|
         split; [unfold same_but_timestamp; cbn; repeat split|split; reflexivity]]] ];
     match goal with
     | |- context [mbind _ ?m] => destruct m
     | |- context [if ?b then _ else _] => destruct b
     | |- context [match ?x with _ => _ end] => destruct x
     end).
Qed.

(** C9.  The volume step adds 15 when volume_ratio > 1.2 and nothing
    otherwise: the condition of the 25-point branch (volume_ratio > 1.5
    after volume_ratio > 1.2 has failed) holds for no input, and
    [calculate_confidence] is the clamped score with that bonus. *)
Theorem volume_bonus_is_15_or_0 :
  (forall confidence volume_ratio,
     volume_confirmation confidence volume_ratio =
       if Qgtb volume_ratio 1.2 then confidence + 15 else confidence)
  /\ (forall volume_ratio, 1.2 < volume_ratio <-> Qgtb volume_ratio 1.2 = true)
  /\ (forall volume_ratio,
        ~ (Qgtb volume_ratio 1.2 = false /\ Qgtb volume_ratio 1.5 = true))
  /\ (forall action close ema_9 ema_21 ema_200 volume_ratio,
        calculate_confidence action close ema_9 ema_21 ema_200 volume_ratio =
          (confidence ← score_before_volume action close ema_9 ema_21 ema_200;
           Ok (Py.max 0 (Py.min 100
                 (if Qgtb volume_ratio 1.2 then confidence + 15
                  else confidence))))).
Proof.
  assert (Hdead : forall v, ~ (Qgtb v 1.2 = false /\ Qgtb v 1.5 = true)).
  { intros v [H1 H2]. apply Qgtb_le in H1. apply Qgtb_gt in H2. lra. }
  assert (Hvol : forall c v,
             volume_confirmation c v = if Qgtb v 1.2 then c + 15 else c).
  { intros c v. unfold volume_confirmation.
    destruct (Qgtb v 1.2) eqn:E1; [reflexivity|].
    destruct (Qgtb v 1.5) eqn:E2; [|reflexivity].
    exfalso. apply (Hdead v). auto. }
  split; [exact Hvol|]. split; [intros v; symmetry; apply Qgtb_gt|].
  split; [exact Hdead|].
  intros. unfold calculate_confidence.
  destruct (score_before_volume _ _ _ _ _); step_bind; [|reflexivity].
  now rewrite Hvol.
Qed.

End StrategyFacts.

(** ** The bot controller *)

Section BotFacts.
Import trading_bot.
Context (fmt : Printer) (time_at : nat -> datetime) (class_attrs : gset string).
Context {E : Type} {base : trade_executor.BaseExecutor E}.

Abbreviation _log := (_log time_at (E:=E)).
Abbreviation _set_state := (_set_state time_at (E:=E)).
Abbreviation now := (now time_at (E:=E)).

Ltac run := cbv beta iota delta [mbind M_bind mret M_ret get lift modify]; cbn [fst snd].

Lemma ends_in_bind {A B} (P R Q : TradingBot E -> Prop) (m : M E A)
    (f : A -> M E B) :
  ends_in P m R -> (forall s, R s -> Q s) -> (forall a, ends_in R (f a) Q) ->
  ends_in P (m ≫= f) Q.
Proof.
  intros Hm HRQ Hf self HP. specialize (Hm self HP).
  unfold mbind, M_bind. destruct (m self) as [[a|e] s']; simpl in *.
  - apply Hf. exact Hm.
  - apply HRQ. exact Hm.
Qed.

Lemma ends_in_ret {A} (P : TradingBot E -> Prop) (a : A) : ends_in P (mret a) P.
Proof. intros self HP. exact HP. Qed.

Lemma ends_in_lift {A} (P : TradingBot E -> Prop) (o : outcome A) :
  ends_in P (lift o) P.
Proof. intros self HP. exact HP. Qed.

Lemma ends_in_get (P : TradingBot E -> Prop) : ends_in P get P.
Proof. intros self HP. exact HP. Qed.

Lemma ends_in_unwrap {A} (P : TradingBot E -> Prop) (x : option A) :
  ends_in P (unwrap x) P.
Proof. intros self HP. destruct x; exact HP. Qed.

Lemma ends_in_modify (P Q : TradingBot E -> Prop) f :
  (forall s, P s -> Q (f s)) -> ends_in P (modify f) Q.
Proof. intros H self HP. apply H, HP. Qed.

(** [_log] never raises and touches the log, the callback trace and the
    clock only. *)
Lemma _log_frame level message data (self : TradingBot E) :
  fst (_log level message data self) = Ok tt
  /\ same_but_log self (snd (_log level message data self)).
Proof.
  unfold trading_bot._log, trading_bot.now. run.
  repeat match goal with
         | |- context [if ?b then _ else _] => destruct b; run
         end;
    (split; [reflexivity|]); unfold same_but_log; cbn; repeat split; auto.
Qed.

Lemma _set_state_frame new_state (self : TradingBot E) :
  fst (_set_state new_state self) = Ok tt
  /\ config (snd (_set_state new_state self)) = config self
  /\ open_positions (snd (_set_state new_state self)) = open_positions self
  /\ risk_manager (snd (_set_state new_state self)) = risk_manager self
  /\ executor (snd (_set_state new_state self)) = executor self.
Proof.
  unfold trading_bot._set_state. run.
  match goal with |- context [_log ?l ?m ?d ?s] =>
    destruct (_log_frame l m d s) as [Hok Hsame];
    destruct (_log l m d s) as [[[]|e] s'] eqn:Hl; simpl in Hok; [|discriminate]
  end.
  simpl in Hsame. unfold same_but_log in Hsame. decompose [and] Hsame. clear Hsame.
  run. destruct (on_state_change s'); run; cbn; repeat split; auto.
Qed.


Lemma cap_log c k level message data :
  ends_in (cap c k) (_log level message data) (cap c k).
Proof.
  intros self [Hc Hk]. destruct (_log_frame level message data self) as [_ Hs].
  unfold same_but_log in Hs. decompose [and] Hs. split; congruence.
Qed.

Lemma cap_set_state c k new_state :
  ends_in (cap c k) (_set_state new_state) (cap c k).
Proof.
  intros self [Hc Hk]. destruct (_set_state_frame new_state self) as (_ & H1 & H2 & _).
  split; congruence.
Qed.

Lemma cap_now c k : ends_in (cap c k) now (cap c k).
Proof. intros self HP. exact HP. Qed.

Lemma ends_in_bind_same {A B} (P Q : TradingBot E -> Prop) (m : M E A)
    (f : A -> M E B) :
  ends_in P m P -> (forall s, P s -> Q s) -> (forall a, ends_in P (f a) Q) ->
  ends_in P (m ≫= f) Q.
Proof. apply ends_in_bind. Qed.

Lemma cap_mono c (k k' : nat -> Prop) (s : TradingBot E) :
  (forall n, k n -> k' n) -> cap c k s -> cap c k' s.
Proof. intros H [Hc Hk]. split; auto. Qed.

Ltac cap_modify :=
  apply ends_in_modify; intros ? [? ?]; split; cbn; assumption.

Ltac cap_step :=
  lazymatch goal with
  | |- ends_in _ (mret _) _ => apply ends_in_ret
  | |- ends_in _ (lift _) _ => apply ends_in_lift
  | |- ends_in _ get _ => apply ends_in_get
  | |- ends_in _ (unwrap _) _ => apply ends_in_unwrap
  | |- ends_in _ (trading_bot._log _ _ _ _) _ => apply cap_log
  | |- ends_in _ (trading_bot._set_state _ _) _ => apply cap_set_state
  | |- ends_in _ (trading_bot.now _) _ => apply cap_now
  | |- ends_in _ (modify _) _ => cap_modify
  end.

Lemma ends_in_post {A} (P Q : TradingBot E -> Prop) (m : M E A) :
  ends_in P m P -> (forall s, P s -> Q s) -> ends_in P m Q.
Proof. unfold ends_in. eauto. Qed.

Ltac cap_le := intros ? ?; eapply cap_mono; [|eassumption]; cbv beta; intros; lia.

Ltac cap_chain :=
  repeat first
    [ cap_step
    | match goal with
      | |- ends_in _ (mbind _ _) _ =>
          apply ends_in_bind_same; [ cap_step | cap_le | intros ? ]
      | |- ends_in _ (if ?b then _ else _) _ => destruct b
      | |- ends_in _ (match ?x with _ => _ end) _ => destruct x
      end
    | apply ends_in_post; [ cap_step | cap_le ]
    | progress cbv zeta ].

Section Cap.
Context (c : gmap string pyval) (m : Z).
Hypothesis Hmax : c !! "max_open_positions" = Some (VInt m).


Abbreviation I := (within_cap c m).
Abbreviation J := (below_cap c m).

Lemma _execute_signal_cap signal :
  ends_in I (_execute_signal fmt time_at signal) I.
Proof.
  intros self [Hc Hk]. unfold _execute_signal.
  unfold mbind at 1, M_bind at 1. cbn [get].
  unfold mbind at 1, M_bind at 1. unfold lift at 1, getattr at 1.
  rewrite Hc, Hmax.
  unfold mbind at 1, M_bind at 1. unfold lift at 1, int_ge at 1.
  destruct (m <=? Z.of_nat (length (open_positions self)))%Z eqn:Hfull.
  - cbv beta iota. apply cap_log. split; assumption.
  - cbv beta iota. apply Z.leb_gt in Hfull.
    assert (HJ : J self) by (split; assumption).
    match goal with
    | |- _ (snd (?r self)) =>
        cut (ends_in J r I); [intros Hr; exact (Hr self HJ)|]
    end.
    clear self Hc Hk Hfull HJ.
    cap_chain.
    apply (ends_in_bind J I I).
    + apply ends_in_modify. intros s [Hc Hk]. split; [exact Hc|].
      cbn. rewrite length_app. simpl. lia.
    + auto.
    + intros ?. cap_chain.
Qed.

Lemma _analysis_cycle_cap fetched :
  ends_in I (_analysis_cycle fmt time_at fetched) I.
Proof.
  unfold _analysis_cycle. cap_chain. apply _execute_signal_cap.
Qed.

Lemma loop_iteration_cap fetched :
  ends_in I (loop_iteration fmt time_at fetched) I.
Proof.
  intros self HI. unfold loop_iteration.
  pose proof (_analysis_cycle_cap fetched self HI) as H.
  destruct (_analysis_cycle fmt time_at fetched self) as [[[]|e] s']; simpl in *.
  - exact H.
  - apply cap_log. exact H.
Qed.

Lemma run_cycles_cap fetches self :
  I self -> I (run_cycles fmt time_at fetches self).
Proof.
  unfold run_cycles. revert self.
  induction fetches as [|f fs IH]; intros self HI; simpl; [exact HI|].
  apply IH. apply loop_iteration_cap. exact HI.
Qed.

End Cap.


Lemma slice_last_1000 {A} (l : list A) :
  (1000 < length l)%nat ->
  slice l (Some (-1000)%Z) None = drop (length l - 1000) l.
Proof.
  intros H. unfold slice, slice_bound.
  change (-1000 <? 0)%Z with true. cbv iota.
  replace (Z.to_nat _) with (length l - 1000)%nat by lia.
  apply take_ge. rewrite length_drop. lia.
Qed.

(** The entry [_log] appends is the last entry of the log afterwards. *)
Lemma _log_last level message data (self : TradingBot E) :
  exists entry,
    last (logs (snd (_log level message data self))) = Some entry
    /\ trading_bot.level entry = level /\ trading_bot.message entry = message.
Proof.
  exists {| timestamp := time_at (ticks self); level := level;
            message := message; data := data |}.
  split; [|split; reflexivity].
  unfold trading_bot._log, trading_bot.now. run.
  match goal with
  | |- context [(1000 <? ?n)%nat] => destruct (1000 <? n)%nat eqn:Hlen
  end; cbn [logs set_logs set_ticks on_log];
    destruct (on_log self); run; cbn [logs set_logs set_notified set_ticks].
  all: try apply last_snoc.
  all: apply Nat.ltb_lt in Hlen; cbn [logs set_logs set_ticks] in Hlen;
    rewrite slice_last_1000 by exact Hlen;
    rewrite length_app in *; simpl in *;
    rewrite drop_app_le by lia; apply last_snoc.
Qed.

(** C7.  At capacity, [_execute_signal] only logs a warning and returns:
    every attribute but the log stays as it was, so no size is computed
    into the bot, the state does not become TRADING and the executor
    places no order.  Hence, over any number of cycles of the main loop,
    the config stays the same and a number of open positions that is
    within [max_open_positions] stays within it. *)
Theorem max_open_positions_cap :
  (forall signal (self : TradingBot E) m,
     config self !! "max_open_positions" = Some (VInt m) ->
     (m <= Z.of_nat (length (open_positions self)))%Z ->
     exists self',
       _execute_signal fmt time_at signal self = (Ok tt, self')
       /\ same_but_log self self'
       /\ exists entry,
            last (logs self') = Some entry /\ level entry = "WARNING")
  /\ (forall fetches (self : TradingBot E) m,
        config self !! "max_open_positions" = Some (VInt m) ->
        (Z.of_nat (length (open_positions self)) <= m)%Z ->
        config (run_cycles fmt time_at fetches self) = config self
        /\ (Z.of_nat (length (open_positions (run_cycles fmt time_at fetches self)))
            <= m)%Z).
Proof.
  split.
  - intros signal self m Hmax Hfull.
    assert (Heq : _execute_signal fmt time_at signal self =
                  _log "WARNING" ("Max positions reached (" ++ str_of_Z m
                                  ++ "). Skipping signal.") None self).
    { unfold _execute_signal.
      unfold mbind at 1, M_bind at 1. cbn [get].
      unfold mbind at 1, M_bind at 1. unfold lift at 1, getattr at 1.
      rewrite Hmax.
      unfold mbind at 1, M_bind at 1. unfold lift at 1, int_ge at 1.
      apply Z.leb_le in Hfull. rewrite Hfull. reflexivity. }
    rewrite Heq.
    destruct (_log_frame "WARNING" ("Max positions reached (" ++ str_of_Z m
                                  ++ "). Skipping signal.") None self) as [Hok Hsame].
    destruct (_log_last "WARNING" ("Max positions reached (" ++ str_of_Z m
                                  ++ "). Skipping signal.") None self)
      as (entry & Hlast & Hlevel & _).
    destruct (_log _ _ _ self) as [[[]|e] self'] eqn:Hl; simpl in Hok; [|discriminate].
    exists self'. split; [reflexivity|]. split; [exact Hsame|].
    exists entry. split; assumption.
  - intros fetches self m Hmax Hle.
    destruct (run_cycles_cap (config self) m Hmax fetches self) as [Hc Hk].
    { split; [reflexivity|exact Hle]. }
    split; [exact Hc|exact Hk].
Qed.


(** *** [update_config] *)

Lemma slice_last_drop {A} (l : list A) :
  slice l (Some (-1000)%Z) None = drop (length l - 1000) l.
Proof.
  unfold slice, slice_bound.
  change (-1000 <? 0)%Z with true. cbv iota.
  replace (Z.to_nat _) with (length l - 1000)%nat by lia.
  apply take_ge. rewrite length_drop. lia.
Qed.


(** What [_log] does to the log, the clock and the callback trace. *)
Lemma _log_effect level message data (self : TradingBot E) :
  let entry :=
    {| timestamp := time_at (ticks self); level := level;
       message := message; data := data |} in
  let s' := snd (_log level message data self) in
  logs s' = slice (logs self ++ [entry]) (Some (-1000)%Z) None
  /\ ticks s' = S (ticks self)
  /\ notified s' =
       (if on_log self then notified self ++ [LogEvent entry]
        else notified self).
Proof.
  cbv zeta. unfold trading_bot._log, trading_bot.now. run.
  match goal with
  | |- context [(1000 <? ?n)%nat] => destruct (1000 <? n)%nat eqn:Hlen
  end; cbn [logs set_logs set_ticks on_log];
    destruct (on_log self); run;
    cbn [logs set_logs set_notified set_ticks ticks notified];
    (split; [|split; reflexivity]).
  all: try reflexivity.
  all: apply Nat.ltb_ge in Hlen; cbn [logs set_logs set_ticks] in Hlen;
    rewrite slice_last_drop;
    replace (length _ - 1000)%nat with 0%nat by lia; now rewrite drop_0.
Qed.















End BotFacts.


(** * Further properties *)

(** ** The position sizer and the trade validation *)

Section RiskManagerMore.
Import risk_manager.
Context (fmt : Printer).

(** The pip value is the table value (or 10) times the lot size times
    lot_multiplier / 100000; [get_pip_value] never raises. *)
Lemma get_pip_value_eq self symbol lot :
  get_pip_value self symbol lot =
    Ok (default 10.0 (PIP_VALUES !! remove_char "/"%char (upper symbol)) * lot
        * (inject_Z (lot_multiplier self) / inject_Z 100000)).
Proof.
  unfold get_pip_value.
  change (dict_getitem LOT_SIZES "standard") with (Ok 100000%Z).
  step_bind. rewrite div_ok by discriminate. reflexivity.
Qed.

(** What a returned sizing result is made of. *)
Lemma calculate_position_size_inv self symbol entry_price stop_loss
    take_profit risk_percent_arg r :
  calculate_position_size fmt self symbol entry_price stop_loss take_profit
    risk_percent_arg = Ok r ->
  let p := default (default_risk_percent self) risk_percent_arg in
  let rp := if Qgtb p (max_risk_percent self) then max_risk_percent self else p in
  let sl_pips := calculate_pips symbol entry_price stop_loss in
  risk_percent r = rp
  /\ risk_amount r = equity self * (rp / 100)
  /\ ((sl_pips <= 0 /\ is_valid r = false /\ lot_size r = 0
       /\ margin_required r = 0)
      \/ (0 < sl_pips
          /\ exists pv,
               get_pip_value self symbol 1.0 = Ok pv
               /\ ~ sl_pips * pv == 0
               /\ inject_Z (leverage self) <> 0%Q
               /\ ~ inject_Z (leverage self) == 0
               /\ lot_size r = risk_amount r / (sl_pips * pv)
               /\ units r = Py.int (lot_size r * inject_Z (lot_multiplier self))
               /\ margin_required r =
                    inject_Z (units r) * entry_price / inject_Z (leverage self)
               /\ stop_loss_pips r = sl_pips
               /\ potential_loss r = sl_pips * pv * lot_size r
               /\ potential_profit r =
                    calculate_pips symbol entry_price take_profit * pv * lot_size r
               /\ is_valid r = negb (Qgtb (margin_required r) (equity self)))).
Proof.
  unfold calculate_position_size. cbv zeta.
  destruct (Qleb _ 0) eqn:Hs.
  - intros [= <-]. cbn. split; [reflexivity|]. split; [reflexivity|].
    left. apply Qleb_le in Hs. auto.
  - apply Qleb_gt in Hs.
    destruct (get_pip_value self symbol 1.0) as [pv|] eqn:Hpv; step_bind;
      [|discriminate].
    destruct (Py.div _ (_ * pv)) as [lot|] eqn:Hlot; step_bind; [|discriminate].
    destruct (Py.div _ (inject_Z (leverage self))) as [margin|] eqn:Hm; step_bind;
      [|discriminate].
    intros [= <-]. cbn.
    apply div_Ok_inv in Hlot as [Hnz ->].
    apply div_Ok_inv in Hm as [Hlev ->].
    split; [reflexivity|]. split; [reflexivity|]. right. split; [exact Hs|].
    exists pv. repeat split; auto.
    intros E. apply Hlev. rewrite E. reflexivity.
Qed.

(** X1.  The sizer applies the requested risk percent (the default one
    when none is given) capped at the configured maximum, the risk amount
    is the equity times the applied percent over 100, and a result marked
    valid needs a margin that the equity covers. *)
Theorem sizing_risk_is_capped self symbol entry_price stop_loss take_profit
    risk_percent_arg r :
  calculate_position_size fmt self symbol entry_price stop_loss take_profit
    risk_percent_arg = Ok r ->
  risk_percent r <= max_risk_percent self
  /\ (default (default_risk_percent self) risk_percent_arg
        <= max_risk_percent self ->
      risk_percent r = default (default_risk_percent self) risk_percent_arg)
  /\ (max_risk_percent self
        < default (default_risk_percent self) risk_percent_arg ->
      risk_percent r = max_risk_percent self)
  /\ risk_amount r = equity self * (risk_percent r / 100)
  /\ (is_valid r = true -> margin_required r <= equity self).
Proof.
  intros H. apply calculate_position_size_inv in H. cbv zeta in H.
  destruct H as (Hrp & Hra & Hcases).
  set (p := default (default_risk_percent self) risk_percent_arg) in *.
  split; [|split; [|split; [|split]]].
  - rewrite Hrp. destruct (Qgtb p _) eqn:E; [apply Qle_refl|].
    now apply Qgtb_le in E.
  - intros Hle. rewrite Hrp. apply Qgtb_le in Hle. now rewrite Hle.
  - intros Hlt. rewrite Hrp. apply Qgtb_gt in Hlt. now rewrite Hlt.
  - rewrite Hra, Hrp. reflexivity.
  - intros Hvalid.
    destruct Hcases as [(_ & Hinv & _)|(_ & pv & _ & _ & _ & _ & _ & _ & _ & _ & _ & _ & Hval)];
      [congruence|].
    rewrite Hvalid in Hval. symmetry in Hval. apply negb_true_iff in Hval.
    now apply Qgtb_le in Hval.
Qed.

Lemma div_zero a b : b == 0 -> Py.div a b = Raise ZeroDivisionError.
Proof. intros H. unfold Py.div. apply Qeqb_eq in H. now rewrite H. Qed.

(** What [validate_trade] returns when it returns. *)
Lemma validate_trade_ok self symbol entry_price stop_loss take_profit lot :
  leverage self <> 0%Z -> ~ equity self == 0 ->
  let margin :=
    inject_Z (Py.int (lot * inject_Z (lot_multiplier self))) * entry_price
    / inject_Z (leverage self) in
  let sl_pips := calculate_pips symbol entry_price stop_loss in
  let risk :=
    sl_pips
    * (default 10.0 (PIP_VALUES !! remove_char "/"%char (upper symbol)) * lot
       * (inject_Z (lot_multiplier self) / inject_Z 100000))
    / equity self * 100 in
  exists v,
    validate_trade fmt self symbol entry_price stop_loss take_profit lot = Ok v
    /\ v_margin_required v = margin
    /\ v_margin_percent v = margin / equity self * 100
    /\ v_risk_percent v = risk
    /\ v_rrr v =
         (if Qgtb sl_pips 0
          then calculate_pips symbol entry_price take_profit / sl_pips else 0)
    /\ v_is_valid v =
         negb (Qgtb margin (equity self * 0.9))
         && negb (Qgtb risk (max_risk_percent self))
    /\ (v_is_valid v = true <-> v_errors v = []).
Proof.
  intros Hlev Heq. cbv zeta. unfold validate_trade. cbv zeta.
  rewrite (div_ok _ (inject_Z (leverage self))).
  2:{ change 0 with (inject_Z 0). rewrite inject_Z_injective. exact Hlev. }
  assert (Hrrr : forall sl tp,
             (if Qgtb sl 0 then Py.div tp sl else Ok 0)
             = Ok (if Qgtb sl 0 then tp / sl else 0)).
  { intros sl tp. destruct (Qgtb sl 0) eqn:E; [|reflexivity].
    apply div_ok. apply Qgtb_gt in E. lra. }
  step_bind.
  destruct (Qgtb _ (equity self * 0.9)) eqn:E1;
    [|destruct (Qgtb _ (equity self * 0.5)) eqn:E3];
    repeat first [ progress step_bind
                 | rewrite (div_ok _ (equity self)) by exact Heq
                 | rewrite Hrrr
                 | rewrite get_pip_value_eq ];
    destruct (Qgtb _ (max_risk_percent self)) eqn:E2;
    eexists; (split; [reflexivity|]); cbn; repeat split; congruence.
Qed.

(** X2.  [validate_trade] raises ZeroDivisionError when the leverage or
    the equity is zero, and otherwise returns; it accepts the trade
    exactly when it found no error, that is when the margin is at most
    90% of the equity and the risk is at most the maximum: warnings (a
    close stop, a low reward, a margin above 50%) never reject. *)
Theorem validate_trade_verdict self symbol entry_price stop_loss take_profit
    lot :
  ((leverage self = 0%Z \/ equity self == 0) ->
   validate_trade fmt self symbol entry_price stop_loss take_profit lot
     = Raise ZeroDivisionError)
  /\ (leverage self <> 0%Z -> ~ equity self == 0 ->
      exists v,
        validate_trade fmt self symbol entry_price stop_loss take_profit lot
          = Ok v
        /\ (v_is_valid v = true <-> v_errors v = [])
        /\ (v_is_valid v = true <->
            v_margin_required v <= equity self * 0.9
            /\ v_risk_percent v <= max_risk_percent self)).
Proof.
  split.
  - intros Hz. unfold validate_trade. cbv zeta.
    destruct (Z.eq_dec (leverage self) 0%Z) as [Hl|Hl].
    + rewrite (div_zero _ (inject_Z (leverage self))) by (rewrite Hl; reflexivity).
      reflexivity.
    + destruct Hz as [Hz|Hz]; [contradiction|].
      rewrite (div_ok _ (inject_Z (leverage self))).
      2:{ change 0 with (inject_Z 0). rewrite inject_Z_injective. exact Hl. }
      step_bind.
      destruct (Qgtb _ (equity self * 0.9));
        [|destruct (Qgtb _ (equity self * 0.5))];
        repeat first [ progress step_bind
                     | rewrite (div_zero _ (equity self)) by exact Hz
                     | rewrite get_pip_value_eq ];
        reflexivity.
  - intros Hlev Heq.
    destruct (validate_trade_ok self symbol entry_price stop_loss take_profit
                lot Hlev Heq) as (v & Hv & Hm & _ & Hr & _ & Hvalid & Herr).
    exists v. split; [exact Hv|]. split; [exact Herr|].
    rewrite Hvalid, andb_true_iff, !negb_true_iff, Hm, Hr.
    split; intros [H1 H2]; split;
      first [now apply Qgtb_le | now apply Qgtb_le].
Qed.

(** X3.  Validating the lot size the sizer computed: the validation
    returns, it finds the required margin the sizer found, it accepts only
    when that margin is within 90% of the equity, and so, for a positive
    equity, it accepts only what the sizer marked valid. *)
Theorem validate_trade_agrees_with_sizer equity leverage account_type
    max_risk default_risk currency symbol entry_price stop_loss take_profit
    risk_percent_arg r :
  let self :=
    __init__ equity leverage account_type max_risk default_risk currency in
  leverage <> 0%Z -> ~ equity == 0 -> ~ stop_loss == entry_price ->
  calculate_position_size fmt self symbol entry_price stop_loss take_profit
    risk_percent_arg = Ok r ->
  exists v,
    validate_trade fmt self symbol entry_price stop_loss take_profit
      (lot_size r) = Ok v
    /\ v_margin_required v = margin_required r
    /\ (v_is_valid v = true -> margin_required r <= equity * 0.9)
    /\ (0 < equity -> v_is_valid v = true -> is_valid r = true).
Proof.
  intros self Hlev Heq Hne Hr.
  assert (Hpos : 0 < calculate_pips symbol entry_price stop_loss).
  { apply calculate_pips_pos. intros E. apply Hne. now symmetry. }
  apply calculate_position_size_inv in Hr. cbv zeta in Hr.
  destruct Hr as (_ & _ & [(Hs & _)|(_ & pv & _ & _ & _ & _ & _ & Hunits & Hmargin & _ & _ & _ & Hval)]).
  { exfalso. exact (Qlt_not_le _ _ Hpos Hs). }
  destruct (validate_trade_ok self symbol entry_price stop_loss take_profit
              (lot_size r) Hlev Heq)
    as (v & Hv & Hm & _ & _ & _ & Hvalid & _).
  cbv zeta in *.
  change (risk_manager.equity self) with equity in *.
  change (risk_manager.leverage self) with leverage in *.
  assert (Hm' : v_margin_required v = margin_required r).
  { rewrite Hm, Hmargin, Hunits. reflexivity. }
  assert (Hcap : v_is_valid v = true -> margin_required r <= equity * 0.9).
  { intros Hok. rewrite Hvalid, andb_true_iff, !negb_true_iff in Hok.
    destruct Hok as [Hok _]. apply Qgtb_le in Hok.
    rewrite <- Hm, Hm' in Hok. exact Hok. }
  exists v. split; [exact Hv|]. split; [exact Hm'|]. split; [exact Hcap|].
  intros He Hok. rewrite Hval. apply negb_true_iff, Qgtb_le.
  specialize (Hcap Hok). lra.
Qed.

End RiskManagerMore.

(** ** Sequences *)

Section SequenceFacts.

Lemma index_ok n i : (0 <= i < Z.of_nat n)%Z -> index n i = Ok (Z.to_nat i).
Proof.
  intros H. unfold index.
  destruct (i <? 0)%Z eqn:E; [lia|].
  destruct ((0 <=? i)%Z && (i <? Z.of_nat n)%Z) eqn:E2; [reflexivity|].
  apply andb_false_iff in E2 as [E2|E2]; lia.
Qed.

Lemma getitem_ok {A} (l : list A) i :
  (0 <= i < Z.of_nat (length l))%Z ->
  exists x, l !! Z.to_nat i = Some x /\ getitem l i = Ok x.
Proof.
  intros H. unfold getitem. rewrite index_ok by exact H. step_bind.
  destruct (l !! Z.to_nat i) as [x|] eqn:E; [eauto|].
  apply lookup_ge_None in E. lia.
Qed.

Lemma for_each_inv {A S} (body : S -> A -> outcome S) (P : A -> Prop)
    (I : S -> Prop) items :
  (forall s x, P x -> I s -> exists s', body s x = Ok s' /\ I s') ->
  Forall P items -> forall s, I s ->
  exists s', for_each body items s = Ok s' /\ I s'.
Proof.
  intros Hbody. induction 1 as [|x r Hx _ IH]; intros s Hs.
  - exists s. split; [reflexivity|exact Hs].
  - cbn [for_each]. destruct (Hbody s x Hx Hs) as (s' & -> & Hs').
    step_bind. apply IH, Hs'.
Qed.

Lemma slice_elem_of {A} (l : list A) a b x : x ∈ slice l a b -> x ∈ l.
Proof.
  unfold slice. intros H.
  eapply elem_of_sublist; [exact H|].
  etransitivity; [apply sublist_take|apply sublist_drop].
Qed.

Lemma slice_length {A} (l : list A) a b :
  length (slice l a b)
  = ((slice_bound (length l) (length l) b - slice_bound (length l) 0 a)
     `min` (length l - slice_bound (length l) 0 a))%nat.
Proof. unfold slice. now rewrite length_take, length_drop. Qed.

Lemma pick_elem_of (better : Q -> Q -> bool) (r : list Q) : forall x,
  foldl (fun m y => if better y m then y else m) x r ∈ x :: r.
Proof.
  induction r as [|y r IH]; intros x; cbn [foldl].
  - apply list_elem_of_here.
  - destruct (better y x).
    + apply list_elem_of_further, IH.
    + specialize (IH x). apply elem_of_cons in IH as [->|IH].
      * apply list_elem_of_here.
      * do 2 apply list_elem_of_further. exact IH.
Qed.

Lemma min_of_elem_of l :
  l <> [] -> exists x, min_of l = Ok x /\ x ∈ l.
Proof.
  destruct l as [|x r]; [congruence|]. intros _. eexists. split; [reflexivity|].
  apply (pick_elem_of Qltb).
Qed.

Lemma max_of_elem_of l :
  l <> [] -> exists x, max_of l = Ok x /\ x ∈ l.
Proof.
  destruct l as [|x r]; [congruence|]. intros _. eexists. split; [reflexivity|].
  apply (pick_elem_of Qgtb).
Qed.

Lemma length_pos_ne_nil {A} (l : list A) : (0 < length l)%nat -> l <> [].
Proof. destruct l; cbn; [lia|congruence]. Qed.

(** The tail [l[-k:]] of a non-empty list is not empty, for [k >= 0]. *)
Lemma slice_tail_ne_nil {A} (l : list A) k :
  l <> [] -> (0 <= k)%Z -> slice l (Some (- k)%Z) None <> [].
Proof.
  intros Hl Hk. apply length_pos_ne_nil. rewrite slice_length.
  assert (0 < length l)%nat by (destruct l; cbn; [congruence|lia]).
  unfold slice_bound. destruct (- k <? 0)%Z eqn:E; lia.
Qed.

(** The window [l[i - k : i + k + 1]] around an index at least [k] from both
    ends is not empty. *)
Lemma slice_window_ne_nil {A} (l : list A) k i :
  (0 <= k <= i)%Z -> (i < Z.of_nat (length l) - k)%Z ->
  slice l (Some (i - k)%Z) (Some (i + k + 1)%Z) <> [].
Proof.
  intros Hk Hi. apply length_pos_ne_nil. rewrite slice_length.
  unfold slice_bound.
  destruct (i - k <? 0)%Z eqn:E1; [lia|].
  destruct (i + k + 1 <? 0)%Z eqn:E2; lia.
Qed.

Lemma setitem_ok {A} (l : list A) i x :
  (0 <= i < Z.of_nat (length l))%Z ->
  setitem l i x = Ok (<[Z.to_nat i := x]> l).
Proof. intros H. unfold setitem. now rewrite index_ok by exact H. Qed.

End SequenceFacts.

(** ** Signals *)

(** Splits an equation on the outcome of a chain of binds, conditionals
    and matches. *)
Ltac inv_step H :=
  match type of H with
  | context [mbind _ ?m] =>
      destruct m eqn:?; cbn [mbind outcome_bind mret outcome_ret] in H;
      try discriminate H
  | context [if ?b then _ else _] => destruct b eqn:?; try discriminate H
  | context [match ?x with _ => _ end] => destruct x eqn:?; try discriminate H
  end.

Ltac step_bind_in H := cbn [mbind outcome_bind mret outcome_ret] in H.

Section StrategyMore.
Import strategy_engine.
Context (fmt : Printer).

Lemma np_div_Ok_inv a b q : np_div a b = Ok q -> ~ b == 0 /\ q = a / b.
Proof.
  unfold np_div. destruct (Qeqb b 0) eqn:E; [discriminate|].
  intros [= <-]. split; [now apply Qeqb_neq|reflexivity].
Qed.

Lemma score_before_volume_range action close e9 e21 e200 c :
  score_before_volume action close e9 e21 e200 = Ok c -> -10 <= c <= 75.
Proof.
  unfold score_before_volume. cbv zeta.
  destruct (String.eqb action "BUY"); [|destruct (String.eqb action "SELL")].
  3:{ intros [= <-]. split; discriminate. }
  all: destruct (np_div _ close) as [ratio|]; step_bind; [|discriminate].
  all: intros [= <-].
  all: repeat match goal with
              | |- context [if ?b then _ else _] => destruct b
              end; split; vm_compute; discriminate.
Qed.

Lemma clamp_range lo hi x : lo <= hi -> lo <= Py.max lo (Py.min hi x) <= hi.
Proof.
  intros H. unfold Py.max, Py.min.
  destruct (Qltb x hi) eqn:E1.
  - apply Qltb_lt in E1. destruct (Qgtb x lo) eqn:E2.
    + apply Qgtb_gt in E2. lra.
    + lra.
  - destruct (Qgtb hi lo) eqn:E2; lra.
Qed.

Lemma confidence_score_bounds action close e9 e21 e200 volume_ratio c :
  calculate_confidence action close e9 e21 e200 volume_ratio = Ok c ->
  0 <= c <= 90.
Proof.
  unfold calculate_confidence.
  destruct (score_before_volume _ _ _ _ _) as [c0|] eqn:Hs; step_bind;
    [|discriminate].
  apply score_before_volume_range in Hs. intros [= <-].
  assert (Hv : volume_confirmation c0 volume_ratio <= 90).
  { unfold volume_confirmation.
    destruct (Qgtb volume_ratio 1.2) eqn:E1; [lra|].
    destruct (Qgtb volume_ratio 1.5) eqn:E2; [|lra].
    apply Qgtb_le in E1. apply Qgtb_gt in E2. lra. }
  set (v := volume_confirmation c0 volume_ratio) in *. clearbody v.
  unfold Py.max, Py.min.
  destruct (Qltb v 100) eqn:E1.
  - destruct (Qgtb v 0) eqn:E2; [apply Qgtb_gt in E2|]; lra.
  - apply Qltb_ge in E1. lra.
Qed.

(** X4.  A confidence score is never below 0 and never above 90: with the
    25-point volume branch shadowed, the most a signal can collect is
    25 + 20 + 15 + 15 + 15. *)
Theorem calculate_confidence_range action close e9 e21 e200 volume_ratio c :
  calculate_confidence action close e9 e21 e200 volume_ratio = Ok c ->
  0 <= c <= 90.
Proof. apply confidence_score_bounds. Qed.

Lemma detect_crossover_cases fc mc fp mp :
  (detect_crossover fc mc fp mp = Some "BULLISH"%string /\ fp <= mp /\ mc < fc)
  \/ (detect_crossover fc mc fp mp = Some "BEARISH"%string /\ mp <= fp /\ fc < mc
      /\ ~ (fp <= mp /\ mc < fc))
  \/ (detect_crossover fc mc fp mp = None
      /\ ~ (fp <= mp /\ mc < fc) /\ ~ (mp <= fp /\ fc < mc)).
Proof.
  unfold detect_crossover.
  destruct (Qleb fp mp) eqn:E1, (Qgtb fc mc) eqn:E2; cbn [andb].
  1:{ left. apply Qleb_le in E1. apply Qgtb_gt in E2. auto. }
  all: destruct (Qgeb fp mp) eqn:E3, (Qltb fc mc) eqn:E4; cbn [andb].
  all: try apply Qleb_le in E1; try apply Qleb_gt in E1;
       try apply Qgtb_gt in E2; try apply Qgtb_le in E2;
       try apply Qle_bool_iff in E3; try apply Qltb_lt in E4;
       try apply Qltb_ge in E4.
  all: try (right; left; repeat split; auto; intros [? ?]; lra).
  all: right; right; repeat split; auto; intros [? ?]; try lra.
  all: unfold Qgeb in E3; apply Qleb_gt in E3; lra.
Qed.

Lemma map_each_getitem_Forall2 key (l : list Candle) l' :
  map_each (fun c : Candle => dict_getitem c key) l = Ok l' ->
  Forall2 (fun (c : Candle) x => c !! key = Some x) l l'.
Proof.
  revert l'. induction l as [|c l IH]; intros l'; cbn [map_each].
  - intros [= <-]. constructor.
  - destruct (dict_getitem c key) as [x|] eqn:Hx; simpl; [|discriminate].
    destruct (map_each _ l) as [xs|] eqn:Hxs; simpl; [|discriminate].
    intros Heq. injection Heq as <-. constructor; [|apply IH; reflexivity].
    unfold dict_getitem in Hx. destruct (c !! key); [|discriminate].
    now injection Hx as ->.
Qed.

Lemma getitem_last {A} (l : list A) x : getitem l (-1) = Ok x -> last l = Some x.
Proof.
  unfold getitem, index. change (-1 <? 0)%Z with true. cbv iota.
  destruct (_ && _)%bool eqn:E; step_bind; [|discriminate].
  destruct (l !! _) as [y|] eqn:Hy; [|discriminate]. intros [= <-].
  rewrite last_lookup. rewrite <- Hy. f_equal. lia.
Qed.

Lemma Forall2_last {A B} (R : A -> B -> Prop) l l' y :
  Forall2 R l l' -> last l' = Some y -> exists x, last l = Some x /\ R x y.
Proof.
  intros HF. revert y. induction HF as [|a b l l' Hab HF IH]; intros y.
  - discriminate.
  - destruct HF as [|a' b' l l' Hab' HF].
    + cbn. intros [= <-]. eauto.
    + change (last (b :: b' :: l')) with (last (b' :: l')).
      change (last (a :: a' :: l)) with (last (a' :: l)). apply IH.
Qed.

(** What a returned signal is made of. *)
Lemma get_signal_inv self (ohlcv_data : list Candle) now s :
  get_signal fmt self ohlcv_data now = Ok (Some s) ->
  exists closes lows highs e9 e21 e200 prev_9 prev_21 volume_ratio,
    (Z.max (ema_slow self + 10) 250 <= Z.of_nat (length ohlcv_data))%Z
    /\ (map_each (fun c : Candle => dict_getitem c "close") ohlcv_data
          = Ok closes
        /\ map_each (fun c : Candle => dict_getitem c "low") ohlcv_data
           = Ok lows
        /\ map_each (fun c : Candle => dict_getitem c "high") ohlcv_data
           = Ok highs)
    /\ (calculate_ema closes (ema_fast self) = Ok e9
        /\ calculate_ema closes (ema_medium self) = Ok e21
        /\ calculate_ema closes (ema_slow self) = Ok e200)
    /\ (getitem closes (-1) = Ok (entry_price s)
        /\ getitem e9 (-1) = Ok (ema_9 s)
        /\ getitem e21 (-1) = Ok (ema_21 s)
        /\ getitem e200 (-1) = Ok (ema_200 s))
    /\ ((action s = "BUY"%string
         /\ detect_crossover (ema_9 s) (ema_21 s) prev_9 prev_21
            = Some "BULLISH"%string
         /\ ema_200 s < entry_price s
         /\ find_swing_low lows (swing_lookback self) = Ok (swing_point s)
         /\ stop_loss s = swing_point s - swing_point s * 0.001
         /\ take_profit s =
              entry_price s + Qabs (entry_price s - stop_loss s) * min_rrr self)
        \/ (action s = "SELL"%string
            /\ detect_crossover (ema_9 s) (ema_21 s) prev_9 prev_21
               = Some "BEARISH"%string
            /\ entry_price s < ema_200 s
            /\ find_swing_high highs (swing_lookback self) = Ok (swing_point s)
            /\ stop_loss s = swing_point s + swing_point s * 0.001
            /\ take_profit s =
                 entry_price s
                 - Qabs (entry_price s - stop_loss s) * min_rrr self))
    /\ ~ Qabs (entry_price s - stop_loss s) == 0
    /\ risk_reward_ratio s =
         Qabs (entry_price s - stop_loss s) * min_rrr self
         / Qabs (entry_price s - stop_loss s)
    /\ calculate_confidence (action s) (entry_price s) (ema_9 s) (ema_21 s)
         (ema_200 s) volume_ratio = Ok (confidence s)
    /\ min_confidence self <= confidence s
    /\ timestamp s = now.
Proof.
  intros H. unfold get_signal in H. cbv zeta in H.
  repeat inv_step H.
  all: try match goal with
           | Hx : (_ =? _)%string = _ |- _ =>
               solve [vm_compute in Hx; discriminate Hx]
           end.
  all: injection H as Hs; subst s; cbv beta iota delta [action entry_price
         stop_loss take_profit swing_point ema_9 ema_21 ema_200
         risk_reward_ratio confidence timestamp].
  all: match goal with
       | Hx : Ok (_, _, _) = Ok (_, _, _) |- _ => injection Hx as <- <- <-
       end.
  all: repeat match goal with
              | Hx : (_ && _)%bool = true |- _ =>
                  apply andb_true_iff in Hx as [? ?]
              | Hx : (?x =? _)%string = true |- _ =>
                  apply String.eqb_eq in Hx; try subst x
              end.
  all: match goal with
       | Hx : np_div _ _ = Ok _ |- _ => apply np_div_Ok_inv in Hx as [Hnz ->]
       end.
  all: match goal with
       | Hx : Qltb _ (min_confidence _) = false |- _ => apply Qltb_ge in Hx
       end.
  all: match goal with
       | Hx : (_ <? _)%Z = false |- _ => apply Z.ltb_ge in Hx
       end.
  all: match goal with
       | Hd : detect_crossover _ _ ?p9 ?p21 = Some _,
         Hcf : calculate_confidence _ _ _ _ _ ?vr = Ok _,
         Hcl : map_each (fun c : Candle => dict_getitem c "close") _ = Ok ?cl,
         Hlo : map_each (fun c : Candle => dict_getitem c "low") _ = Ok ?lo,
         Hhi : map_each (fun c : Candle => dict_getitem c "high") _ = Ok ?hi,
         H9 : calculate_ema ?cl (ema_fast _) = Ok ?e9,
         H21 : calculate_ema ?cl (ema_medium _) = Ok ?e21,
         H200 : calculate_ema ?cl (ema_slow _) = Ok ?e200
         |- _ => exists cl, lo, hi, e9, e21, e200, p9, p21, vr
       end.
  all: split; [assumption|].
  all: split; [repeat split; assumption|].
  all: split; [repeat split; assumption|].
  all: split; [repeat split; assumption|].
  all: split; [|split; [assumption|split; [reflexivity|split;
         [assumption|split; [assumption|reflexivity]]]]].
  all: first
    [ left; repeat split; try assumption; try reflexivity; now apply Qgtb_gt
    | right; repeat split; try assumption; try reflexivity;
      now apply Qltb_lt ].
Qed.


(** X6.  The exit levels of a returned signal are built on the last swing
    point: a BUY has its stop 0.1% under the swing low of the lows and its
    target above the entry, a SELL has its stop 0.1% over the swing high of
    the highs and its target below the entry.  The target is one stop
    distance times [min_rrr] away from the entry, the reported ratio is
    that distance over the stop distance, and the stop is never at the
    entry. *)
Theorem signal_exit_levels self (ohlcv_data : list Candle) now s :
  get_signal fmt self ohlcv_data now = Ok (Some s) ->
  let sl_distance := Qabs (entry_price s - stop_loss s) in
  let tp_distance := sl_distance * min_rrr self in
  ~ stop_loss s == entry_price s
  /\ risk_reward_ratio s = tp_distance / sl_distance
  /\ ((action s = "BUY"%string
       /\ (exists lows,
             map_each (fun c : Candle => dict_getitem c "low") ohlcv_data
               = Ok lows
             /\ find_swing_low lows (swing_lookback self) = Ok (swing_point s))
       /\ stop_loss s = swing_point s - swing_point s * 0.001
       /\ take_profit s = entry_price s + tp_distance)
      \/ (action s = "SELL"%string
          /\ (exists highs,
                map_each (fun c : Candle => dict_getitem c "high") ohlcv_data
                  = Ok highs
                /\ find_swing_high highs (swing_lookback self)
                   = Ok (swing_point s))
          /\ stop_loss s = swing_point s + swing_point s * 0.001
          /\ take_profit s = entry_price s - tp_distance)).
Proof.
  intros H sl_distance tp_distance. apply get_signal_inv in H
    as (closes & lows & highs & e9 & e21 & e200 & p9 & p21 & vr & _
        & (_ & Hlo & Hhi) & _ & _ & Hdir & Hnz & Hrrr & _).
  split; [|split; [exact Hrrr|]].
  - intros Heq. apply Hnz. rewrite Heq.
    assert (H0 : entry_price s - entry_price s == 0) by ring.
    rewrite H0. reflexivity.
  - destruct Hdir as [(Ha & _ & _ & Hsw & Hsl & Htp)|(Ha & _ & _ & Hsw & Hsl & Htp)].
    + left. split; [exact Ha|]. split; [exists lows; split; assumption|].
      split; [exact Hsl|exact Htp].
    + right. split; [exact Ha|]. split; [exists highs; split; assumption|].
      split; [exact Hsl|exact Htp].
Qed.

(** X7.  The confidence of a returned signal is at least the configured
    minimum and at most 90. *)
Theorem signal_confidence_bounds self (ohlcv_data : list Candle) now s :
  get_signal fmt self ohlcv_data now = Ok (Some s) ->
  min_confidence self <= confidence s /\ confidence s <= 90.
Proof.
  intros H. apply get_signal_inv in H
    as (closes & lows & highs & e9 & e21 & e200 & p9 & p21 & vr & _
        & _ & _ & _ & _ & _ & _ & Hc & Hmin & _).
  split; [exact Hmin|]. now apply confidence_score_bounds in Hc.
Qed.

End StrategyMore.

(** ** The moving average *)

Section EmaFacts.
Import strategy_engine.

(** The loop of [calculate_ema], run from index [a] for [k] turns. *)
Lemma ema_loop data m (k : nat) : forall (a : Z) (ema : list Q),
  length ema = length data ->
  (1 <= a)%Z -> (a + Z.of_nat k <= Z.of_nat (length data))%Z ->
  exists ema',
    for_each (ema_step data m) (seqZ a (Z.of_nat k)) ema = Ok ema'
    /\ length ema' = length data
    /\ (forall i, (i < Z.to_nat a)%nat -> ema' !! i = ema !! i)
    /\ (forall i, (Z.to_nat a <= i < Z.to_nat a + k)%nat ->
        exists d prev, data !! i = Some d /\ ema' !! (i - 1)%nat = Some prev
                       /\ ema' !! i = Some (d * m + prev * (1 - m))).
Proof.
  induction k as [|k IH]; intros a ema Hlen Ha Hk.
  - exists ema. cbn. repeat split; auto. intros i Hi. lia.
  - rewrite seqZ_cons by lia. cbn [for_each].
    destruct (getitem_ok data a) as (d & Hd & Hgd); [lia|].
    destruct (getitem_ok ema (a - 1)) as (prev & Hprev & Hgp); [lia|].
    assert (Hb : ema_step data m ema a
                 = Ok (<[Z.to_nat a := d * m + prev * (1 - m)]> ema)).
    { unfold ema_step. rewrite Hgd. step_bind. rewrite Hgp. step_bind.
      apply setitem_ok. lia. }
    rewrite Hb. step_bind.
    replace (Z.pred (Z.of_nat (S k))) with (Z.of_nat k) by lia.
    destruct (IH (Z.succ a) (<[Z.to_nat a := d * m + prev * (1 - m)]> ema))
      as (ema' & Hrun & Hlen' & Hlow & Hrec);
      [now rewrite length_insert|lia|lia|].
    exists ema'. split; [exact Hrun|]. split; [exact Hlen'|]. split.
    + intros i Hi. rewrite Hlow by lia.
      apply list_lookup_insert_ne. lia.
    + intros i Hi. destruct (decide (i = Z.to_nat a)) as [->|Hne].
      * exists d, prev. split; [exact Hd|]. split.
        -- rewrite Hlow by lia. rewrite list_lookup_insert_ne by lia.
           rewrite <- Hprev. f_equal. lia.
        -- rewrite Hlow by lia. apply list_lookup_insert_eq. lia.
      * apply Hrec. lia.
Qed.

(** What [calculate_ema] computes when the period fits the data. *)
Lemma calculate_ema_spec data period :
  (1 <= period <= Z.of_nat (length data))%Z ->
  let m := 2 / inject_Z (period + 1) in
  let p := Z.to_nat period in
  exists ema,
    calculate_ema data period = Ok ema
    /\ length ema = length data
    /\ (forall i, (i < p - 1)%nat -> ema !! i = Some 0)
    /\ ema !! (p - 1)%nat = Some (Qsum (take p data) / inject_Z period)
    /\ (forall i, (p <= i < length data)%nat ->
        exists d prev, data !! i = Some d /\ ema !! (i - 1)%nat = Some prev
                       /\ ema !! i = Some (d * m + prev * (1 - m))).
Proof.
  intros Hp m p. unfold calculate_ema.
  destruct (Z.of_nat (length data) <? period)%Z eqn:E; [lia|]. clear E.
  unfold Py.div. destruct (Qeqb (inject_Z (period + 1)) 0) eqn:E.
  { apply Qeqb_eq in E. unfold Qeq in E. cbn in E. lia. }
  step_bind. clear E.
  assert (Hslice : slice data None (Some period) = take p data).
  { unfold slice, slice_bound. destruct (period <? 0)%Z eqn:E; [lia|].
    rewrite drop_0. f_equal. lia. }
  rewrite Hslice.
  assert (Htake : length (take p data) = p) by (rewrite length_take; lia).
  assert (Hmean : mean (take p data)
                  = Ok (Qsum (take p data) / inject_Z period)).
  { unfold mean. destruct (take p data) as [|x r] eqn:Et.
    - cbn in Htake. lia.
    - rewrite Htake. now replace (Z.of_nat p) with period by lia. }
  rewrite Hmean. step_bind.
  rewrite setitem_ok by (rewrite length_replicate; lia). step_bind.
  set (sma := Qsum (take p data) / inject_Z period).
  set (ema0 := <[Z.to_nat (period - 1) := sma]> (replicate (length data) 0)).
  unfold range.
  destruct (ema_loop data (2 / inject_Z (period + 1))
              (length data - p) period ema0)
    as (ema & Hrun & Hlen & Hlow & Hrec).
  { unfold ema0. now rewrite length_insert, length_replicate. }
  { lia. } { lia. }
  replace (Z.of_nat (length data) - period)%Z
    with (Z.of_nat (length data - p)) by lia.
  exists ema. split; [exact Hrun|]. split; [exact Hlen|]. split; [|split].
  - intros i Hi. rewrite Hlow by lia. unfold ema0.
    rewrite list_lookup_insert_ne by lia. apply lookup_replicate_2. lia.
  - rewrite Hlow by lia. unfold ema0.
    replace (Z.to_nat (period - 1)) with (p - 1)%nat by lia.
    apply list_lookup_insert_eq. rewrite length_replicate. lia.
  - intros i Hi. apply Hrec. fold p. lia.
Qed.

(** X9.  For a period of at least 1, [calculate_ema] returns: nothing when
    the data is shorter than the period; otherwise one value per data
    point, zeros before index period - 1, the plain mean of the first
    [period] points at that index, and from there on
    [ema[i] = data[i] * m + ema[i - 1] * (1 - m)] with [m = 2 / (period + 1)]. *)
Theorem calculate_ema_recurrence data period :
  (1 <= period)%Z ->
  let m := 2 / inject_Z (period + 1) in
  let p := Z.to_nat period in
  ((Z.of_nat (length data) < period)%Z -> calculate_ema data period = Ok [])
  /\ ((period <= Z.of_nat (length data))%Z ->
      exists ema,
        calculate_ema data period = Ok ema
        /\ length ema = length data
        /\ (forall i, (i < p - 1)%nat -> ema !! i = Some 0)
        /\ ema !! (p - 1)%nat = Some (Qsum (take p data) / inject_Z period)
        /\ (forall i, (p <= i < length data)%nat ->
            exists d prev,
              data !! i = Some d /\ ema !! (i - 1)%nat = Some prev
              /\ ema !! i = Some (d * m + prev * (1 - m)))).
Proof.
  intros Hp m p. split.
  - intros Hshort. unfold calculate_ema. apply Z.ltb_lt in Hshort.
    now rewrite Hshort.
  - intros Hfit. apply calculate_ema_spec. lia.
Qed.

End EmaFacts.

(** ** Swing points *)

Section SwingFacts.
Import strategy_engine.

Lemma swing_scan (pick : list Q -> outcome Q) lows lookback :
  (forall l, l <> [] -> exists x, pick l = Ok x /\ x ∈ l) ->
  (0 <= lookback)%Z ->
  exists found,
    for_each (fun found i =>
                x ← getitem lows i;
                m ← pick (slice lows (Some (i - lookback)%Z)
                            (Some (i + lookback + 1)%Z));
                Ok (if Qeqb x m then (found ++ [x])%list else found))
      (range lookback (Z.of_nat (length lows) - lookback)) []
    = Ok found
    /\ Forall (fun x => x ∈ lows) found.
Proof.
  intros Hpick Hk.
  apply (for_each_inv _
           (fun i => (lookback <= i < Z.of_nat (length lows) - lookback)%Z)).
  - intros found i Hi Hfound.
    destruct (getitem_ok lows i) as (x & Hx & ->); [lia|]. step_bind.
    destruct (Hpick (slice lows (Some (i - lookback)%Z)
                       (Some (i + lookback + 1)%Z))) as (m & -> & _).
    { apply slice_window_ne_nil; lia. }
    step_bind. eexists. split; [reflexivity|].
    destruct (Qeqb x m); [|exact Hfound].
    apply Forall_app. split; [exact Hfound|].
    apply Forall_singleton. eapply list_elem_of_lookup_2, Hx.
  - unfold range. apply Forall_seqZ. intros i Hi. lia.
  - constructor.
Qed.

Lemma find_swing_low_total lows lookback :
  (0 <= lookback)%Z -> lows <> [] ->
  exists x, find_swing_low lows lookback = Ok x /\ x ∈ lows.
Proof.
  intros Hk Hne. unfold find_swing_low. cbv zeta.
  assert (Htail : exists x, min_of (slice lows (Some (- lookback)%Z) None) = Ok x
                            /\ x ∈ lows).
  { destruct (min_of_elem_of (slice lows (Some (- lookback)%Z) None))
      as (x & Hx & Hin); [now apply slice_tail_ne_nil|].
    exists x. split; [exact Hx|]. eapply slice_elem_of, Hin. }
  destruct (_ <? _)%Z.
  - destruct (_ <=? _)%Z; [exact Htail|]. now apply min_of_elem_of.
  - destruct (swing_scan min_of lows lookback min_of_elem_of Hk)
      as (found & Hrun & Hfound).
    unfold swing_low_step. rewrite Hrun. step_bind.
    destruct (last found) as [x|] eqn:Hlast; [|exact Htail].
    exists x. split; [reflexivity|].
    rewrite Forall_forall in Hfound. apply Hfound.
    apply last_Some in Hlast as (l' & ->). apply elem_of_app. right.
    apply list_elem_of_here.
Qed.

Lemma find_swing_high_total highs lookback :
  (0 <= lookback)%Z -> highs <> [] ->
  exists x, find_swing_high highs lookback = Ok x /\ x ∈ highs.
Proof.
  intros Hk Hne. unfold find_swing_high. cbv zeta.
  assert (Htail : exists x, max_of (slice highs (Some (- lookback)%Z) None) = Ok x
                            /\ x ∈ highs).
  { destruct (max_of_elem_of (slice highs (Some (- lookback)%Z) None))
      as (x & Hx & Hin); [now apply slice_tail_ne_nil|].
    exists x. split; [exact Hx|]. eapply slice_elem_of, Hin. }
  destruct (_ <? _)%Z.
  - destruct (_ <=? _)%Z; [exact Htail|]. now apply max_of_elem_of.
  - destruct (swing_scan max_of highs lookback max_of_elem_of Hk)
      as (found & Hrun & Hfound).
    unfold swing_high_step. rewrite Hrun. step_bind.
    destruct (last found) as [x|] eqn:Hlast; [|exact Htail].
    exists x. split; [reflexivity|].
    rewrite Forall_forall in Hfound. apply Hfound.
    apply last_Some in Hlast as (l' & ->). apply elem_of_app. right.
    apply list_elem_of_here.
Qed.

Lemma find_swing_empty lookback :
  (0 <= lookback)%Z ->
  find_swing_low [] lookback = Raise ValueError
  /\ find_swing_high [] lookback = Raise ValueError.
Proof.
  intros Hk. unfold find_swing_low, find_swing_high. cbv zeta. cbn [length].
  destruct (Z.ltb_spec (Z.of_nat 0) (lookback * 2 + 1)) as [_|H]; [|lia].
  destruct (lookback <=? Z.of_nat 0)%Z; split; reflexivity.
Qed.

(** X10.  For a lookback of at least 0, the swing low (high) of a non-empty
    series is found and is one of the lows (highs) of the series; on an
    empty series both searches raise ValueError. *)
Theorem find_swing_returns_a_price prices lookback :
  (0 <= lookback)%Z ->
  (prices = [] ->
   find_swing_low prices lookback = Raise ValueError
   /\ find_swing_high prices lookback = Raise ValueError)
  /\ (prices <> [] ->
      (exists x, find_swing_low prices lookback = Ok x /\ x ∈ prices)
      /\ (exists x, find_swing_high prices lookback = Ok x /\ x ∈ prices)).
Proof.
  intros Hk. split.
  - intros ->. now apply find_swing_empty.
  - intros Hne. split.
    + now apply find_swing_low_total.
    + now apply find_swing_high_total.
Qed.

End SwingFacts.

(** ** When [get_signal] returns, and when it raises *)

Section SignalTotality.
Import strategy_engine.
Context (fmt : Printer).

Lemma map_each_getitem_total key (l : list Candle) :
  Forall (fun c : Candle => is_Some (c !! key)) l ->
  exists l', map_each (fun c : Candle => dict_getitem c key) l = Ok l'
             /\ length l' = length l.
Proof.
  induction 1 as [|c l [x Hx] _ (l' & IH & Hlen)].
  - exists []. split; reflexivity.
  - exists (x :: l'). cbn [map_each].
    assert (Hc : dict_getitem c key = Ok x)
      by (unfold dict_getitem; now rewrite Hx).
    rewrite Hc. step_bind. rewrite IH. step_bind. split; [reflexivity|].
    cbn. now rewrite Hlen.
Qed.

Lemma getitem_from_end {A} (l : list A) i :
  (- Z.of_nat (length l) <= i < 0)%Z -> exists x, getitem l i = Ok x.
Proof.
  intros Hk. unfold getitem, index.
  destruct (i <? 0)%Z eqn:E; [|lia].
  destruct ((0 <=? i + Z.of_nat (length l))%Z
            && (i + Z.of_nat (length l) <? Z.of_nat (length l))%Z) eqn:E2.
  - step_bind. destruct (l !! _) as [x|] eqn:Hx; [eauto|].
    apply lookup_ge_None in Hx. lia.
  - apply andb_false_iff in E2 as [E2|E2]; lia.
Qed.

Lemma getitem_nil {A} i : getitem (@nil A) i = Raise IndexError.
Proof.
  unfold getitem, index. cbn [length].
  destruct (i <? 0)%Z;
    destruct ((0 <=? _)%Z && (_ <? Z.of_nat 0)%Z) eqn:E; try reflexivity;
    apply andb_true_iff in E as [? ?]; lia.
Qed.

Lemma calculate_ema_total data period :
  (1 <= period)%Z ->
  exists ema, calculate_ema data period = Ok ema
              /\ ((period <= Z.of_nat (length data))%Z ->
                  length ema = length data)
              /\ ((Z.of_nat (length data) < period)%Z -> ema = []).
Proof.
  intros Hp. destruct (Z.ltb_spec (Z.of_nat (length data)) period) as [H|H].
  - exists []. unfold calculate_ema. apply Z.ltb_lt in H as H'. rewrite H'.
    split; [reflexivity|]. split; [lia|reflexivity].
  - destruct (calculate_ema_spec data period) as (ema & Hrun & Hlen & _);
      [lia|].
    exists ema. split; [exact Hrun|]. split; [intros _; exact Hlen|lia].
Qed.

Lemma mean_total (l : list Q) : l <> [] -> exists x, mean l = Ok x.
Proof. destruct l; [congruence|]. intros _. eexists. reflexivity. Qed.

Lemma calculate_confidence_total action close e9 e21 e200 vr :
  ~ close == 0 ->
  exists c, calculate_confidence action close e9 e21 e200 vr = Ok c.
Proof.
  intros Hc. unfold calculate_confidence, score_before_volume, np_div.
  cbv zeta. apply Qeqb_neq in Hc. rewrite Hc.
  destruct (String.eqb action "BUY"); [|destruct (String.eqb action "SELL")];
    step_bind; eexists; reflexivity.
Qed.

Lemma last_elem_of {A} (l : list A) x : last l = Some x -> x ∈ l.
Proof.
  intros H. apply last_Some in H as (l' & ->). apply elem_of_app. right.
  apply list_elem_of_here.
Qed.

(** X11.  On candles that carry the four prices, with a non-zero last
    close, periods between 1 and the number of candles and a lookback of
    at least 0, [get_signal] returns (a signal or none): it does not raise. *)
Theorem get_signal_returns self (ohlcv_data : list Candle) now :
  Forall priced ohlcv_data ->
  (1 <= ema_fast self <= Z.of_nat (length ohlcv_data))%Z ->
  (1 <= ema_medium self <= Z.of_nat (length ohlcv_data))%Z ->
  (1 <= ema_slow self)%Z ->
  (0 <= swing_lookback self)%Z ->
  exists r, get_signal fmt self ohlcv_data now = Ok r.
Proof.
  intros Hdata Hfast Hmed Hslow Hlook.
  unfold get_signal. cbv zeta.
  destruct (_ <? _)%Z eqn:Hguard; [eexists; reflexivity|].
  apply Z.ltb_ge in Hguard.
  assert (Hlen : (250 <= Z.of_nat (length ohlcv_data))%Z) by lia.
  destruct (map_each_getitem_total "open" ohlcv_data) as (opens & -> & _).
  { eapply Forall_impl; [exact Hdata|]. intros c Hc. apply Hc. }
  step_bind.
  destruct (map_each_getitem_total "high" ohlcv_data) as (highs & -> & Hhighs).
  { eapply Forall_impl; [exact Hdata|]. intros c Hc. apply Hc. }
  step_bind.
  destruct (map_each_getitem_total "low" ohlcv_data) as (lows & -> & Hlows).
  { eapply Forall_impl; [exact Hdata|]. intros c Hc. apply Hc. }
  step_bind.
  destruct (map_each_getitem_total "close" ohlcv_data)
    as (closes & Hcloses & Hcl).
  { eapply Forall_impl; [exact Hdata|]. intros c (_ & _ & _ & x & Hx & _).
    now exists x. }
  rewrite Hcloses. step_bind.
  destruct (calculate_ema_total closes (ema_fast self))
    as (e9 & -> & He9 & _); [lia|]. step_bind.
  destruct (calculate_ema_total closes (ema_medium self))
    as (e21 & -> & He21 & _); [lia|]. step_bind.
  destruct (calculate_ema_total closes (ema_slow self))
    as (e200 & -> & He200 & _); [lia|]. step_bind.
  specialize (He9 ltac:(lia)). specialize (He21 ltac:(lia)).
  specialize (He200 ltac:(lia)).
  destruct (getitem_from_end closes (-1)) as (cc & Hcc); [lia|].
  rewrite Hcc. step_bind.
  assert (Hnz : ~ cc == 0).
  { apply map_each_getitem_Forall2 in Hcloses. apply getitem_last in Hcc.
    destruct (Forall2_last _ _ _ _ Hcloses Hcc) as (c & Hlast & Hc).
    rewrite Forall_forall in Hdata.
    destruct (Hdata c (last_elem_of _ _ Hlast)) as (_ & _ & _ & x & Hx & Hx0).
    rewrite Hc in Hx. now injection Hx as ->. }
  destruct (getitem_from_end e9 (-1)) as (c9 & ->); [lia|]. step_bind.
  destruct (getitem_from_end e21 (-1)) as (c21 & ->); [lia|]. step_bind.
  destruct (getitem_from_end e200 (-1)) as (c200 & ->); [lia|]. step_bind.
  assert (Hp9 : exists x, (if (1 <? length e9)%nat then getitem e9 (-2)
                           else Ok c9) = Ok x).
  { destruct (1 <? length e9)%nat; [|eauto]. apply getitem_from_end. lia. }
  destruct Hp9 as (p9 & ->). step_bind.
  assert (Hp21 : exists x, (if (1 <? length e21)%nat then getitem e21 (-2)
                            else Ok c21) = Ok x).
  { destruct (1 <? length e21)%nat; [|eauto]. apply getitem_from_end. lia. }
  destruct Hp21 as (p21 & ->). step_bind.
  set (volumes := map (fun c : Candle => default 0 (c !! "volume")) ohlcv_data).
  assert (Hvol : length volumes = length ohlcv_data)
    by apply length_map.
  assert (Hvne : volumes <> []) by (apply length_pos_ne_nil; lia).
  assert (Havg : exists x, (if (20 <=? length volumes)%nat
                            then mean (slice volumes (Some (-20)%Z) None)
                            else mean volumes) = Ok x).
  { destruct (20 <=? length volumes)%nat; apply mean_total; [|exact Hvne].
    apply (slice_tail_ne_nil volumes 20); [exact Hvne|lia]. }
  destruct Havg as (avg & ->). step_bind.
  destruct (getitem_from_end volumes (-1)) as (cv & ->); [lia|]. step_bind.
  assert (Hvr : exists x, (if Qgtb avg 0 then np_div cv avg else Ok 1.0)
                          = Ok x).
  { destruct (Qgtb avg 0) eqn:E; [|eauto]. apply Qgtb_gt in E.
    unfold np_div. destruct (Qeqb avg 0) eqn:E0; [|eauto].
    apply Qeqb_eq in E0. lra. }
  destruct Hvr as (vr & ->). step_bind.
  destruct (negb _ && negb _); [eexists; reflexivity|].
  destruct (detect_crossover c9 c21 p9 p21) as [crossover|];
    [|eexists; reflexivity].
  destruct ((crossover =? "BULLISH")%string && Qgtb cc c200);
    [|destruct ((crossover =? "BEARISH")%string && Qltb cc c200);
      [|eexists; reflexivity]];
    cbv beta iota.
  - change ("BUY" =? "BUY")%string with true. cbv iota.
    destruct (find_swing_low_total lows (swing_lookback self))
      as (low & -> & _); [exact Hlook|apply length_pos_ne_nil; lia|].
    step_bind. cbv beta iota.
    destruct (Qeqb (Qabs _) 0) eqn:Hsl; [eexists; reflexivity|].
    unfold np_div at 1. rewrite Hsl. step_bind.
    destruct (calculate_confidence_total "BUY" cc c9 c21 c200 vr Hnz)
      as (conf & ->).
    step_bind. destruct (Qltb conf _); eexists; reflexivity.
  - change ("SELL" =? "BUY")%string with false. cbv iota.
    destruct (find_swing_high_total highs (swing_lookback self))
      as (high & -> & _); [exact Hlook|apply length_pos_ne_nil; lia|].
    step_bind. cbv beta iota.
    destruct (Qeqb (Qabs _) 0) eqn:Hsl; [eexists; reflexivity|].
    unfold np_div at 1. rewrite Hsl. step_bind.
    destruct (calculate_confidence_total "SELL" cc c9 c21 c200 vr Hnz)
      as (conf & ->).
    step_bind. destruct (Qltb conf _); eexists; reflexivity.
Qed.

(** X12.  The minimum-data guard looks at the slow period only: when the
    history passes it but is shorter than the fast or the medium period,
    that EMA is empty and [get_signal] raises IndexError. *)
Theorem get_signal_raises_on_long_period self (ohlcv_data : list Candle) now :
  Forall priced ohlcv_data ->
  (Z.max (ema_slow self + 10) 250 <= Z.of_nat (length ohlcv_data))%Z ->
  (1 <= ema_fast self)%Z -> (1 <= ema_medium self)%Z ->
  (1 <= ema_slow self)%Z ->
  (Z.of_nat (length ohlcv_data) < ema_fast self
   \/ Z.of_nat (length ohlcv_data) < ema_medium self)%Z ->
  get_signal fmt self ohlcv_data now = Raise IndexError.
Proof.
  intros Hdata Hguard Hfast Hmed Hslow Hlong.
  unfold get_signal. cbv zeta.
  destruct (_ <? _)%Z eqn:E; [apply Z.ltb_lt in E; lia|]. clear E.
  destruct (map_each_getitem_total "open" ohlcv_data) as (opens & -> & _).
  { eapply Forall_impl; [exact Hdata|]. intros c Hc. apply Hc. }
  step_bind.
  destruct (map_each_getitem_total "high" ohlcv_data) as (highs & -> & _).
  { eapply Forall_impl; [exact Hdata|]. intros c Hc. apply Hc. }
  step_bind.
  destruct (map_each_getitem_total "low" ohlcv_data) as (lows & -> & _).
  { eapply Forall_impl; [exact Hdata|]. intros c Hc. apply Hc. }
  step_bind.
  destruct (map_each_getitem_total "close" ohlcv_data)
    as (closes & -> & Hcl).
  { eapply Forall_impl; [exact Hdata|]. intros c (_ & _ & _ & x & Hx & _).
    now exists x. }
  step_bind.
  destruct (calculate_ema_total closes (ema_fast self))
    as (e9 & -> & He9 & He9'); [lia|]. step_bind.
  destruct (calculate_ema_total closes (ema_medium self))
    as (e21 & -> & He21 & He21'); [lia|]. step_bind.
  destruct (calculate_ema_total closes (ema_slow self))
    as (e200 & -> & _); [lia|]. step_bind.
  destruct (getitem_from_end closes (-1)) as (cc & ->); [lia|]. step_bind.
  destruct (Z.ltb_spec (Z.of_nat (length closes)) (ema_fast self)) as [H9|H9].
  - rewrite (He9' H9). now rewrite getitem_nil.
  - destruct (getitem_from_end e9 (-1)) as (c9 & ->); [lia|]. step_bind.
    rewrite He21' by lia. now rewrite getitem_nil.
Qed.

(** X13.  The two readings of the market agree: on candles for which
    [get_signal] returns a signal, [analyze_market_state], when it
    returns, gives a summary (not the error dict) whose trend is
    STRONG_UPTREND for a BUY and STRONG_DOWNTREND for a SELL, and whose
    flags [ready_for_buy] and [ready_for_sell] are both false. *)
Theorem signal_agrees_with_market_state self (ohlcv_data : list Candle) now s st :
  get_signal fmt self ohlcv_data now = Ok (Some s) ->
  analyze_market_state self ohlcv_data = Ok st ->
  exists m,
    st = MarketInfo m
    /\ ((action s = "BUY"%string /\ trend m = "STRONG_UPTREND"%string)
        \/ (action s = "SELL"%string /\ trend m = "STRONG_DOWNTREND"%string))
    /\ ready_for_buy m = false /\ ready_for_sell m = false.
Proof.
  intros H Hst. apply get_signal_inv in H
    as (closes & lows & highs & e9 & e21 & e200 & p9 & p21 & vr & Hguard
        & (Hcl & Hlo & Hhi) & (H9 & H21 & H200) & (Hcc & Hc9 & Hc21 & Hc200)
        & Hdir & _).
  unfold analyze_market_state in Hst.
  destruct (_ <? _)%Z eqn:E in Hst; [apply Z.ltb_lt in E; lia|]. clear E.
  rewrite Hcl, Hhi, Hlo in Hst. step_bind_in Hst.
  rewrite H9, H21, H200 in Hst. step_bind_in Hst.
  rewrite Hcc, Hc200 in Hst. step_bind_in Hst.
  rewrite !Hc9, !Hc21 in Hst. step_bind_in Hst.
  destruct (detect_crossover_cases (ema_9 s) (ema_21 s) p9 p21)
    as [(Hd & _ & Hlt)|[(Hd & _ & Hlt & _)|(Hd & _)]];
    destruct Hdir as [(Ha & Hx & Ht & _)|(Ha & Hx & Ht & _)];
    rewrite Hd in Hx; try discriminate Hx.
  - apply Qgtb_gt in Ht as Ht'. apply Qgtb_gt in Hlt as Hlt'.
    apply Qleb_gt in Hlt as Hle.
    assert (Hnlt : Qltb (entry_price s) (ema_200 s) = false)
      by (apply Qltb_ge; lra).
    rewrite Ht', Hlt' in Hst. step_bind_in Hst.
    repeat inv_step Hst. injection Hst as <-. eexists. split; [reflexivity|].
    cbn [trend ready_for_buy ready_for_sell]. rewrite ?Ht', ?Hle, ?Hnlt.
    split; [left; split; [exact Ha|reflexivity]|]. split; reflexivity.
  - apply Qltb_lt in Ht as Ht'. apply Qltb_lt in Hlt as Hlt'.
    assert (Hngt : Qgtb (entry_price s) (ema_200 s) = false)
      by (apply Qgtb_le; lra).
    assert (Hge : Qgeb (ema_9 s) (ema_21 s) = false).
    { unfold Qgeb. apply Qleb_gt. exact Hlt. }
    assert (Hngt9 : Qgtb (ema_9 s) (ema_21 s) = false)
      by (apply Qgtb_le; lra).
    rewrite Hngt, Ht', Hlt', Hngt9 in Hst. step_bind_in Hst.
    repeat inv_step Hst. injection Hst as <-. eexists. split; [reflexivity|].
    cbn [trend ready_for_buy ready_for_sell]. rewrite ?Ht', ?Hge, ?Hngt.
    split; [right; split; [exact Ha|reflexivity]|]. split; reflexivity.
Qed.

End SignalTotality.

(** ** The ledger of the simulated executor *)

Section DryRunMore.
Import trade_executor.
Context (fmt : Printer).

Lemma list_remove_inv x l l' :
  list_remove x l = Ok l' ->
  exists before y after, l = before ++ y :: after /\ l' = before ++ after.
Proof.
  revert l'. induction l as [|y r IH]; intros l'; cbn [list_remove].
  - discriminate.
  - destruct (Position_eqb y x).
    + intros [= <-]. exists [], y, r. split; reflexivity.
    + destruct (list_remove x r) as [r'|] eqn:Hr; step_bind; [|discriminate].
      intros [= <-]. destruct (IH r' eq_refl) as (b & z & a & -> & ->).
      exists (y :: b), z, a. split; reflexivity.
Qed.

Lemma execute_trade_filled_aux self symbol side quantity entry_price
    stop_loss take_profit now1 now2 :
  let result :=
    execute_trade fmt self symbol side quantity entry_price stop_loss
      take_profit now1 now2 in
  let margin := quantity * entry_price * 0.01 in
  margin <= free (get_balance self) ->
  status (fst result) = FILLED
  /\ filled_price (fst result) = Some entry_price
  /\ filled_quantity (fst result) = quantity
  /\ (exists p,
        positions (snd result) = positions self ++ [p]
        /\ p_id p = order_id (fst result) /\ p_margin p = margin
        /\ p_side p = side /\ p_quantity p = quantity
        /\ p_entry_price p = entry_price)
  /\ order_history (snd result) = order_history self ++ [fst result]
  /\ total (get_balance (snd result)) = total (get_balance self)
  /\ order_counter (snd result) = (order_counter self + 1)%Z.
Proof.
  intros result margin Hle. subst result. unfold execute_trade. cbv zeta.
  apply Qgtb_le in Hle as Hb.
  match goal with
  | |- context [Qgtb _ (free (get_balance ?s))] =>
      change (free (get_balance s)) with (free (get_balance self))
  end.
  fold margin. rewrite Hb.
  cbn [fst snd status filled_price filled_quantity positions order_history
       order_id].
  split; [reflexivity|]. split; [reflexivity|]. split; [reflexivity|].
  split; [eexists; split; [reflexivity|repeat split; reflexivity]|].
  split; [reflexivity|]. split; reflexivity.
Qed.

Lemma find_position_last position_id l p :
  Forall (fun q => p_id q <> position_id) l -> p_id p = position_id ->
  find_position position_id (l ++ [p]) = Some p.
Proof.
  unfold find_position. intros Hl Hp.
  induction Hl as [|x l Hx _ IH]; cbn.
  - apply String.eqb_eq in Hp. now rewrite Hp.
  - apply String.eqb_neq in Hx. now rewrite Hx.
Qed.

(** X14.  Opening a trade and closing it by the id of the returned order
    gives back the position list as it was and changes the balance by the
    profit or loss of that trade alone, so by nothing when the exit price
    is the entry price; the order stays in the history.  The id must not
    be the id of a position already open. *)
Theorem open_then_close_round_trip self symbol side quantity entry_price stop_loss
    take_profit now1 now2 exit_price now3 :
  let opened :=
    execute_trade fmt self symbol side quantity entry_price stop_loss
      take_profit now1 now2 in
  quantity * entry_price * 0.01 <= free (get_balance self) ->
  Forall (fun q => p_id q <> order_id (fst opened)) (positions self) ->
  exists r self',
    close_position (snd opened) (order_id (fst opened)) exit_price now3
      = Ok (r, self')
    /\ status r = FILLED
    /\ positions self' = positions self
    /\ order_history self' = order_history self ++ [fst opened]
    /\ balance self' =
         balance self
         + (if String.eqb side "BUY"
            then (exit_price - entry_price) * quantity
            else (entry_price - exit_price) * quantity)
    /\ (exit_price == entry_price -> balance self' == balance self).
Proof.
  intros opened Hle Hfresh.
  destruct (execute_trade_filled_aux self symbol side quantity entry_price
              stop_loss take_profit now1 now2 Hle)
    as (_ & _ & _ & (p & Hpos & Hid & _ & Hside & Hq & He) & Hhist & Htot & _).
  fold opened in Hpos, Hid, Hhist, Htot.
  change (balance (snd opened) = balance self) in Htot.
  unfold close_position. rewrite Hpos.
  rewrite (find_position_last _ _ p Hfresh Hid).
  rewrite (list_remove_first p (positions self) []) by (now rewrite Hid).
  step_bind. rewrite app_nil_r.
  do 2 eexists. split; [reflexivity|].
  cbn [status positions order_history balance].
  rewrite Hside, Hq, He, Htot.
  split; [reflexivity|]. split; [reflexivity|]. split; [exact Hhist|].
  split; [destruct (String.eqb side "BUY"); reflexivity|].
  intros Heq. destruct (String.eqb side "BUY"); rewrite Heq; ring.
Qed.

Lemma reachable_inv self :
  reachable fmt self ->
  Forall (fun o => status o = FILLED) (order_history self)
  /\ Forall (fun p => exists o, o ∈ order_history self
                               /\ order_id o = p_id p
                               /\ quantity o = p_quantity p
                               /\ filled_price o = Some (p_entry_price p))
       (positions self)
  /\ (length (positions self) <= length (order_history self))%nat
  /\ (Z.of_nat (length (order_history self)) <= order_counter self)%Z.
Proof.
  induction 1 as [b|self _ IH|self _ IH
                  |self symbol side quantity entry_price sl tp now1 now2 _ IH
                  |self position_id exit_price now result self' _ IH Hclose].
  - cbn. repeat split; try constructor. lia.
  - exact IH.
  - exact IH.
  - destruct IH as (Hh & Hp & Hl & Hc).
    unfold execute_trade. cbv zeta.
    destruct (Qgtb _ _); cbn [snd order_history positions order_counter].
    + repeat split; try assumption. lia.
    + split; [|split; [|split]].
      * apply Forall_app. split; [exact Hh|]. now apply Forall_singleton.
      * apply Forall_app. split.
        -- eapply Forall_impl; [exact Hp|]. intros p (o & Ho & Hrest).
           exists o. split; [|exact Hrest]. apply elem_of_app. now left.
        -- apply Forall_singleton. eexists. split.
           ++ apply elem_of_app. right. apply list_elem_of_here.
           ++ repeat split; reflexivity.
      * rewrite !length_app. cbn. lia.
      * rewrite length_app. cbn. lia.
  - destruct IH as (Hh & Hp & Hl & Hc).
    unfold close_position in Hclose.
    destruct (find_position _ _) as [p|]; [|now injection Hclose as <- <-].
    destruct (list_remove p (positions self)) as [ps|] eqn:Hrm;
      step_bind_in Hclose; [|discriminate].
    injection Hclose as <- <-. cbn [order_history positions order_counter].
    apply list_remove_inv in Hrm as (b & y & a & Hps & ->).
    rewrite Hps in Hp, Hl. split; [exact Hh|]. split; [|split; [|exact Hc]].
    + apply Forall_app in Hp as [Hb Ha]. apply Forall_cons in Ha as [_ Ha].
      apply Forall_app. split; assumption.
    + rewrite length_app in *. cbn in Hl. lia.
Qed.

Lemma filter_all {A} (f : A -> bool) (l : list A) :
  Forall (fun x => f x = true) l -> List.filter f l = l.
Proof.
  induction 1 as [|x l Hx _ IH]; cbn; [reflexivity|]. now rewrite Hx, IH.
Qed.

(** X15.  A trade whose 1% margin is not above the free balance is filled
    at the entry price for the whole quantity: the order counter advances
    by one, one position is appended that carries the id of the order, the
    side, the quantity, the entry price and the margin, the order is
    recorded last in the history, and the balance attribute is untouched. *)
Theorem filled_trade_opens_one_position self symbol side quantity entry_price
    stop_loss take_profit now1 now2 :
  let result :=
    execute_trade fmt self symbol side quantity entry_price stop_loss
      take_profit now1 now2 in
  let margin := quantity * entry_price * 0.01 in
  margin <= free (get_balance self) ->
  status (fst result) = FILLED
  /\ filled_price (fst result) = Some entry_price
  /\ filled_quantity (fst result) = quantity
  /\ (exists p,
        positions (snd result) = positions self ++ [p]
        /\ p_id p = order_id (fst result) /\ p_margin p = margin
        /\ p_side p = side /\ p_quantity p = quantity
        /\ p_entry_price p = entry_price)
  /\ order_history (snd result) = order_history self ++ [fst result]
  /\ total (get_balance (snd result)) = total (get_balance self)
  /\ order_counter (snd result) = (order_counter self + 1)%Z.
Proof. apply execute_trade_filled_aux. Qed.

(** X16.  Whatever sequence of calls produced a simulated executor, its
    history holds filled orders only (rejected orders and closes are never
    recorded), so [get_statistics] reports as many filled orders as total
    orders; every open position was opened by a recorded order, and the
    open positions are no more than the recorded orders, which are no
    more than the order counter. *)
Theorem reachable_history_holds_fills_only self :
  reachable fmt self ->
  Forall (fun o => status o = FILLED) (get_order_history self)
  /\ filled_orders (get_statistics self) = total_orders (get_statistics self)
  /\ Forall (fun p => exists o, o ∈ order_history self
                               /\ order_id o = p_id p
                               /\ quantity o = p_quantity p
                               /\ filled_price o = Some (p_entry_price p))
       (positions self)
  /\ (stat_open_positions (get_statistics self)
      <= total_orders (get_statistics self))%nat
  /\ (Z.of_nat (total_orders (get_statistics self)) <= order_counter self)%Z.
Proof.
  intros H. apply reachable_inv in H as (Hh & Hp & Hl & Hc).
  unfold get_order_history, get_statistics. cbv zeta.
  cbn [filled_orders total_orders stat_open_positions].
  split; [exact Hh|]. split; [|split; [exact Hp|split; [exact Hl|exact Hc]]].
  rewrite filter_all; [reflexivity|].
  eapply Forall_impl; [exact Hh|]. intros o Ho. unfold is_filled.
  now rewrite Ho.
Qed.

(** X17.  With a risk manager, the wrapper rejects a signal whose stop is
    at its entry before any executor is asked: the result is REJECTED with
    quantity 0 and no order id, and the wrapper, its executor included, is
    returned as it was. *)
Theorem execute_signal_rejects_zero_stop {E : Type}
    {base : BaseExecutor E} (self : TradeExecutor E) signal rm now1 now2 :
  strategy_engine.d_sl signal == strategy_engine.d_entry_price signal ->
  exists r,
    execute_signal fmt self signal (Some rm) now1 now2 = Ok (r, self)
    /\ status r = REJECTED /\ quantity r = 0 /\ order_id r = ""%string
    /\ error_message r
       = Some "Position size validation failed: Invalid stop loss distance"%string.
Proof.
  intros Heq. unfold execute_signal. cbv zeta.
  assert (Hs : Qleb (risk_manager.calculate_pips
                       (default "BTCUSDT"%string (strategy_engine.d_symbol signal))
                       (strategy_engine.d_entry_price signal)
                       (strategy_engine.d_sl signal)) 0 = true).
  { apply Qleb_le. rewrite calculate_pips_zero; [apply Qle_refl|].
    now symmetry. }
  unfold risk_manager.calculate_position_size. cbv zeta. rewrite Hs.
  step_bind. cbn [risk_manager.is_valid negb risk_manager.warning].
  eexists. split; [reflexivity|]. repeat split; reflexivity.
Qed.

End DryRunMore.

(** ** The bot over its cycles *)

Ltac run :=
  cbv beta iota
      delta [mbind trading_bot.M_bind mret trading_bot.M_ret trading_bot.get
             trading_bot.lift trading_bot.modify];
  cbn [fst snd].

(** A step that leaves alone what the invariant reads. *)
Ltac untouched := idtac; intros ? ?; cbn; assumption.

(** The rule of a primitive command, given the rules of [_log] and of
    [_set_state] for the invariant at hand. *)
Ltac prim log_rule state_rule :=
  idtac;
  lazymatch goal with
  | |- trading_bot.ends_in _ (mret _) _ => apply ends_in_ret
  | |- trading_bot.ends_in _ (trading_bot.lift _) _ => apply ends_in_lift
  | |- trading_bot.ends_in _ trading_bot.get _ => apply ends_in_get
  | |- trading_bot.ends_in _ (trading_bot.unwrap _) _ => apply ends_in_unwrap
  | |- trading_bot.ends_in _ (trading_bot._log _ _ _ _) _ => apply log_rule
  | |- trading_bot.ends_in _ (trading_bot._set_state _ _) _ =>
      apply state_rule
  | |- trading_bot.ends_in _ (trading_bot.now _) _ => untouched
  | |- trading_bot.ends_in _ (trading_bot.modify _) _ =>
      apply ends_in_modify; untouched
  end.

(** Walks through a method whose every step keeps the invariant. *)
Ltac chain step weaken :=
  repeat first
    [ step
    | match goal with
      | |- trading_bot.ends_in _ (mbind _ _) _ =>
          apply ends_in_bind_same; [ step | weaken | intros ? ]
      | |- trading_bot.ends_in _ (if ?b then _ else _) _ => destruct b
      | |- trading_bot.ends_in _ (match ?x with _ => _ end) _ => destruct x
      end
    | apply ends_in_post; [ step | weaken ]
    | progress cbv zeta ].

Section BotMore.
Import trading_bot.
Context (fmt : Printer) (time_at : nat -> datetime) (class_attrs : gset string).
Context {E : Type} {base : trade_executor.BaseExecutor E}.

Abbreviation _log := (_log time_at (E:=E)).
Abbreviation _set_state := (_set_state time_at (E:=E)).
Abbreviation now := (now time_at (E:=E)).

(** *** The rolling log *)

Lemma slice_last_1000_length {A} (l : list A) :
  (1000 < length l)%nat -> length (slice l (Some (-1000)%Z) None) = 1000%nat.
Proof.
  intros H. rewrite slice_last_1000 by exact H. rewrite length_drop. lia.
Qed.

Lemma _log_length level message data (self : TradingBot E) :
  length (logs (snd (_log level message data self)))
  = Nat.min 1000 (S (length (logs self))).
Proof.
  unfold trading_bot._log, trading_bot.now. run.
  match goal with
  | |- context [(1000 <? ?n)%nat] => destruct (1000 <? n)%nat eqn:Hlen
  end; cbn [logs set_logs set_ticks on_log];
    destruct (on_log self); run; cbn [logs set_logs set_notified set_ticks].
  all: try (apply Nat.ltb_ge in Hlen; cbn [logs set_logs set_ticks] in Hlen;
            rewrite length_app in *; cbn [length] in *; lia).
  all: apply Nat.ltb_lt in Hlen; cbn [logs set_logs set_ticks] in Hlen;
    rewrite slice_last_1000_length by exact Hlen;
    rewrite length_app in Hlen; cbn [length] in Hlen; lia.
Qed.

Abbreviation bounded_log :=
  (fun s : TradingBot E => (length (logs s) <= 1000)%nat).

Lemma bounded_log_log level message data :
  ends_in bounded_log (_log level message data) bounded_log.
Proof. intros self _. cbv beta. rewrite _log_length. lia. Qed.

Ltac log_chain state_rule :=
  chain ltac:(prim bounded_log_log state_rule) ltac:(auto).

Lemma bounded_log_set_state new_state :
  ends_in bounded_log (_set_state new_state) bounded_log.
Proof. unfold trading_bot._set_state. log_chain bounded_log_log. Qed.

Lemma bounded_log_execute_signal signal :
  ends_in bounded_log (_execute_signal fmt time_at signal) bounded_log.
Proof. unfold _execute_signal. log_chain bounded_log_set_state. Qed.

Lemma bounded_log_analysis_cycle fetched :
  ends_in bounded_log (_analysis_cycle fmt time_at fetched) bounded_log.
Proof.
  unfold _analysis_cycle. log_chain bounded_log_set_state.
  apply bounded_log_execute_signal.
Qed.

Lemma bounded_log_loop_iteration fetched :
  ends_in bounded_log (loop_iteration fmt time_at fetched) bounded_log.
Proof.
  intros self H. unfold loop_iteration.
  pose proof (bounded_log_analysis_cycle fetched self H) as H'.
  destruct (_analysis_cycle fmt time_at fetched self) as [[[]|e] s'];
    cbn [snd] in *; [exact H'|].
  apply bounded_log_log. exact H'.
Qed.

(** *** The state and the exceptions of a cycle *)


Abbreviation busy :=
  (fun s : TradingBot E => state s = ANALYZING \/ state s = TRADING).






(** *** The trade ledger of the bot *)

Lemma ends_in_modify_then {B} (P R Q : TradingBot E -> Prop) f (k : M E B) :
  (forall s, P s -> R (f s)) -> ends_in R k Q ->
  ends_in P (modify f ≫= fun _ => k) Q.
Proof. intros Hf Hk self HP. run. apply Hk, Hf, HP. Qed.

Section Ledger.
Context (s0 : TradingBot E).

(** Nothing traded yet: the ledger is that of [s0]. *)
Abbreviation idle :=
  (fun s : TradingBot E =>
     trade_history s = trade_history s0
     /\ winning_trades (stats s) = winning_trades (stats s0)
     /\ losing_trades (stats s) = losing_trades (stats s0)
     /\ total_pnl (stats s) = total_pnl (stats s0)
     /\ open_positions s = open_positions s0
     /\ total_trades (stats s) = total_trades (stats s0)).

(** One trade [t] opened, counted [n] times so far. *)
Abbreviation opened t n :=
  (fun s : TradingBot E =>
     trade_history s = trade_history s0
     /\ winning_trades (stats s) = winning_trades (stats s0)
     /\ losing_trades (stats s) = losing_trades (stats s0)
     /\ total_pnl (stats s) = total_pnl (stats s0)
     /\ open_positions s = (open_positions s0 ++ [t])%list
     /\ total_trades (stats s) = (total_trades (stats s0) + n)%Z).

(** At most one trade opened, and counted. *)
Abbreviation settled :=
  (fun s : TradingBot E =>
     trade_history s = trade_history s0
     /\ winning_trades (stats s) = winning_trades (stats s0)
     /\ losing_trades (stats s) = losing_trades (stats s0)
     /\ total_pnl (stats s) = total_pnl (stats s0)
     /\ ((open_positions s = open_positions s0
          /\ total_trades (stats s) = total_trades (stats s0))
         \/ exists t,
              open_positions s = (open_positions s0 ++ [t])%list
              /\ total_trades (stats s) = (total_trades (stats s0) + 1)%Z
              /\ t_status t = "open"%string /\ t_exit_price t = None)).

Lemma idle_settled (s : TradingBot E) : idle s -> settled s.
Proof. cbv beta. intuition. Qed.

Lemma opened_settled t (s : TradingBot E) :
  t_status t = "open"%string -> t_exit_price t = None ->
  opened t 1 s -> settled s.
Proof. cbv beta. intros Ht1 Ht2 H. decompose [and] H. repeat split; eauto 10. Qed.

Lemma idle_log level message data :
  ends_in idle (_log level message data) idle.
Proof.
  intros self H. destruct (_log_frame time_at level message data self) as [_ Hs].
  unfold same_but_log in Hs. decompose [and] Hs. cbv beta.
  repeat match goal with Hx : _ (snd _) = _ |- _ => rewrite Hx; clear Hx end.
  exact H.
Qed.

Lemma opened_log t n level message data :
  ends_in (opened t n) (_log level message data) (opened t n).
Proof.
  intros self H. destruct (_log_frame time_at level message data self) as [_ Hs].
  unfold same_but_log in Hs. decompose [and] Hs. cbv beta.
  repeat match goal with Hx : _ (snd _) = _ |- _ => rewrite Hx; clear Hx end.
  exact H.
Qed.

Lemma idle_set_state new_state :
  ends_in idle (_set_state new_state) idle.
Proof.
  unfold trading_bot._set_state.
  chain ltac:(prim idle_log idle_log) ltac:(auto).
Qed.

Ltac idle_chain :=
  chain ltac:(prim idle_log idle_set_state) ltac:(exact idle_settled).

Lemma settled_execute_signal signal :
  ends_in idle (_execute_signal fmt time_at signal) settled.
Proof.
  unfold _execute_signal. idle_chain.
  match goal with
  | |- ends_in _ (modify (fun self => set_open_positions
                                        (open_positions self ++ [?tr]) self)
                  ≫= _) _ =>
      apply (ends_in_modify_then idle (opened tr 0) settled)
  end.
  { intros s H. cbn. decompose [and] H. repeat split; try assumption.
    - congruence.
    - lia. }
  match goal with
  | |- ends_in (opened ?tr 0) _ _ =>
      apply (ends_in_modify_then (opened tr 0) (opened tr 1) settled)
  end.
  { intros s H. cbn. decompose [and] H. repeat split; try assumption. lia. }
  chain ltac:(prim opened_log opened_log)
        ltac:(intros ? ?; eapply opened_settled; [| |eassumption]; reflexivity).
Qed.

Lemma settled_analysis_cycle fetched :
  ends_in idle (_analysis_cycle fmt time_at fetched) settled.
Proof.
  unfold _analysis_cycle. idle_chain. apply settled_execute_signal.
Qed.

Lemma settled_log level message data :
  ends_in settled (_log level message data) settled.
Proof.
  intros self H. destruct (_log_frame time_at level message data self) as [_ Hs].
  unfold same_but_log in Hs. decompose [and] Hs. cbv beta.
  repeat match goal with Hx : _ (snd _) = _ |- _ => rewrite Hx; clear Hx end.
  exact H.
Qed.

Lemma settled_loop_iteration fetched :
  settled (snd (loop_iteration fmt time_at fetched s0)).
Proof.
  unfold loop_iteration.
  assert (H0 : idle s0) by (cbv beta; repeat split; reflexivity).
  pose proof (settled_analysis_cycle fetched s0 H0) as H.
  destruct (_analysis_cycle fmt time_at fetched s0) as [[[]|e] s'];
    cbn [snd] in *; [exact H|].
  apply settled_log. exact H.
Qed.

End Ledger.

Lemma run_cycles_cons f fs (self : TradingBot E) :
  run_cycles fmt time_at (f :: fs) self
  = run_cycles fmt time_at fs (snd (loop_iteration fmt time_at f self)).
Proof. reflexivity. Qed.

(** X19.  The log is a window of the last 1000 entries: [_log] leaves
    min(1000, n + 1) entries in a log that held n, and over any number of
    cycles of the main loop a log of at most 1000 entries stays so. *)
Theorem log_never_exceeds_1000 :
  (forall level message data (self : TradingBot E),
     length (logs (snd (_log level message data self)))
     = Nat.min 1000 (S (length (logs self))))
  /\ (forall fetches (self : TradingBot E),
        (length (logs self) <= 1000)%nat ->
        (length (logs (run_cycles fmt time_at fetches self)) <= 1000)%nat).
Proof.
  split; [apply _log_length|].
  intros fetches. induction fetches as [|f fs IH]; intros self H.
  - exact H.
  - rewrite run_cycles_cons. apply IH.
    now apply (bounded_log_loop_iteration f self).
Qed.

(** X20.  The main loop only ever adds to the open positions: after any
    number of cycles the list is the old one followed by at most one new
    trade per cycle, each with status open and no exit price, and
    [total_trades] has grown by their number.  The trade history, the
    counts of winning and losing trades and the total PnL are never
    written. *)
Theorem cycles_only_append_positions fetches : forall self : TradingBot E,
  let self' := run_cycles fmt time_at fetches self in
  exists added,
    open_positions self' = (open_positions self ++ added)%list
    /\ (length added <= length fetches)%nat
    /\ Forall (fun t => t_status t = "open"%string /\ t_exit_price t = None)
         added
    /\ total_trades (stats self')
       = (total_trades (stats self) + Z.of_nat (length added))%Z
    /\ trade_history self' = trade_history self
    /\ winning_trades (stats self') = winning_trades (stats self)
    /\ losing_trades (stats self') = losing_trades (stats self)
    /\ total_pnl (stats self') = total_pnl (stats self).
Proof.
  induction fetches as [|f fs IH]; intros self; cbv zeta.
  - exists []. cbn. rewrite app_nil_r. repeat split; auto. lia.
  - rewrite run_cycles_cons.
    destruct (settled_loop_iteration self f) as (H1 & H2 & H3 & H4 & Hstep).
    destruct (IH (snd (loop_iteration fmt time_at f self)))
      as (added & Ha & Hn & Hopen & Ht & Hh & Hw & Hl & Hp).
    cbv zeta in *.
    rewrite Ha, Ht, Hh, Hw, Hl, Hp, H1, H2, H3, H4.
    destruct Hstep as [(Hsame & Hcount)|(t & Hadd & Hcount & Hst & Hex)].
    + exists added. rewrite Hsame, Hcount. cbn [length].
      repeat split; auto.
    + exists (t :: added). rewrite Hadd, Hcount, <- app_assoc. cbn [length app].
      repeat split; auto; [lia|lia].
Qed.

(** X21.  [get_logs] returns the last [limit] entries for a positive
    limit (all of them when the log is shorter); a limit of 0 returns the
    whole log, not an empty list, and a negative limit drops the oldest
    [-limit] entries. *)
Theorem get_logs_window (self : TradingBot E) limit :
  ((0 < limit)%Z ->
   get_logs self limit = drop (length (logs self) - Z.to_nat limit) (logs self))
  /\ (limit = 0%Z -> get_logs self limit = logs self)
  /\ ((limit < 0)%Z ->
      get_logs self limit = drop (Z.to_nat (- limit)) (logs self)).
Proof.
  unfold get_logs, slice, slice_bound.
  assert (Htake : forall k, take (length (logs self) - k) (drop k (logs self))
                            = drop k (logs self)).
  { intros k. apply take_ge. rewrite length_drop. lia. }
  split; [|split].
  - intros H. destruct (- limit <? 0)%Z eqn:Hneg; [|lia].
    replace (Z.to_nat _) with (length (logs self) - Z.to_nat limit)%nat by lia.
    apply Htake.
  - intros ->. change (- 0 <? 0)%Z with false. cbv iota.
    replace (Z.to_nat (Z.min _ _)) with 0%nat by lia. apply Htake.
  - intros H. destruct (- limit <? 0)%Z eqn:Hneg; [lia|].
    destruct (Nat.le_gt_cases (length (logs self)) (Z.to_nat (- limit)))
      as [Hlong|Hshort].
    + replace (Z.to_nat (Z.min _ _)) with (length (logs self)) by lia.
      rewrite Htake. now rewrite !drop_ge by lia.
    + replace (Z.to_nat (Z.min _ _)) with (Z.to_nat (- limit)) by lia.
      apply Htake.
Qed.

Lemma _set_state_full new_state (self : TradingBot E) :
  let s' := snd (_set_state new_state self) in
  fst (_set_state new_state self) = Ok tt
  /\ state s' = new_state /\ _running s' = _running self
  /\ config s' = config self /\ executor s' = executor self
  /\ open_positions s' = open_positions self
  /\ trade_history s' = trade_history self /\ stats s' = stats self.
Proof.
  cbv zeta. unfold trading_bot._set_state. run.
  match goal with |- context [_log ?l ?m ?d ?s] =>
    destruct (_log_frame time_at l m d s) as [Hok Hsame];
    destruct (_log l m d s) as [[[]|e] s'] eqn:Hl; simpl in Hok; [|discriminate]
  end.
  simpl in Hsame. unfold same_but_log in Hsame. decompose [and] Hsame.
  clear Hsame.
  run. destruct (on_state_change s'); run; cbn; repeat split; auto.
Qed.

Lemma _set_state_quiet new_state (self : TradingBot E) :
  on_log self = false -> on_state_change self = false ->
  notified (snd (_set_state new_state self)) = notified self.
Proof.
  intros Hlog Hstate. unfold trading_bot._set_state. run.
  match goal with |- context [_log ?l ?m ?d ?s] =>
    destruct (_log_frame time_at l m d s) as [Hok Hsame];
    destruct (_log_effect time_at l m d s) as (_ & _ & Hnote);
    cbv zeta in Hnote;
    destruct (_log l m d s) as [[[]|e] s'] eqn:Hl; simpl in Hok; [|discriminate]
  end.
  simpl in Hsame, Hnote. unfold same_but_log in Hsame. decompose [and] Hsame.
  clear Hsame. rewrite Hlog in Hnote.
  run. replace (on_state_change s') with false by (cbn in *; congruence).
  exact Hnote.
Qed.

Lemma stop_quiet (self : TradingBot E) :
  on_log self = false -> on_state_change self = false ->
  notified (snd (stop time_at self)) = notified self.
Proof.
  intros Hlog Hstate. unfold stop. run.
  destruct (_log_frame time_at "INFO" "Stopping bot..." None self)
    as [Hok Hsame].
  destruct (_log_effect time_at "INFO" "Stopping bot..." None self)
    as (_ & _ & Hnote).
  cbv zeta in Hnote. rewrite Hlog in Hnote.
  destruct (trading_bot._log time_at "INFO" "Stopping bot..." None self)
    as [[[]|e] s1]; simpl in Hok; [|discriminate].
  simpl in Hsame, Hnote. unfold same_but_log in Hsame. decompose [and] Hsame.
  clear Hsame.
  assert (Hnote2 : notified (snd (_set_state STOPPING s1)) = notified s1).
  { apply _set_state_quiet; congruence. }
  destruct (_set_state_full STOPPING s1) as (Hok2 & _).
  destruct (trading_bot._set_state time_at STOPPING s1) as [[[]|e] s2];
    simpl in Hok2; [|discriminate].
  cbn [snd] in *.
  change (executor (set_running false s2)) with (executor s2).
  destruct (executor s2); cbn; congruence.
Qed.

(** What [stop] does when no callback raises. *)
Lemma stop_frame (self : TradingBot E) :
  let r := stop time_at self in
  fst r = Ok tt
  /\ state (snd r) = STOPPING /\ _running (snd r) = false
  /\ executor (snd r) = trade_executor.shutdown <$> executor self
  /\ config (snd r) = config self
  /\ open_positions (snd r) = open_positions self
  /\ trade_history (snd r) = trade_history self
  /\ stats (snd r) = stats self.
Proof.
  cbv zeta. unfold stop. run.
  destruct (_log_frame time_at "INFO" "Stopping bot..." None self)
    as [Hok Hsame].
  destruct (trading_bot._log time_at "INFO" "Stopping bot..." None self)
    as [[[]|e] s1]; simpl in Hok; [|discriminate].
  simpl in Hsame. unfold same_but_log in Hsame. decompose [and] Hsame.
  clear Hsame.
  destruct (_set_state_full STOPPING s1)
    as (Hok2 & Hst & Hrun & Hcfg & Hex & Hop & Hth & Hstats).
  cbv zeta in *.
  destruct (trading_bot._set_state time_at STOPPING s1) as [[[]|e] s2];
    simpl in Hok2; [|discriminate].
  cbn [snd] in *.
  assert (Hexec : executor s2 = executor self) by congruence.
  change (executor (set_running false s2)) with (executor s2).
  destruct (executor s2) as [ex|] eqn:Hex2; rewrite <- Hexec; cbn;
    repeat split; congruence.
Qed.

End BotMore.

(** ** The bot on the simulated executor *)

Section BotDryRun.
Import trading_bot.
Context (fmt : Printer) (time_at : nat -> datetime).

Abbreviation Bot := (TradingBot trade_executor.DryRunExecutor).
Abbreviation dry := (trade_executor.DryRun_BaseExecutor fmt).

Lemma execute_signal_dry_run
    (ex0 : trade_executor.TradeExecutor trade_executor.DryRunExecutor)
    sig rmo t1 t2 result ex' :
  trade_executor.execute_signal fmt (base := dry) ex0 sig rmo t1 t2
    = Ok (result, ex') ->
  (trade_executor.status result = trade_executor.FILLED
   /\ exists p,
        trade_executor.positions (trade_executor.executor ex')
        = trade_executor.positions (trade_executor.executor ex0) ++ [p]
        /\ trade_executor.p_id p = trade_executor.order_id result)
  \/ (trade_executor.status result = trade_executor.REJECTED
      /\ trade_executor.positions (trade_executor.executor ex')
         = trade_executor.positions (trade_executor.executor ex0)).
Proof.
  unfold trade_executor.execute_signal. cbv zeta.
  assert (Hrun : forall q,
    (let (result0, e) :=
       trade_executor.execute_trade fmt (trade_executor.executor ex0)
         (default "BTCUSDT"%string (strategy_engine.d_symbol sig))
         (strategy_engine.d_action sig) q (strategy_engine.d_entry_price sig)
         (Some (strategy_engine.d_sl sig)) (Some (strategy_engine.d_tp sig))
         t1 t2 in
     Ok (result0,
         {| trade_executor.dry_run := trade_executor.dry_run ex0;
            trade_executor.executor_type := trade_executor.executor_type ex0;
            trade_executor.executor := e |})) = Ok (result, ex') ->
    (trade_executor.status result = trade_executor.FILLED
     /\ exists p,
          trade_executor.positions (trade_executor.executor ex')
          = trade_executor.positions (trade_executor.executor ex0) ++ [p]
          /\ trade_executor.p_id p = trade_executor.order_id result)
    \/ (trade_executor.status result = trade_executor.REJECTED
        /\ trade_executor.positions (trade_executor.executor ex')
           = trade_executor.positions (trade_executor.executor ex0))).
  { intros q. unfold trade_executor.execute_trade. cbv zeta.
    destruct (Qgtb _ _); intros [= <- <-]; cbn.
    - right. split; reflexivity.
    - left. split; [reflexivity|]. eexists. split; reflexivity. }
  destruct rmo as [rm|].
  - destruct (risk_manager.calculate_position_size _ _ _ _ _ _ _) as [ps|];
      step_bind; [|discriminate].
    destruct (negb (risk_manager.is_valid ps)).
    + intros [= <- <-]. right. split; reflexivity.
    + cbn [trade_executor.base_execute_trade dry
           trade_executor.DryRun_BaseExecutor]. step_bind. apply Hrun.
  - cbn [trade_executor.base_execute_trade dry
         trade_executor.DryRun_BaseExecutor]. step_bind. apply Hrun.
Qed.

Ltac frame_log l m d s :=
  let Hok := fresh "Hok" in
  let Hsame := fresh "Hsame" in
  let s' := fresh "s" in
  destruct (_log_frame time_at l m d s) as [Hok Hsame];
  destruct (trading_bot._log time_at l m d s) as [[[]|?] s'];
  simpl in Hok; [|discriminate Hok];
  simpl in Hsame; unfold same_but_log in Hsame;
  destruct Hsame as (_ & _ & _ & _ & _ & _ & _ & _ & ? & _ & _ & ? & _);
  clear Hok.

Ltac frame_set_state st s :=
  let Hok := fresh "Hok" in
  let s' := fresh "s" in
  destruct (_set_state_full time_at st s)
    as (Hok & _ & _ & _ & ? & ? & _ & _);
  cbv zeta in *;
  destruct (trading_bot._set_state time_at st s) as [[[]|?] s'];
  simpl in Hok; [|discriminate Hok]; cbn [snd] in *; clear Hok.

Ltac fire :=
  cbv beta iota; cbn [fst snd];
  lazymatch goal with
  | |- _ (snd (trading_bot._log _ ?l ?m ?d ?s)) => frame_log l m d s
  | |- _ (snd (match trading_bot._log _ ?l ?m ?d ?s with _ => _ end)) =>
      frame_log l m d s
  | |- _ (snd (match trading_bot._set_state _ ?st ?s with _ => _ end)) =>
      frame_set_state st s
  | |- _ (snd (match unwrap ?o ?s with _ => _ end)) =>
      unfold unwrap at 1; destruct o eqn:?; run
  | |- _ (snd (match trading_bot.now _ ?s with _ => _ end)) =>
      unfold trading_bot.now at 1
  | |- _ (snd (match ?x with _ => _ end)) => destruct x eqn:?
  | |- _ (snd ((match ?x with _ => _ end) _)) => destruct x eqn:?
  | |- _ (snd ((if ?b then _ else _) _)) => destruct b eqn:?
  | |- _ (snd (if ?b then _ else _)) => destruct b eqn:?
  end.

Lemma _execute_signal_step signal (s : Bot) (P : Bot -> Prop) :
  (forall s', traded_in_step s s' -> P s') ->
  P (snd (_execute_signal fmt time_at (base := dry) signal s)).
Proof.
  intros HP. unfold _execute_signal. run.
  repeat first
    [ fire
    | solve [cbv beta iota; cbn [fst snd]; apply HP; left; cbn; split;
             congruence] ].
  all: match goal with
       | Hx : trade_executor.execute_signal _ _ _ _ _ _ = Ok _ |- _ =>
           apply execute_signal_dry_run in Hx
       end.
  all: match goal with
       | Hx : _ \/ _ |- _ =>
           destruct Hx as [(Hst & p & Hpos & Hid)|(Hst & Hpos)]
       end; try congruence.
  all: cbn [snd]; apply HP; right.
  all: repeat match goal with
              | Hx : _ = _ (set_executor _ _) |- _ => cbn in Hx
              end.
  - left. exists t, t0, p. eexists. cbn.
    split; [congruence|]. split; [congruence|]. split; [exact Hpos|].
    split; [f_equal; congruence|cbn; symmetry; exact Hid].
  - left. exists t, t0, p. eexists. cbn.
    split; [congruence|]. split; [congruence|]. split; [exact Hpos|].
    split; [f_equal; congruence|cbn; symmetry; exact Hid].
  - right. exists t, t0. cbn.
    split; [congruence|]. split; [congruence|]. split; [exact Hpos|].
    congruence.
Qed.

Abbreviation sync :=
  (fun s : Bot =>
     exists ex,
       executor s = Some ex
       /\ map t_id (open_positions s)
          = map trade_executor.p_id
              (trade_executor.positions (trade_executor.executor ex))).

Lemma traded_in_step_sync (s s' : Bot) :
  traded_in_step s s' -> sync s -> sync s'.
Proof.
  intros [(He & Ho)|[(ex0 & ex' & p & trade & He0 & He' & Hp & Ho & Hid)
                    |(ex0 & ex' & He0 & He' & Hp & Ho)]] (ex & Hex & Hmap).
  - exists ex. split; congruence.
  - exists ex'. split; [exact He'|]. rewrite Ho, Hp, !map_app. cbn.
    rewrite Hid. f_equal. congruence.
  - exists ex'. split; [exact He'|]. rewrite Ho, Hp. congruence.
Qed.

Lemma sync_execute_signal signal :
  ends_in sync (_execute_signal fmt time_at (base := dry) signal) sync.
Proof.
  intros s Hs.
  apply (_execute_signal_step signal s sync).
  intros s' Hstep. exact (traded_in_step_sync s s' Hstep Hs).
Qed.


Lemma sync_log level message data :
  ends_in sync (trading_bot._log time_at level message data) sync.
Proof.
  intros self (ex & Hex & Hmap).
  destruct (_log_frame time_at level message data self) as [_ Hs].
  unfold same_but_log in Hs. decompose [and] Hs. exists ex.
  split; congruence.
Qed.

Lemma sync_set_state new_state :
  ends_in sync (trading_bot._set_state time_at new_state) sync.
Proof.
  intros self (ex & Hex & Hmap).
  destruct (_set_state_full time_at new_state self)
    as (_ & _ & _ & _ & He & Ho & _).
  cbv zeta in *. exists ex. split; congruence.
Qed.

Lemma sync_analysis_cycle fetched :
  ends_in sync (_analysis_cycle fmt time_at (base := dry) fetched) sync.
Proof.
  unfold _analysis_cycle.
  chain ltac:(prim sync_log sync_set_state) ltac:(auto).
  apply sync_execute_signal.
Qed.

Lemma sync_loop_iteration fetched :
  ends_in sync (loop_iteration fmt time_at (base := dry) fetched) sync.
Proof.
  intros self H. unfold loop_iteration.
  pose proof (sync_analysis_cycle fetched self H) as H'.
  destruct (_analysis_cycle fmt time_at fetched self) as [[[]|e] s'];
    cbn [snd] in *; [exact H'|].
  apply sync_log. exact H'.
Qed.

Lemma sync_run_cycles fetches : forall self : Bot,
  sync self -> sync (run_cycles fmt time_at (base := dry) fetches self).
Proof.
  induction fetches as [|f fs IH]; intros self H.
  - exact H.
  - change (run_cycles fmt time_at (base := dry) (f :: fs) self)
      with (run_cycles fmt time_at (base := dry) fs
              (snd (loop_iteration fmt time_at (base := dry) f self))).
    apply IH. now apply (sync_loop_iteration f self).
Qed.

(** X23.  With the simulated executor and no log callback installed, the
    bot and the executor keep the same ledger: if the ids of the bot's open
    positions are the ids of the executor's positions, in order, they still
    are after any number of cycles of the main loop. *)
Theorem bot_and_executor_ledgers_agree fetches : forall self : Bot,
  on_log self = false ->
  (exists ex,
     executor self = Some ex
     /\ map t_id (open_positions self)
        = map trade_executor.p_id
            (trade_executor.positions (trade_executor.executor ex))) ->
  let self' := run_cycles fmt time_at (base := dry) fetches self in
  exists ex',
    executor self' = Some ex'
    /\ map t_id (open_positions self')
       = map trade_executor.p_id
           (trade_executor.positions (trade_executor.executor ex')).
Proof.
  intros self _ H. cbv zeta. apply sync_run_cycles. exact H.
Qed.

(** X22.  On the simulated executor and with no log callback and no state
    callback installed, [stop] returns without raising.  It leaves the bot
    in state STOPPING (it is the main loop that moves on to STOPPED) with
    the running flag cleared and the executor, if there is one,
    disconnected; it calls no callback, and the config, the open positions,
    the trade history and the statistics are untouched. *)
Theorem stop_effects (self : Bot) :
  on_log self = false -> on_state_change self = false ->
  let r := stop time_at (base := dry) self in
  fst r = Ok tt
  /\ state (snd r) = STOPPING /\ _running (snd r) = false
  /\ executor (snd r)
     = trade_executor.shutdown (base := dry) <$> executor self
  /\ (forall ex, executor (snd r) = Some ex ->
      trade_executor.is_connected (trade_executor.executor ex) = false)
  /\ notified (snd r) = notified self
  /\ config (snd r) = config self
  /\ open_positions (snd r) = open_positions self
  /\ trade_history (snd r) = trade_history self
  /\ stats (snd r) = stats self.
Proof.
  intros Hlog Hstate. cbv zeta.
  destruct (stop_frame time_at (base := dry) self)
    as (H1 & H2 & H3 & H4 & H5 & H6 & H7 & H8). cbv zeta in *.
  split; [exact H1|]. split; [exact H2|]. split; [exact H3|].
  split; [exact H4|]. split; [|split; [|repeat split; assumption]].
  - intros ex Hex. rewrite H4 in Hex.
    destruct (executor self) as [ex0|]; [|discriminate Hex].
    injection Hex as <-. reflexivity.
  - apply stop_quiet; assumption.
Qed.

End BotDryRun.

(** * Instances *)

(** ** Worked instances *)

(** C2 on an empty history. *)
Lemma short_history_gives_no_signal_witness :
  strategy_engine.get_signal decimal_format samples.engine [] 0%Z = Ok None.
Proof.
  apply short_history_gives_no_signal. vm_compute. reflexivity.
Defined.

(** C3 (amended) at the scenario of the spec. *)
Lemma margin_excess_rejected_witness :
  exists r,
    risk_manager.calculate_position_size decimal_format samples.manager
      "XAUUSD" 2050.00 2040.00 2065.00 (Some 1.0) = Ok r
    /\ (10000.0 < risk_manager.margin_required r ->
        risk_manager.is_valid r = false
        /\ exists w, risk_manager.warning r = Some w
                     /\ String.prefix "Margin required" w = true).
Proof.
  destruct (proj1 (margin_excess_rejected decimal_format)
              10000.0 100%Z "standard"%string 2.0 1.0 "USD"%string
              "XAUUSD"%string 2050.00 2040.00 2065.00 (Some 1.0))
    as (r & Hr & _ & _ & Hover & _).
  - discriminate.
  - intros H. vm_compute in H. discriminate.
  - exists r. split; [exact Hr|exact Hover].
Defined.

(** C4 at entry = stop = 1.1000. *)
Lemma zero_stop_distance_rejected_witness :
  exists r,
    risk_manager.calculate_position_size decimal_format samples.manager
      "EURUSD" 1.1 1.1 1.11 None = Ok r
    /\ risk_manager.is_valid r = false
    /\ risk_manager.lot_size r = 0 /\ risk_manager.units r = 0%Z.
Proof.
  apply zero_stop_distance_rejected. reflexivity.
Defined.

(** C5: closing the open position of the sample executor at 51000. *)
Lemma close_position_settles_witness :
  exists r self',
    trade_executor.close_position samples.executor "DRY_000001" 51000 0%Z
      = Ok (r, self')
    /\ trade_executor.status r = trade_executor.FILLED
    /\ trade_executor.positions self' = []
    /\ trade_executor.balance self' == 10100.
Proof.
  destruct (proj1 (close_position_settles samples.executor "DRY_000001"
                     51000 0%Z))
    as (r & self' & p & before & after & Hc & Hs & Hl & Hp & Hb & Hl' & Hbuy & _).
  - eexists. split; [apply list_elem_of_here|reflexivity].
  - exists r, self'. split; [exact Hc|]. split; [exact Hs|].
    vm_compute in Hc. injection Hc as <- <-. split; reflexivity.
Defined.

(** C7: the busy bot, whose cap is 1, skips a signal. *)
Lemma max_open_positions_cap_witness :
  exists self',
    trading_bot._execute_signal decimal_format samples.clock
      (base := trade_executor.DryRun_BaseExecutor decimal_format)
      samples.signal samples.busy_bot = (Ok tt, self')
    /\ trading_bot.same_but_log samples.busy_bot self'
    /\ exists entry,
         last (trading_bot.logs self') = Some entry
         /\ trading_bot.level entry = "WARNING"%string.
Proof.
  apply (proj1 (max_open_positions_cap decimal_format samples.clock
                  (base := trade_executor.DryRun_BaseExecutor decimal_format))
           samples.signal samples.busy_bot 1%Z).
  - vm_compute. reflexivity.
  - vm_compute. discriminate.
Defined.

(** C8: a trade whose margin (1000) exceeds the free balance (100). *)
Lemma rejected_trade_changes_only_counter_witness :
  let self := trade_executor.__init__ 100 in
  let result :=
    trade_executor.execute_trade decimal_format self "BTCUSDT" "BUY" 1000 100
      None None 0%Z 0%Z in
  trade_executor.balance (snd result) = trade_executor.balance self
  /\ trade_executor.positions (snd result) = trade_executor.positions self
  /\ trade_executor.order_history (snd result)
     = trade_executor.order_history self
  /\ trade_executor.is_connected (snd result)
     = trade_executor.is_connected self
  /\ trade_executor.order_counter (snd result)
     = (trade_executor.order_counter self + 1)%Z.
Proof.
  intros self result.
  apply (proj2 (rejected_trade_changes_only_counter decimal_format self
                  "BTCUSDT"%string "BUY"%string 1000 100 None None 0%Z 0%Z)).
  vm_compute. reflexivity.
Defined.


(** ** The model at work *)

(** On the sample history the engine sees a golden cross above the slow
    average and signals BUY at the last close, with the stop 0.1% under
    the swing low at 99 and a risk-reward ratio of 1.5. *)
Example get_signal_on_sample_history :
  match strategy_engine.get_signal decimal_format samples.engine
          samples.history 7%Z with
  | Ok (Some s) =>
      strategy_engine.action s = "BUY"%string
      /\ strategy_engine.entry_price s == 101
      /\ strategy_engine.stop_loss s == 98.901
      /\ strategy_engine.risk_reward_ratio s == 1.5
      /\ strategy_engine.confidence s == 90
      /\ strategy_engine.timestamp s = 7%Z
  | _ => False
  end.
Proof. vm_compute. repeat split; reflexivity. Qed.

(** With a volume ratio of 2, above both thresholds, the score is
    25 + 20 + 15 + 15 for trend and price plus 15 for volume. *)
Example calculate_confidence_on_high_volume :
  match strategy_engine.calculate_confidence "BUY" 101 100.2 100.09 100.01 2.0 with
  | Ok c => c == 90
  | Raise _ => False
  end.
Proof. vm_compute. reflexivity. Qed.

(** The usage example of risk_manager.py: 0.1 lots, 10000 units, a margin
    of 205000 against an equity of 10000. *)
Example calculate_position_size_on_usage_example :
  match risk_manager.calculate_position_size decimal_format samples.manager
          "XAUUSD" 2050.00 2040.00 2065.00 (Some 1.0) with
  | Ok r =>
      risk_manager.lot_size r == 0.1 /\ risk_manager.units r = 10000%Z
      /\ risk_manager.potential_profit r == 150
      /\ risk_manager.is_valid r = false
      /\ risk_manager.warning r
         = Some "Margin required ($205000.00) melebihi equity ($10000.00)"%string
  | Raise _ => False
  end.
Proof. vm_compute. repeat split; reflexivity. Qed.

(** An update map that names [__class__]: the keys before it are applied,
    the call raises there, and the keys after it are never looked at. *)
Example update_config_stops_at_class_key :
  let r :=
    trading_bot.update_config decimal_format samples.clock samples.class_attrs
      [("symbol"%string, trading_bot.VStr "ETHUSDT");
       ("__class__"%string, trading_bot.VInt 1);
       ("timeframe"%string, trading_bot.VStr "4h")] samples.bot in
  fst r = Raise TypeError
  /\ trading_bot.config (snd r) !! "symbol"%string
     = Some (trading_bot.VStr "ETHUSDT")
  /\ trading_bot.config (snd r) !! "timeframe"%string
     = Some (trading_bot.VStr "1h")
  /\ length (trading_bot.logs (snd r))
     = S (length (trading_bot.logs samples.bot)).
Proof. vm_compute. repeat split; reflexivity. Qed.

(** ** Worked instances of the further properties *)

(** X1 with a requested risk of 5% against a maximum of 2%. *)
Lemma sizing_risk_is_capped_witness :
  exists r,
    risk_manager.calculate_position_size decimal_format samples.manager
      "EURUSD" 1.1 1.095 1.11 (Some 5.0) = Ok r
    /\ risk_manager.risk_percent r = 2.0
    /\ risk_manager.margin_required r <= 10000.0.
Proof.
  eexists. split; [vm_compute; reflexivity|].
  destruct (sizing_risk_is_capped decimal_format samples.manager
              "EURUSD" 1.1 1.095 1.11 (Some 5.0) _
              ltac:(vm_compute; reflexivity)) as (_ & _ & Hmax & _ & Hvalid).
  split.
  - apply Hmax. reflexivity.
  - apply Hvalid. reflexivity.
Defined.

(** X2 on the sample manager, and on a manager with leverage 0. *)
Lemma validate_trade_verdict_witness :
  (exists v,
     risk_manager.validate_trade decimal_format samples.manager
       "EURUSD" 1.1 1.095 1.11 0.1 = Ok v
     /\ (risk_manager.v_is_valid v = true <-> risk_manager.v_errors v = []))
  /\ risk_manager.validate_trade decimal_format
       (risk_manager.__init__ 10000.0 0 "standard" 2.0 1.0 "USD")
       "EURUSD" 1.1 1.095 1.11 0.1 = Raise ZeroDivisionError.
Proof.
  split.
  - destruct (proj2 (validate_trade_verdict decimal_format samples.manager
                       "EURUSD" 1.1 1.095 1.11 0.1))
      as (v & Hv & Herr & _).
    + discriminate.
    + intros H. vm_compute in H. discriminate H.
    + exists v. split; [exact Hv|exact Herr].
  - apply (proj1 (validate_trade_verdict decimal_format
                    (risk_manager.__init__ 10000.0 0 "standard" 2.0 1.0 "USD")
                    "EURUSD" 1.1 1.095 1.11 0.1)).
    left. reflexivity.
Defined.

(** X3 on the EURUSD sizing of the sample manager. *)
Lemma validate_trade_agrees_with_sizer_witness :
  exists r,
    risk_manager.calculate_position_size decimal_format samples.manager
      "EURUSD" 1.1 1.095 1.11 (Some 1.0) = Ok r
    /\ exists v,
         risk_manager.validate_trade decimal_format samples.manager
           "EURUSD" 1.1 1.095 1.11 (risk_manager.lot_size r) = Ok v
         /\ risk_manager.v_margin_required v = risk_manager.margin_required r
         /\ (risk_manager.v_is_valid v = true ->
             risk_manager.is_valid r = true).
Proof.
  eexists. split; [vm_compute; reflexivity|].
  destruct (validate_trade_agrees_with_sizer decimal_format
              10000.0 100%Z "standard"%string 2.0 1.0 "USD"%string
              "EURUSD"%string 1.1 1.095 1.11 (Some 1.0) _
              ltac:(discriminate)
              ltac:(intros H; vm_compute in H; discriminate H)
              ltac:(intros H; vm_compute in H; discriminate H)
              ltac:(vm_compute; reflexivity))
    as (v & Hv & Hm & _ & Hr).
  exists v. split; [exact Hv|]. split; [exact Hm|].
  apply Hr. reflexivity.
Defined.

(** X4 on the sample values of the confidence example. *)
Lemma calculate_confidence_range_witness :
  exists c,
    strategy_engine.calculate_confidence "BUY" 101 100.2 100.09 100.01 2.0
      = Ok c
    /\ 0 <= c <= 90.
Proof.
  eexists. split; [vm_compute; reflexivity|].
  apply (calculate_confidence_range "BUY" 101 100.2 100.09 100.01 2.0).
  vm_compute. reflexivity.
Defined.


(** X6 on the sample history. *)
Lemma signal_exit_levels_witness :
  exists s,
    strategy_engine.get_signal decimal_format samples.engine samples.history
      7%Z = Ok (Some s)
    /\ ~ strategy_engine.stop_loss s == strategy_engine.entry_price s
    /\ strategy_engine.risk_reward_ratio s
       = Qabs (strategy_engine.entry_price s - strategy_engine.stop_loss s)
         * strategy_engine.min_rrr samples.engine
         / Qabs (strategy_engine.entry_price s - strategy_engine.stop_loss s).
Proof.
  eexists. split; [vm_compute; reflexivity|].
  destruct (signal_exit_levels decimal_format samples.engine samples.history
              7%Z _ ltac:(vm_compute; reflexivity)) as (H1 & H2 & _).
  split; [exact H1|exact H2].
Defined.

(** X7 on the sample history. *)
Lemma signal_confidence_bounds_witness :
  exists s,
    strategy_engine.get_signal decimal_format samples.engine samples.history
      7%Z = Ok (Some s)
    /\ strategy_engine.min_confidence samples.engine
       <= strategy_engine.confidence s
    /\ strategy_engine.confidence s <= 90.
Proof.
  eexists. split; [vm_compute; reflexivity|].
  apply (signal_confidence_bounds decimal_format samples.engine
           samples.history 7%Z).
  vm_compute. reflexivity.
Defined.

(** X9 on four data points and a period of 2. *)
Lemma calculate_ema_recurrence_witness :
  exists ema,
    strategy_engine.calculate_ema [1; 2; 3; 4] 2 = Ok ema
    /\ length ema = 4%nat
    /\ ema !! 1%nat = Some (Qsum [1; 2] / 2).
Proof.
  destruct (proj2 (calculate_ema_recurrence [1; 2; 3; 4] 2 ltac:(lia))
              ltac:(cbn; lia))
    as (ema & Hrun & Hlen & _ & Hsma & _).
  exists ema. split; [exact Hrun|]. split; [exact Hlen|exact Hsma].
Defined.

(** X10 on three prices with a lookback of 1. *)
Lemma find_swing_returns_a_price_witness :
  (exists x, strategy_engine.find_swing_low [3; 1; 2] 1 = Ok x
             /\ x ∈ [3; 1; 2])
  /\ strategy_engine.find_swing_high [] 1 = Raise ValueError.
Proof.
  split.
  - apply (proj2 (find_swing_returns_a_price [3; 1; 2] 1 ltac:(lia))).
    discriminate.
  - apply (proj1 (find_swing_returns_a_price [] 1 ltac:(lia))). reflexivity.
Defined.

Lemma history_priced : Forall strategy_engine.priced samples.history.
Proof.
  unfold samples.history. apply Forall_app. split.
  - apply Forall_replicate. unfold strategy_engine.priced.
    repeat split; try (eexists; reflexivity).
    exists 100. split; [reflexivity|]. intros H. discriminate H.
  - apply Forall_singleton. unfold strategy_engine.priced.
    repeat split; try (eexists; reflexivity).
    exists 101. split; [reflexivity|]. intros H. discriminate H.
Qed.

(** X11 on the sample history. *)
Lemma get_signal_returns_witness :
  exists r,
    strategy_engine.get_signal decimal_format samples.engine samples.history
      0%Z = Ok r.
Proof.
  apply get_signal_returns.
  - exact history_priced.
  - split; vm_compute; discriminate.
  - split; vm_compute; discriminate.
  - vm_compute; discriminate.
  - vm_compute; discriminate.
Defined.

(** X12: a fast period of 300 on the 250 candles of the sample history. *)
Lemma get_signal_raises_on_long_period_witness :
  strategy_engine.get_signal decimal_format samples.slow_engine
    samples.history 0%Z = Raise IndexError.
Proof.
  apply get_signal_raises_on_long_period.
  - exact history_priced.
  - vm_compute; discriminate.
  - vm_compute; discriminate.
  - vm_compute; discriminate.
  - vm_compute; discriminate.
  - left. vm_compute. reflexivity.
Defined.

(** X13 on the sample history. *)
Lemma signal_agrees_with_market_state_witness :
  exists s st,
    strategy_engine.get_signal decimal_format samples.engine samples.history
      7%Z = Ok (Some s)
    /\ strategy_engine.analyze_market_state samples.engine samples.history
       = Ok st
    /\ exists m,
         st = strategy_engine.MarketInfo m
         /\ ((strategy_engine.action s = "BUY"%string
              /\ strategy_engine.trend m = "STRONG_UPTREND"%string)
             \/ (strategy_engine.action s = "SELL"%string
                 /\ strategy_engine.trend m = "STRONG_DOWNTREND"%string))
         /\ strategy_engine.ready_for_buy m = false
         /\ strategy_engine.ready_for_sell m = false.
Proof.
  do 2 eexists. split; [vm_compute; reflexivity|].
  split; [vm_compute; reflexivity|].
  apply (signal_agrees_with_market_state decimal_format samples.engine
           samples.history 7%Z); vm_compute; reflexivity.
Defined.

(** X15: 0.1 BTC at 50000 on a new executor with 10000. *)
Lemma filled_trade_opens_one_position_witness :
  let result :=
    trade_executor.execute_trade decimal_format
      (trade_executor.__init__ 10000.0) "BTCUSDT" "BUY" 0.1 50000 None None
      0%Z 0%Z in
  trade_executor.status (fst result) = trade_executor.FILLED
  /\ trade_executor.order_counter (snd result) = 1%Z
  /\ exists p,
       trade_executor.positions (snd result) = [p]
       /\ trade_executor.p_id p = trade_executor.order_id (fst result)
       /\ trade_executor.p_margin p = 0.1 * 50000 * 0.01.
Proof.
  intros result.
  destruct (filled_trade_opens_one_position decimal_format
              (trade_executor.__init__ 10000.0) "BTCUSDT"%string "BUY"%string
              0.1 50000 None None 0%Z 0%Z)
    as (Hs & _ & _ & (p & Hp & Hid & Hm & _) & _ & _ & Hc).
  - vm_compute. discriminate.
  - split; [exact Hs|]. split; [exact Hc|].
    exists p. split; [exact Hp|]. split; [exact Hid|exact Hm].
Defined.

(** X14: the same trade, closed at its entry price. *)
Lemma open_then_close_round_trip_witness :
  let opened :=
    trade_executor.execute_trade decimal_format
      (trade_executor.__init__ 10000.0) "BTCUSDT" "BUY" 0.1 50000 None None
      0%Z 0%Z in
  exists r self',
    trade_executor.close_position (snd opened)
      (trade_executor.order_id (fst opened)) 50000 0%Z = Ok (r, self')
    /\ trade_executor.positions self' = []
    /\ trade_executor.balance self' == 10000.0.
Proof.
  intros opened.
  destruct (open_then_close_round_trip decimal_format
              (trade_executor.__init__ 10000.0) "BTCUSDT"%string "BUY"%string
              0.1 50000 None None 0%Z 0%Z 50000 0%Z)
    as (r & self' & Hc & _ & Hp & _ & _ & Hb).
  - vm_compute. discriminate.
  - constructor.
  - exists r, self'. split; [exact Hc|]. split; [exact Hp|].
    apply Hb. reflexivity.
Defined.

(** X16 on the sample executor, which one call of [execute_trade] built. *)
Lemma reachable_history_holds_fills_only_witness :
  trade_executor.filled_orders (trade_executor.get_statistics samples.executor)
  = trade_executor.total_orders (trade_executor.get_statistics samples.executor).
Proof.
  apply (reachable_history_holds_fills_only decimal_format samples.executor).
  unfold samples.executor.
  apply trade_executor.reach_execute_trade, trade_executor.reach_init.
Defined.

(** X17 on the flat sample signal. *)
Lemma execute_signal_rejects_zero_stop_witness :
  exists r,
    trade_executor.execute_signal decimal_format
      (base := trade_executor.DryRun_BaseExecutor decimal_format)
      samples.wrapper samples.flat_signal (Some samples.manager) 0%Z 0%Z
      = Ok (r, samples.wrapper)
    /\ trade_executor.status r = trade_executor.REJECTED.
Proof.
  destruct (execute_signal_rejects_zero_stop decimal_format
              (base := trade_executor.DryRun_BaseExecutor decimal_format)
              samples.wrapper samples.flat_signal samples.manager 0%Z 0%Z)
    as (r & Hr & Hs & _).
  - reflexivity.
  - exists r. split; [exact Hr|exact Hs].
Defined.

(** X19 over one cycle of the sample bot. *)
Lemma log_never_exceeds_1000_witness :
  (length
     (trading_bot.logs
        (trading_bot.run_cycles decimal_format samples.clock
           (base := trade_executor.DryRun_BaseExecutor decimal_format)
           [Ok []] samples.bot)) <= 1000)%nat.
Proof.
  apply (proj2 (log_never_exceeds_1000 decimal_format samples.clock
                  (base := trade_executor.DryRun_BaseExecutor decimal_format))).
  vm_compute. lia.
Defined.


(** X21: a limit of 0 on the sample bot. *)
Lemma get_logs_window_witness :
  trading_bot.get_logs samples.bot 0 = trading_bot.logs samples.bot.
Proof.
  apply (proj1 (proj2 (get_logs_window samples.bot 0))). reflexivity.
Defined.

(** X23 over a cycle of the live sample bot on the sample history: the
    cycle opens the trade [DRY_000001] on both sides. *)
Lemma bot_and_executor_ledgers_agree_witness :
  let self' :=
    trading_bot.run_cycles decimal_format samples.clock
      (base := trade_executor.DryRun_BaseExecutor decimal_format)
      [Ok samples.history] samples.live_bot in
  map trading_bot.t_id (trading_bot.open_positions self')
    = ["DRY_000001"%string]
  /\ exists ex',
       trading_bot.executor self' = Some ex'
       /\ map trading_bot.t_id (trading_bot.open_positions self')
          = map trade_executor.p_id
              (trade_executor.positions (trade_executor.executor ex')).
Proof.
  intros self'. split; [vm_compute; reflexivity|].
  apply (bot_and_executor_ledgers_agree decimal_format samples.clock
           [Ok samples.history] samples.live_bot).
  - reflexivity.
  - eexists. split; reflexivity.
Defined.

(** X22 on the live sample bot. *)
Lemma stop_effects_witness :
  let r :=
    trading_bot.stop samples.clock
      (base := trade_executor.DryRun_BaseExecutor decimal_format)
      samples.live_bot in
  fst r = Ok tt
  /\ trading_bot.state (snd r) = trading_bot.STOPPING
  /\ trading_bot._running (snd r) = false.
Proof.
  intros r.
  destruct (stop_effects decimal_format samples.clock samples.live_bot
              eq_refl eq_refl) as (H1 & H2 & H3 & _).
  split; [exact H1|]. split; [exact H2|exact H3].
Defined.
